(** * Shopifake back-office scripts: lock generator and CSV seeder

    A shallow embedding of [scripts/lock/lib.py] and
    [scripts/seed_from_csv.py], with the properties of the two scripts
    proved over it.

    Conventions of the embedding:
    - a Python [str] is a [string]; white space and case mapping follow
      Python on the ASCII range, characters from 128 on are ordinary
      characters that no case map changes;
    - a Python exception is a value of [exn]; a computation that may raise
      returns a [result];
    - a JSON document (the value [json.loads] returns, the value [json.dump]
      takes) is a [json]; a [dict] whose order is observable is an
      association list in insertion order, a [dict] used only as a finite
      map is a [gmap];
    - the world outside the scripts (git, the HTTP gateway, the file system,
      the number and JSON parsers of the Python library) is a parameter or
      an explicit state. *)

From Stdlib Require Import ZArith Ascii String List Bool Lia Permutation Sorted.
From Stdlib Require Import DecimalString.
From Stdlib Require OrderedTypeEx.
From stdpp Require Import base option list gmap strings.

Import ListNotations.
Local Open Scope Z_scope.
Local Open Scope list_scope.
Local Open Scope stdpp_scope.

(** ** Exceptions and results *)

Inductive exn : Type :=
| HttpError (status : Z) (body : string)
| RuntimeError (msg : string)
| ValueError (msg : string)
| KeyError (key : string)
| TypeError (msg : string)
| AttributeError (msg : string)
| IndexError (msg : string)
| FileNotFoundError (msg : string)
| FileExistsError (msg : string)
| IsADirectoryError (msg : string)
| NotADirectoryError (msg : string)
| SystemExit (msg : string).

Inductive result (A : Type) : Type :=
| Ok (a : A)
| Raise (e : exn).

Arguments Ok {A} a.
Arguments Raise {A} e.

Definition is_ok {A} (r : result A) : bool :=
  match r with Ok _ => true | Raise _ => false end.

Definition rbind {A B} (r : result A) (k : A -> result B) : result B :=
  match r with
  | Ok a => k a
  | Raise e => Raise e
  end.

(** ** Python strings *)

Module PyStr.

Definition code (c : ascii) : N := N_of_ascii c.

(** [str.isspace] on the ASCII range. *)
Definition is_space (c : ascii) : bool :=
  let n := code c in
  (((9 <=? n) && (n <=? 13)) || ((28 <=? n) && (n <=? 32)))%N.

Definition lower_char (c : ascii) : ascii :=
  let n := code c in
  if ((65 <=? n) && (n <=? 90))%N then ascii_of_N (n + 32) else c.

Definition upper_char (c : ascii) : ascii :=
  let n := code c in
  if ((97 <=? n) && (n <=? 122))%N then ascii_of_N (n - 32) else c.

Fixpoint map_chars (f : ascii -> ascii) (s : string) : string :=
  match s with
  | EmptyString => EmptyString
  | String c s' => String (f c) (map_chars f s')
  end.

Definition lower : string -> string := map_chars lower_char.
Definition upper : string -> string := map_chars upper_char.

(** [s.lstrip(chars)] for a predicate on characters. *)
Fixpoint lstrip_by (p : ascii -> bool) (s : string) : string :=
  match s with
  | EmptyString => EmptyString
  | String c s' => if p c then lstrip_by p s' else s
  end.

(** [s.rstrip(chars)]: a character is dropped when all that follows it
    is dropped too. *)
Fixpoint rstrip_by (p : ascii -> bool) (s : string) : string :=
  match s with
  | EmptyString => EmptyString
  | String c s' =>
      match rstrip_by p s' with
      | EmptyString => if p c then EmptyString else String c EmptyString
      | r => String c r
      end
  end.

Definition strip (s : string) : string := rstrip_by is_space (lstrip_by is_space s).

Fixpoint mem_char (c : ascii) (chars : string) : bool :=
  match chars with
  | EmptyString => false
  | String d chars' => Ascii.eqb c d || mem_char c chars'
  end.

Definition lstrip_chars (chars s : string) : string :=
  lstrip_by (fun c => mem_char c chars) s.

Definition rstrip_chars (chars s : string) : string :=
  rstrip_by (fun c => mem_char c chars) s.

(** [s[:n]]. *)
Fixpoint take (n : nat) (s : string) : string :=
  match n, s with
  | S n', String c s' => String c (take n' s')
  | _, _ => EmptyString
  end.

(** [sep.join(parts)]. *)
Fixpoint join (sep : string) (parts : list string) : string :=
  match parts with
  | [] => EmptyString
  | [p] => p
  | p :: rest => p +:+ sep +:+ join sep rest
  end.

(** [s.split(sep)] for a one-character separator: the pieces between
    the separators, empty pieces included. *)
Fixpoint split_char_aux (sep : ascii) (s cur : string) : list string :=
  match s with
  | EmptyString => [cur]
  | String c s' =>
      if Ascii.eqb c sep then cur :: split_char_aux sep s' EmptyString
      else split_char_aux sep s' (cur +:+ String c EmptyString)
  end.

Definition split_char (sep : ascii) (s : string) : list string :=
  split_char_aux sep s EmptyString.

(** [s.split()] with no argument: the maximal runs of characters that
    are not white space. *)
Fixpoint words_aux (s cur : string) : list string :=
  match s with
  | EmptyString => match cur with EmptyString => [] | _ => [cur] end
  | String c s' =>
      if is_space c
      then match cur with
           | EmptyString => words_aux s' EmptyString
           | _ => cur :: words_aux s' EmptyString
           end
      else words_aux s' (cur +:+ String c EmptyString)
  end.

Definition words (s : string) : list string := words_aux s EmptyString.

(** Line boundaries of [str.splitlines] on the ASCII range. *)
Definition is_linebreak (c : ascii) : bool :=
  let n := code c in
  (((10 <=? n) && (n <=? 13)) || ((28 <=? n) && (n <=? 30)))%N.

(** [s.splitlines()]: a carriage return followed by a line feed is one
    boundary, and there is no empty last line after a final boundary.
    [after_cr] records that the previous character was a carriage return
    that closed a line. *)
Fixpoint splitlines_aux (after_cr : bool) (s cur : string) : list string :=
  match s with
  | EmptyString => match cur with EmptyString => [] | _ => [cur] end
  | String c s' =>
      if after_cr && (code c =? 10)%N then splitlines_aux false s' cur
      else if is_linebreak c
           then cur :: splitlines_aux (code c =? 13)%N s' EmptyString
           else splitlines_aux false s' (cur +:+ String c EmptyString)
  end.

Definition splitlines (s : string) : list string :=
  splitlines_aux false s EmptyString.

(** [needle in s]. *)
Fixpoint is_prefix (p s : string) : bool :=
  match p, s with
  | EmptyString, _ => true
  | String a p', String b s' => Ascii.eqb a b && is_prefix p' s'
  | String _ _, EmptyString => false
  end.

Fixpoint contains (needle s : string) : bool :=
  is_prefix needle s ||
  match s with
  | EmptyString => false
  | String _ s' => contains needle s'
  end.

(** [str(n)] for an [int]. *)
Definition of_Z (z : Z) : string := NilZero.string_of_int (Z.to_int z).

End PyStr.

(** [str(exc)] *)
Definition exn_str (e : exn) : string :=
  match e with
  | HttpError status body => "HTTP " +:+ PyStr.of_Z status +:+ ": " +:+ body
  | KeyError key => "'" +:+ key +:+ "'"
  | RuntimeError msg | ValueError msg | TypeError msg | AttributeError msg
  | IndexError msg | FileNotFoundError msg | FileExistsError msg
  | IsADirectoryError msg | NotADirectoryError msg | SystemExit msg => msg
  end.

(** ** JSON documents and Python values *)

(** A [float] is carried as the text [repr] gives for it: the scripts pass
    floats on and never compute with them. A [JObj] is a [dict] in
    insertion order. *)
#[warnings="-register-all"]
Inductive json : Type :=
| JNull
| JBool (b : bool)
| JInt (z : Z)
| JFloat (repr : string)
| JStr (s : string)
| JArr (items : list json)
| JObj (fields : list (string * json)).

(** Documents as trees over their scalars, for use as keys of finite maps. *)
Fixpoint json_to_tree (v : json) : gen_tree (bool + Z + string) :=
  match v with
  | JNull => GenNode 0 []
  | JBool b => GenLeaf (inl (inl b))
  | JInt z => GenLeaf (inl (inr z))
  | JFloat r => GenNode 1 [GenLeaf (inr r)]
  | JStr s => GenLeaf (inr s)
  | JArr items => GenNode 2 (map json_to_tree items)
  | JObj fields =>
      GenNode 3 (map (fun kv => let '(k, x) := kv in
                                GenNode 4 [GenLeaf (inr k); json_to_tree x]) fields)
  end.

Fixpoint json_of_tree (t : gen_tree (bool + Z + string)) : json :=
  match t with
  | GenLeaf (inl (inl b)) => JBool b
  | GenLeaf (inl (inr z)) => JInt z
  | GenLeaf (inr s) => JStr s
  | GenNode 1 [GenLeaf (inr r)] => JFloat r
  | GenNode 2 ts => JArr (map json_of_tree ts)
  | GenNode 3 ts =>
      JObj (map (fun t' =>
                   match t' with
                   | GenNode _ [GenLeaf (inr k); tx] => (k, json_of_tree tx)
                   | _ => (EmptyString, JNull)
                   end) ts)
  | _ => JNull
  end.

(** Induction on documents, with the members of arrays and objects. *)
Lemma json_ind' (P : json -> Prop) :
  P JNull ->
  (forall b, P (JBool b)) ->
  (forall z, P (JInt z)) ->
  (forall r, P (JFloat r)) ->
  (forall s, P (JStr s)) ->
  (forall items, Forall P items -> P (JArr items)) ->
  (forall fields, Forall (fun kv => P (snd kv)) fields -> P (JObj fields)) ->
  forall v, P v.
Proof.
  intros HNull HBool HInt HFloat HStr HArr HObj.
  fix IH 1.
  intros [ | b | z | r | s | items | fields ].
  - exact HNull.
  - apply HBool.
  - apply HInt.
  - apply HFloat.
  - apply HStr.
  - apply HArr. induction items as [ | x items IHitems ].
    + constructor.
    + constructor; [ apply IH | exact IHitems ].
  - apply HObj. induction fields as [ | [k x] fields IHfields ].
    + constructor.
    + constructor; [ apply IH | exact IHfields ].
Qed.

Lemma json_of_to_tree (v : json) : json_of_tree (json_to_tree v) = v.
Proof.
  induction v as [ | b | z | r | s | items IH | fields IH ] using json_ind'; simpl; try reflexivity.
  - f_equal. rewrite map_map. induction IH as [ | x items Hx _ IHl ]; simpl; [ reflexivity | ].
    rewrite Hx. f_equal. exact IHl.
  - f_equal. rewrite map_map. induction IH as [ | [k x] fields Hx _ IHl ]; simpl; [ reflexivity | ].
    simpl in Hx. rewrite Hx. f_equal. exact IHl.
Qed.

#[global] Instance json_eq_dec : EqDecision json.
Proof.
  intros x y. destruct (decide (json_to_tree x = json_to_tree y)) as [Heq | Hne].
  - left. rewrite <- (json_of_to_tree x), <- (json_of_to_tree y). f_equal. exact Heq.
  - right. intros ->. apply Hne. reflexivity.
Defined.

#[global] Instance json_countable : Countable json :=
  inj_countable' json_to_tree json_of_tree json_of_to_tree.

(** ** Dictionaries in insertion order *)

Module Dict.
Section Ops.
Context {V : Type}.

(** [d.get(k)] *)
Fixpoint get (k : string) (d : list (string * V)) : option V :=
  match d with
  | [] => None
  | (k', v) :: d' => if String.eqb k k' then Some v else get k d'
  end.

(** [d[k] = v]: an existing key keeps its place, a new key goes last. *)
Fixpoint set (k : string) (v : V) (d : list (string * V)) : list (string * V) :=
  match d with
  | [] => [(k, v)]
  | (k', v') :: d' =>
      if String.eqb k k' then (k, v) :: d' else (k', v') :: set k v d'
  end.

Definition keys (d : list (string * V)) : list string := map fst d.

(** [sorted(d.items())]: with the keys of a dictionary all different
    only the keys are ever compared; insertion from the right keeps
    the sort stable. *)
Fixpoint insert_sorted (kv : string * V) (l : list (string * V)) : list (string * V) :=
  match l with
  | [] => [kv]
  | kv' :: l' =>
      if String.leb (fst kv) (fst kv') then kv :: l
      else kv' :: insert_sorted kv l'
  end.

Definition sorted_items (d : list (string * V)) : list (string * V) :=
  fold_right insert_sorted [] d.
End Ops.

(** [sorted(xs)] for a list of strings. *)
Definition sorted (xs : list string) : list string :=
  map fst (sorted_items (map (fun x => (x, tt)) xs)).

(** The elements of [set(xs)], each once. *)
Fixpoint dedup (xs : list string) : list string :=
  match xs with
  | [] => []
  | x :: xs' => if existsb (String.eqb x) xs' then dedup xs' else x :: dedup xs'
  end.
End Dict.

Module Py.

(** [bool(v)] *)
Definition truthy (v : json) : bool :=
  match v with
  | JNull => false
  | JBool b => b
  | JInt z => negb (z =? 0)
  | JFloat r => negb (String.eqb r "0.0" || String.eqb r "-0.0")
  | JStr s => negb (String.eqb s "")
  | JArr items => match items with [] => false | _ => true end
  | JObj fields => match fields with [] => false | _ => true end
  end.

Definition truthy_str (s : string) : bool := negb (String.eqb s "").

Definition truthy_opt_str (o : option string) : bool :=
  match o with Some s => truthy_str s | None => false end.

(** [v[k]] for a string [k]. *)
Definition getitem (v : json) (k : string) : result json :=
  match v with
  | JObj fields =>
      match Dict.get k fields with
      | Some x => Ok x
      | None => Raise (KeyError k)
      end
  | JStr _ => Raise (TypeError "string indices must be integers")
  | JArr _ => Raise (TypeError "list indices must be integers or slices, not str")
  | _ => Raise (TypeError "object is not subscriptable")
  end.

(** [v.get(k)], [None] when the key is absent. *)
Definition get (v : json) (k : string) : result json :=
  match v with
  | JObj fields =>
      match Dict.get k fields with
      | Some x => Ok x
      | None => Ok JNull
      end
  | _ => Raise (AttributeError "object has no attribute 'get'")
  end.

(** [v.items()] *)
Definition items (v : json) : result (list (string * json)) :=
  match v with
  | JObj fields => Ok fields
  | _ => Raise (AttributeError "object has no attribute 'items'")
  end.

Fixpoint chars (s : string) : list json :=
  match s with
  | EmptyString => []
  | String c s' => JStr (String c EmptyString) :: chars s'
  end.

(** The values a [for] loop over [v] visits. *)
Definition iter (v : json) : result (list json) :=
  match v with
  | JArr items => Ok items
  | JObj fields => Ok (map (fun kv => JStr (fst kv)) fields)
  | JStr s => Ok (chars s)
  | _ => Raise (TypeError "object is not iterable")
  end.

(** [v.lower()] *)
Definition lower (v : json) : result string :=
  match v with
  | JStr s => Ok (PyStr.lower s)
  | _ => Raise (AttributeError "object has no attribute 'lower'")
  end.

(** Whether [v] can be a dictionary key. *)
Definition hashable (v : json) : bool :=
  match v with
  | JArr _ | JObj _ => false
  | _ => true
  end.

End Py.

(** ** The Python library the scripts call

    Parsers and printers of the Python library are parameters of the
    development: what they return on a text is not fixed here. *)
Class PyLib : Type := {
  (** [json.loads(text)]; a [ValueError] when the text is not JSON *)
  json_loads : string -> result json;
  (** [float(text)], as the [repr] of the float *)
  float_of_str : string -> result string;
  (** [float(n)] for an [int] *)
  float_of_int : Z -> result string;
  (** [int(text)] *)
  int_of_str : string -> result Z;
  (** [str(v)] for a list or a dictionary *)
  container_repr : json -> string;
  (** [str(uuid.UUID(text))], nothing when the text is no UUID *)
  uuid_of_str : string -> option string;
}.

Section PyConversions.
Context {py : PyLib}.

(** [str(v)] *)
Definition py_str (v : json) : string :=
  match v with
  | JStr s => s
  | JInt z => PyStr.of_Z z
  | JBool true => "True"
  | JBool false => "False"
  | JNull => "None"
  | JFloat r => r
  | JArr _ | JObj _ => container_repr v
  end.

(** [float(v)] *)
Definition py_float (v : json) : result string :=
  match v with
  | JFloat r => Ok r
  | JInt z => float_of_int z
  | JBool true => Ok "1.0"
  | JBool false => Ok "0.0"
  | JStr s => float_of_str s
  | _ => Raise (TypeError "float() argument must be a string or a real number")
  end.
End PyConversions.

(** ** [json.dump(payload, handle, indent=2, sort_keys=True)] *)

Module JsonDump.

Definition dquote : string := String (ascii_of_N 34) EmptyString.
Definition backslash : string := String (ascii_of_N 92) EmptyString.

Definition hex_digit (n : N) : string :=
  String (ascii_of_N (if (n <? 10)%N then 48 + n else 87 + n)) EmptyString.

(** One character under [ensure_ascii]: the short escapes, the printable
    ASCII characters as they are, the rest as a four-digit escape. *)
Definition escape_char (c : ascii) : string :=
  let n := PyStr.code c in
  if (n =? 34)%N then backslash +:+ dquote
  else if (n =? 92)%N then backslash +:+ backslash
  else if (n =? 10)%N then backslash +:+ "n"
  else if (n =? 13)%N then backslash +:+ "r"
  else if (n =? 9)%N then backslash +:+ "t"
  else if (n =? 8)%N then backslash +:+ "b"
  else if (n =? 12)%N then backslash +:+ "f"
  else if ((32 <=? n) && (n <=? 126))%N then String c EmptyString
  else backslash +:+ "u00" +:+ hex_digit (n / 16) +:+ hex_digit (n mod 16).

Fixpoint escape (s : string) : string :=
  match s with
  | EmptyString => EmptyString
  | String c s' => escape_char c +:+ escape s'
  end.

Definition encode_str (s : string) : string := dquote +:+ escape s +:+ dquote.

Definition encode_float (r : string) : string :=
  if String.eqb r "nan" then "NaN"
  else if String.eqb r "inf" then "Infinity"
  else if String.eqb r "-inf" then "-Infinity"
  else r.

Fixpoint spaces (n : nat) : string :=
  match n with
  | O => EmptyString
  | S n' => String " "%char (spaces n')
  end.

(** A new line and the indentation of nesting depth [level]. *)
Definition newline_indent (level : nat) : string :=
  String (ascii_of_N 10) (spaces (2 * level)).

Definition separator (level : nat) : string := "," +:+ newline_indent level.

(** The members of a dictionary are written in the order of their keys.
    Each member is encoded and the encoded members are then put in key
    order, which gives the text of sorting first and encoding next. *)
Fixpoint encode (level : nat) (v : json) : string :=
  match v with
  | JNull => "null"
  | JBool true => "true"
  | JBool false => "false"
  | JInt z => PyStr.of_Z z
  | JFloat r => encode_float r
  | JStr s => encode_str s
  | JArr [] => "[]"
  | JArr items =>
      "[" +:+ newline_indent (S level)
      +:+ PyStr.join (separator (S level)) (map (encode (S level)) items)
      +:+ newline_indent level +:+ "]"
  | JObj [] => "{}"
  | JObj fields =>
      "{" +:+ newline_indent (S level)
      +:+ PyStr.join (separator (S level))
            (map (fun kv => encode_str (fst kv) +:+ ": " +:+ snd kv)
               (Dict.sorted_items
                  (map (fun kv => let '(k, x) := kv in (k, encode (S level) x)) fields)))
      +:+ newline_indent level +:+ "}"
  end.

Definition dumps (v : json) : string := encode 0 v.

End JsonDump.

(** ** The file system the lock file is written to *)

Module FS.

(** A path is the list of its components below the working directory,
    which is the empty path. *)
Definition path : Type := list string.

Inductive node : Type :=
| File (content : string)
| Dir.

Definition t : Type := gmap (list string) node.

Definition path_str (p : path) : string :=
  match p with
  | [] => "."
  | _ => PyStr.join "/" p
  end.

(** [p.exists()] *)
Definition exists_ (fs : gmap (list string) node) (p : path) : bool :=
  match p with
  | [] => true
  | _ => match fs !! p with Some _ => true | None => false end
  end.

(** [p.is_dir()] *)
Definition is_dir (fs : gmap (list string) node) (p : path) : bool :=
  match p with
  | [] => true
  | _ => match fs !! p with Some Dir => true | _ => false end
  end.

(** [p.parent]; the working directory is its own parent. *)
Definition parent (p : path) : path := removelast p.

(** The prefixes of [p] that are not empty, shortest first, [p] last. *)
Fixpoint prefixes_from (base p : path) : list path :=
  match p with
  | [] => []
  | c :: p' => (base ++ [c]) :: prefixes_from (base ++ [c]) p'
  end.

Definition prefixes (p : path) : list path := prefixes_from [] p.

(** [p.mkdir(parents=True, exist_ok=True)]: every missing directory on
    the way to [p] is made; a regular file at [p] is a
    [FileExistsError], a regular file above [p] a [NotADirectoryError]. *)
Fixpoint mkdir_each (p : path) (qs : list path) (fs : gmap (list string) node)
  : result unit * gmap (list string) node :=
  match qs with
  | [] => (Ok tt, fs)
  | q :: qs' =>
      match fs !! q with
      | Some Dir => mkdir_each p qs' fs
      | Some (File _) =>
          if bool_decide (q = p)
          then (Raise (FileExistsError (path_str q)), fs)
          else (Raise (NotADirectoryError (path_str p)), fs)
      | None => mkdir_each p qs' (<[q := Dir]> fs)
      end
  end.

Definition mkdir_parents (p : path) (fs : gmap (list string) node)
  : result unit * gmap (list string) node :=
  mkdir_each p (prefixes p) fs.

(** [with p.open("w") as handle: handle.write(text)]: the file is made
    or replaced; a directory at [p], or no directory above it, is an
    error. *)
Definition write_text (p : path) (text : string) (fs : gmap (list string) node)
  : result unit * gmap (list string) node :=
  if is_dir fs p then (Raise (IsADirectoryError (path_str p)), fs)
  else if is_dir fs (parent p) then (Ok tt, <[p := File text]> fs)
  else if exists_ fs (parent p) then (Raise (NotADirectoryError (path_str p)), fs)
  else (Raise (FileNotFoundError (path_str p)), fs).

(** [with p.open("r") as handle: handle.read()] *)
Definition read_text (p : path) (fs : gmap (list string) node) : result string :=
  match p with
  | [] => Raise (IsADirectoryError (path_str p))
  | _ =>
      match fs !! p with
      | Some (File content) => Ok content
      | Some Dir => Raise (IsADirectoryError (path_str p))
      | None => Raise (FileNotFoundError (path_str p))
      end
  end.

End FS.

(** ** scripts/lock/lib.py *)

(** [subprocess.run(argv, cwd=cwd)]: the return code, the standard output
    and the standard error of the process. *)
Class Subprocess : Type := {
  subprocess_run : list string -> string -> Z * string * string;
}.

Module Lock.

(** *** [ImageMetadata] *)
Module ImageMetadata.
Record t : Type := mk {
  repository : string;
  tag : option string;
  digest : option string;
  tag_prefix : option string;
}.

(** Return a serialisable mapping, skipping empty values. *)
Definition to_mapping (self : t) : list (string * json) :=
  let data := [("repository", JStr (repository self))] in
  let data :=
    match tag self with
    | Some v => if Py.truthy_str v then Dict.set "tag" (JStr v) data else data
    | None => data
    end in
  let data :=
    match digest self with
    | Some v => if Py.truthy_str v then Dict.set "digest" (JStr v) data else data
    | None => data
    end in
  data.
End ImageMetadata.

(** *** [ServiceLock] *)
Module ServiceLock.
Record t : Type := mk {
  submodule_path : string;
  git_sha : string;
  image : ImageMetadata.t;
  notes : option string;
}.

(** Return a serialisable mapping for JSON/YAML export. *)
Definition to_mapping (self : t) : list (string * json) :=
  let payload :=
    [("submodule_path", JStr (submodule_path self));
     ("git_sha", JStr (git_sha self));
     ("image", JObj (ImageMetadata.to_mapping (image self)))] in
  match notes self with
  | Some v => if Py.truthy_str v then Dict.set "notes" (JStr v) payload else payload
  | None => payload
  end.
End ServiceLock.

(** The shape the data model gives a serialized lock: the four fields,
    and the three fields of the image. *)
Definition documented_shape (entry : list (string * json)) : Prop :=
  is_Some (Dict.get "submodule_path" entry) /\
  is_Some (Dict.get "git_sha" entry) /\
  is_Some (Dict.get "notes" entry) /\
  exists image,
    Dict.get "image" entry = Some (JObj image) /\
    is_Some (Dict.get "repository" image) /\
    is_Some (Dict.get "tag" image) /\
    is_Some (Dict.get "digest" image).

(** [Path(p).name]: the last component of the path, where empty
    components and [.] do not count. *)
Definition path_name (p : string) : string :=
  List.last
    (List.filter (fun c => negb (String.eqb c "") && negb (String.eqb c "."))
       (PyStr.split_char "/" p))
    "".

(** [name not in services_filter] *)
Definition in_list (name : string) (names : list string) : bool :=
  existsb (String.eqb name) names.

(** Truth of [services_filter]: a list that is given and not empty. *)
Definition filter_given (services_filter : option (list string)) : bool :=
  match services_filter with
  | Some (_ :: _) => true
  | _ => false
  end.

Definition filter_names (services_filter : option (list string)) : list string :=
  match services_filter with
  | Some names => names
  | None => []
  end.

(** Determine final tag value. *)
Definition final_tag (image : ImageMetadata.t) (sha : string) : option string :=
  let final_tag := ImageMetadata.tag image in
  if Py.truthy_opt_str (ImageMetadata.tag_prefix image)
  then Some (default "" (ImageMetadata.tag_prefix image) +:+ PyStr.take 7 sha)
  else match final_tag with
       | None => Some (PyStr.take 7 sha)
       | Some _ => final_tag
       end.

(** [image_metadata.get(service_name, ImageMetadata(...))] *)
Definition image_for
    (image_metadata : gmap string ImageMetadata.t)
    (default_registry : string) (default_tag_prefix : option string)
    (service_name : string) : ImageMetadata.t :=
  match image_metadata !! service_name with
  | Some found => found
  | None =>
      ImageMetadata.mk (default_registry +:+ "/" +:+ service_name)
        None None default_tag_prefix
  end.

(** The lock the loop of [build_service_locks] makes for one submodule. *)
Definition lock_for
    (image_metadata : gmap string ImageMetadata.t)
    (default_registry : string) (default_tag_prefix : option string)
    (path sha : string) : ServiceLock.t :=
  let service_name := path_name path in
  let image := image_for image_metadata default_registry default_tag_prefix service_name in
  let resolved_image :=
    ImageMetadata.mk (ImageMetadata.repository image) (final_tag image sha)
      (ImageMetadata.digest image) None in
  ServiceLock.mk path sha resolved_image None.

(** Whether the loop keeps a submodule of this name. *)
Definition selected (services_filter : option (list string)) (service_name : string) : bool :=
  negb (filter_given services_filter
        && negb (in_list service_name (filter_names services_filter))).

(** The body of the loop of [build_service_locks] for one submodule. *)
Definition lock_step
    (image_metadata : gmap string ImageMetadata.t)
    (services_filter : option (list string))
    (default_registry : string) (default_tag_prefix : option string)
    (locks : gmap string ServiceLock.t) (entry : string * string)
  : gmap string ServiceLock.t :=
  let '(path, sha) := entry in
  let service_name := path_name path in
  if negb (selected services_filter service_name)
  then locks
  else
    <[service_name :=
        lock_for image_metadata default_registry default_tag_prefix path sha]> locks.

(** The names asked for that no lock carries, each once and in order:
    [sorted(set(services_filter) - set(locks.keys()))]. *)
Definition missing_services
    (services_filter : list string) (locks : gmap string ServiceLock.t) : list string :=
  Dict.sorted
    (Dict.dedup
       (List.filter
          (fun name => match locks !! name with Some _ => false | None => true end)
          services_filter)).

(** [build_service_locks] once the submodules are known. *)
Definition locks_of_commits
    (service_commits : list (string * string))
    (image_metadata : gmap string ImageMetadata.t)
    (services_filter : option (list string))
    (default_registry : string) (default_tag_prefix : option string)
  : result (gmap string ServiceLock.t) :=
  let locks :=
    fold_left
      (lock_step image_metadata services_filter default_registry default_tag_prefix)
      service_commits ∅ in
  if filter_given services_filter then
    match missing_services (filter_names services_filter) locks with
    | [] => Ok locks
    | missing =>
        Raise (ValueError ("Requested services missing from submodules: "
                           +:+ PyStr.join ", " missing))
    end
  else Ok locks.

Section WithGit.
Context {sp : Subprocess}.

(** Execute a git command and return the trimmed stdout. *)
Definition run_git_command (args : list string) (cwd : string) : result string :=
  let '(returncode, stdout, stderr) := subprocess_run ("git" :: args) cwd in
  if negb (returncode =? 0)
  then Raise (RuntimeError ("git " +:+ PyStr.join " " args +:+ " failed: "
                            +:+ PyStr.strip stderr))
  else Ok (PyStr.strip stdout).

(** One line of [git submodule status]. *)
Definition status_line (result_ : result (list (string * string))) (line : string)
  : result (list (string * string)) :=
  rbind result_ (fun acc =>
    if negb (Py.truthy_str line) then Ok acc
    else
      match PyStr.words (PyStr.strip line) with
      | sha :: submodule_path :: _ =>
          Ok (Dict.set submodule_path (PyStr.lstrip_chars "+-" sha) acc)
      | _ => Raise (IndexError "list index out of range")
      end).

(** Return mapping submodule path -> commit SHA for given scope. *)
Definition list_submodules (root : string) (scope : list string)
  : result (list (string * string)) :=
  rbind (run_git_command (["submodule"; "status"; "--recursive"] ++ scope) root)
    (fun status => fold_left status_line (PyStr.splitlines status) (Ok [])).

(** Construct lock entries for each submodule. *)
Definition build_service_locks
    (root : string) (submodules_scope : list string)
    (image_metadata : gmap string ImageMetadata.t)
    (services_filter : option (list string))
    (default_registry : string) (default_tag_prefix : option string)
  : result (gmap string ServiceLock.t) :=
  rbind (list_submodules root submodules_scope) (fun service_commits =>
    locks_of_commits service_commits image_metadata services_filter
      default_registry default_tag_prefix).

(** [{name: lock.to_mapping() for name, lock in sorted(service_locks.items())}] *)
Definition services_payload (service_locks : gmap string ServiceLock.t)
  : list (string * json) :=
  map (fun entry => (fst entry, JObj (ServiceLock.to_mapping (snd entry))))
    (Dict.sorted_items (map_to_list service_locks)).

(** Assemble the full lock payload. [generated_at] is
    [timestamp.astimezone(timezone.utc).isoformat()]. *)
Definition build_lock_payload
    (root : string) (services_filter : option (list string))
    (image_metadata : gmap string ImageMetadata.t)
    (generator_id : string) (generated_at : string)
    (default_registry : string) (default_tag_prefix : option string)
  : result json :=
  rbind (build_service_locks root ["services"; "infra"] image_metadata
           services_filter default_registry default_tag_prefix)
    (fun service_locks =>
  rbind (run_git_command ["rev-parse"; "--abbrev-ref"; "HEAD"] root)
    (fun source_branch =>
  rbind (run_git_command ["rev-parse"; "HEAD"] root)
    (fun commit =>
  let metadata :=
    [("generated_at", JStr generated_at);
     ("generator", JStr generator_id);
     ("source_branch", JStr source_branch);
     ("commit", JStr commit)] in
  Ok (JObj [("metadata", JObj metadata);
            ("services", JObj (services_payload service_locks))])))).
End WithGit.

(** Serialise payload to JSON/YAML compatible file. *)
Definition dump_lock (payload : json) (output : FS.path) (force : bool)
    (fs : gmap (list string) FS.node)
  : result FS.path * gmap (list string) FS.node :=
  if FS.exists_ fs output && negb force
  then (Raise (FileExistsError ("Lock file already exists: " +:+ FS.path_str output)), fs)
  else
    match FS.mkdir_parents (FS.parent output) fs with
    | (Raise e, fs1) => (Raise e, fs1)
    | (Ok _, fs1) =>
        match FS.write_text output
                (JsonDump.dumps payload +:+ String (ascii_of_N 10) EmptyString) fs1 with
        | (Raise e, fs2) => (Raise e, fs2)
        | (Ok _, fs2) => (Ok output, fs2)
        end
    end.

(** A field of the image metadata as the annotations of [ImageMetadata]
    have it: [None] for [null] or no value, the text for a text. A value
    of any other kind is outside the annotations and has no counterpart. *)
Definition optional_text (v : json) : option (option string) :=
  match v with
  | JNull => Some None
  | JStr s => Some (Some s)
  | _ => None
  end.

(** The body of the loop of [load_image_metadata]. The mapping is nothing
    once an entry holds a value the annotations exclude: the loop goes on
    and may still raise, but what it returns is not a mapping of
    [ImageMetadata.t]. *)
Definition metadata_step
    (acc : result (option (gmap string ImageMetadata.t))) (entry : string * json)
  : result (option (gmap string ImageMetadata.t)) :=
  rbind acc (fun metadata =>
  let '(service, details) := entry in
  rbind (Py.get details "repository") (fun repository =>
  if negb (Py.truthy repository)
  then Raise (ValueError ("Missing repository for service '" +:+ service +:+ "'"))
  else
    rbind (Py.get details "tag") (fun tag =>
    rbind (Py.get details "digest") (fun digest =>
    rbind (Py.get details "tag_prefix") (fun tag_prefix =>
    Ok (match metadata, repository,
              optional_text tag, optional_text digest, optional_text tag_prefix with
        | Some known, JStr r, Some t, Some d, Some p =>
            Some (<[service := ImageMetadata.mk r t d p]> known)
        | _, _, _, _, _ => None
        end)))))).

(** Load mapping service -> image metadata from a JSON/YAML file. *)
Definition load_image_metadata {py : PyLib}
    (path : option FS.path) (fs : gmap (list string) FS.node)
  : result (option (gmap string ImageMetadata.t)) :=
  match path with
  | None => Ok (Some ∅)
  | Some p =>
      if negb (FS.exists_ fs p)
      then Raise (FileNotFoundError ("Image metadata file not found: " +:+ FS.path_str p))
      else
        rbind (FS.read_text p fs) (fun text =>
        rbind (json_loads text) (fun data =>
        rbind (Py.items data) (fun fields =>
        fold_left metadata_step fields (Ok (Some ∅)))))
  end.

(** Return default path for a lock file based on timestamp. [stamp] is
    [timestamp.astimezone(timezone.utc).strftime("%Y%m%dT%H%M%SZ")]. *)
Definition default_output_path (stamp : string) : FS.path :=
  ["locks"; "lock-" +:+ stamp +:+ ".yml"].

End Lock.

(** ** scripts/lock/generate_lock.py *)

Module GenerateLock.

(** What [parse_args] returns. [services] is [None] without the option
    and a list, which may be empty, with it. *)
Record Args : Type := mk_args {
  services : option (list string);
  image_metadata : option FS.path;
  output : option FS.path;
  force : bool;
  default_tag_prefix : option string;
  default_registry : string;
}.

Section Script.
Context {py : PyLib} {sp : Subprocess}.

(** Entry point. [repo_root] is the root of the repository, which is also
    the working directory; [generated_at] and [stamp] are the two texts
    made of the time of the run. The outcome is nothing when the image
    metadata hold a value outside the annotations of [ImageMetadata]. *)
Definition main (args : Args) (repo_root generated_at stamp : string)
    (fs : gmap (list string) FS.node)
  : option (result Z * gmap (list string) FS.node) :=
  match Lock.load_image_metadata (image_metadata args) fs with
  | Raise e => Some (Raise e, fs)
  | Ok None => None
  | Ok (Some loaded) =>
      match Lock.build_lock_payload repo_root (services args) loaded
              "generate_lock.py@v1" generated_at
              (PyStr.rstrip_chars "/" (default_registry args))
              (match default_tag_prefix args with
               | Some prefix => if Py.truthy_str prefix then Some prefix else None
               | None => None
               end) with
      | Raise e => Some (Raise e, fs)
      | Ok payload =>
          let output_path :=
            match output args with
            | Some given => given
            | None => Lock.default_output_path stamp
            end in
          match Lock.dump_lock payload output_path (force args) fs with
          | (Raise e, fs') => Some (Raise e, fs')
          | (Ok _, fs') => Some (Ok 0, fs')
          end
      end
  end.
End Script.

End GenerateLock.

(** ** scripts/seed_from_csv.py *)

(** What [urlopen] is given: the method, the URL, the query parameters,
    the JSON body, the headers and the timeout. *)
Record request : Type := mk_request {
  req_method : string;
  req_url : string;
  req_params : list (string * string);
  req_json : option json;
  req_headers : list (string * string);
  req_timeout : Z;
}.

(** What [urlopen] does: a response with its status and body, an
    [HTTPError] with its code and body, or a [URLError]. *)
Inductive reply : Type :=
| Response (status : Z) (body : string)
| HTTPError (code : Z) (body : string)
| URLError (reason : string).

(** The gateway: its reply to a request may depend on every request sent
    before. *)
Class Gateway : Type := {
  urlopen : list request -> request -> reply;
}.

(** The CSV files: the rows [csv.DictReader] yields for a path, a row
    being the text under each column name, or nothing for a path that does
    not exist. A column a line has no text for is absent from its row. *)
Class CsvFiles : Type := {
  read_csv : string -> option (list (gmap string string));
}.

Module Seed.

(** *** A normalized CSV row *)
Module Row.
Record t : Type := mk {
  site_key : string;
  site_name : string;
  site_slug : string;
  site_description : string;
  site_currency : string;
  site_language : string;
  site_config : string;
  category_name : string;
  filter_definitions : json;
  product_name : string;
  product_description : string;
  product_images : list string;
  product_sku : string;
  product_status : string;
  product_scheduled_publish_at : option string;
  product_filters : json;
  price_amount : option string;
  price_currency : string;
  price_effective_from : option string;
  price_effective_to : option string;
  inventory_initial_quantity : option Z;
}.

Definition opt_str (o : option string) : json :=
  match o with Some v => JStr v | None => JNull end.

(** [normalized.items()], in the order the dictionary is written. *)
Definition items (r : t) : list (string * json) :=
  [("site_key", JStr (site_key r));
   ("site_name", JStr (site_name r));
   ("site_slug", JStr (site_slug r));
   ("site_description", JStr (site_description r));
   ("site_currency", JStr (site_currency r));
   ("site_language", JStr (site_language r));
   ("site_config", JStr (site_config r));
   ("category_name", JStr (category_name r));
   ("filter_definitions", filter_definitions r);
   ("product_name", JStr (product_name r));
   ("product_description", JStr (product_description r));
   ("product_images", JArr (map JStr (product_images r)));
   ("product_sku", JStr (product_sku r));
   ("product_status", JStr (product_status r));
   ("product_scheduled_publish_at", opt_str (product_scheduled_publish_at r));
   ("product_filters", product_filters r);
   ("price_amount", match price_amount r with Some f => JFloat f | None => JNull end);
   ("price_currency", JStr (price_currency r));
   ("price_effective_from", opt_str (price_effective_from r));
   ("price_effective_to", opt_str (price_effective_to r));
   ("inventory_initial_quantity",
    match inventory_initial_quantity r with Some n => JInt n | None => JNull end)].
End Row.

(** [(raw.get(name) or "").strip()] *)
Definition field (raw : gmap string string) (name : string) : string :=
  PyStr.strip (default "" (raw !! name)).

(** [text or None] *)
Definition or_none (text : string) : option string :=
  if Py.truthy_str text then Some text else None.

(** [value or fallback] *)
Definition or_else (value fallback : json) : json :=
  if Py.truthy value then value else fallback.

(** [value in ("", [])] *)
Definition is_blank (value : json) : bool :=
  match value with
  | JStr EmptyString => true
  | JArr [] => true
  | _ => false
  end.

Definition optional_keys : list string :=
  ["filter_definitions"; "product_filters"; "product_scheduled_publish_at";
   "price_effective_from"; "price_effective_to"].

(** The keys of the required fields that are blank. *)
Definition missing_fields (normalized : Row.t) : list string :=
  map fst
    (List.filter
       (fun kv => is_blank (snd kv) && negb (existsb (String.eqb (fst kv)) optional_keys))
       (Row.items normalized)).

(** The columns a row must have a text in, white space aside. *)
Definition required_columns : list string :=
  ["site_key"; "site_name"; "site_slug"; "site_description"; "site_currency";
   "site_language"; "site_config"; "category_name"; "product_name";
   "product_description"; "product_sku"; "price_amount"; "price_currency";
   "inventory_initial_quantity"].

(** The images of a row: the pieces of [product_images] between the bars
    that are not blank. *)
Definition images_of (raw : gmap string string) : list string :=
  List.filter Py.truthy_str
    (map PyStr.strip (PyStr.split_char "|" (default "" (raw !! "product_images")))).

(** A row with a required field missing: a required column is blank, or
    there is no product image. *)
Definition lacks_required_field (raw : gmap string string) : Prop :=
  (exists column, In column required_columns /\ field raw column = "")
  \/ images_of raw = [].

Definition is_none {A} (o : option A) : bool :=
  match o with None => true | Some _ => false end.

(** The checks at the end of [_normalize_row], on the dictionary it has
    built. *)
Definition validate (normalized : Row.t) : result Row.t :=
  if String.eqb (PyStr.upper (Row.product_status normalized)) "SCHEDULED"
     && negb (Py.truthy_opt_str (Row.product_scheduled_publish_at normalized))
  then Raise (ValueError
                "product_scheduled_publish_at is required when product_status is SCHEDULED")
  else if is_none (Row.price_amount normalized)
          || negb (Py.truthy_str (Row.price_currency normalized))
  then Raise (ValueError "price_amount and price_currency are required")
  else if is_none (Row.inventory_initial_quantity normalized)
  then Raise (ValueError "inventory_initial_quantity is required")
  else
    match missing_fields normalized with
    | [] => Ok normalized
    | missing =>
        Raise (ValueError ("Missing required fields: " +:+ PyStr.join ", " missing))
    end.

Section Loading.
Context {py : PyLib} {csv : CsvFiles}.

Definition parse_json_field (raw : gmap string string) (field_name : string)
  : result json :=
  let value := field raw field_name in
  if Py.truthy_str value then json_loads value else Ok JNull.

Definition _normalize_row (raw : gmap string string) : result Row.t :=
  rbind (parse_json_field raw "filter_definitions") (fun parsed_definitions =>
  let filters_payload := or_else parsed_definitions (JArr []) in
  rbind (parse_json_field raw "product_filters") (fun parsed_filters =>
  let product_filters := or_else parsed_filters (JObj []) in
  let images := images_of raw in
  match images with
  | [] => Raise (ValueError "product_images must include at least one URL separated by '|'")
  | _ =>
  let price_amount_raw := field raw "price_amount" in
  rbind (if Py.truthy_str price_amount_raw
         then rbind (float_of_str price_amount_raw) (fun f => Ok (Some f))
         else Ok None) (fun price_amount =>
  let price_currency := field raw "price_currency" in
  let price_effective_from := or_none (field raw "price_effective_from") in
  let price_effective_to := or_none (field raw "price_effective_to") in
  let inventory_qty_raw := field raw "inventory_initial_quantity" in
  rbind (if Py.truthy_str inventory_qty_raw
         then rbind (int_of_str inventory_qty_raw) (fun n => Ok (Some n))
         else Ok None) (fun inventory_initial_quantity =>
  let product_status :=
    let stripped :=
      PyStr.strip (let given := default "" (raw !! "product_status") in
                   if Py.truthy_str given then given else "DRAFT") in
    if Py.truthy_str stripped then stripped else "DRAFT" in
  let normalized :=
    Row.mk (field raw "site_key") (field raw "site_name") (field raw "site_slug")
      (field raw "site_description") (field raw "site_currency")
      (field raw "site_language") (field raw "site_config")
      (field raw "category_name") filters_payload
      (field raw "product_name") (field raw "product_description") images
      (field raw "product_sku") product_status
      (or_none (field raw "product_scheduled_publish_at")) product_filters
      price_amount price_currency price_effective_from price_effective_to
      inventory_initial_quantity in
  validate normalized))
  end)).

(** The loop of [load_rows]: [index] is the line of the file the next
    row comes from, [rows] the rows normalized so far. *)
Fixpoint normalize_from (index : Z) (raws : list (gmap string string))
    (rows : list Row.t) : result (list Row.t) :=
  match raws with
  | [] => Ok rows
  | raw :: rest =>
      match _normalize_row raw with
      | Ok row => normalize_from (index + 1) rest (rows ++ [row])
      | Raise exc =>
          Raise (ValueError ("Failed to parse CSV row " +:+ PyStr.of_Z index
                             +:+ ": " +:+ exn_str exc))
      end
  end.

Definition load_rows (csv_path : string) : result (list Row.t) :=
  match read_csv csv_path with
  | None => Raise (FileNotFoundError ("CSV file not found: " +:+ csv_path))
  | Some raws => normalize_from 2 raws []
  end.
End Loading.

(** *** The seeder and its state *)

Module CreatedFilter.
Record t : Type := mk {
  id : json;
  key : json;
  type : json;
}.
End CreatedFilter.

Module HttpResponse.
(** The headers of a response are never read and are left out. *)
Record t : Type := mk {
  status : Z;
  body : string;
}.
End HttpResponse.

Module Seeder.
(** The fields of the object, and [sent]: the requests [self.http] has
    sent so far, oldest first. *)
Record t : Type := mk {
  base_url : string;
  owner_id : string;
  dry_run : bool;
  site_cache : gmap string json;
  category_cache : gmap (string * string) json;
  filter_cache : gmap (string * json) CreatedFilter.t;
  sent : list request;
}.

Definition init (gateway_base_url owner : string) (dry : bool) : t :=
  mk (PyStr.rstrip_chars "/" gateway_base_url) owner dry ∅ ∅ ∅ [].

Definition set_site_cache (c : gmap string json) (self : t) : t :=
  mk (base_url self) (owner_id self) (dry_run self) c
    (category_cache self) (filter_cache self) (sent self).

Definition set_category_cache (c : gmap (string * string) json) (self : t) : t :=
  mk (base_url self) (owner_id self) (dry_run self) (site_cache self)
    c (filter_cache self) (sent self).

Definition set_filter_cache (c : gmap (string * json) CreatedFilter.t) (self : t) : t :=
  mk (base_url self) (owner_id self) (dry_run self) (site_cache self)
    (category_cache self) c (sent self).

Definition set_sent (l : list request) (self : t) : t :=
  mk (base_url self) (owner_id self) (dry_run self) (site_cache self)
    (category_cache self) (filter_cache self) l.
End Seeder.

(** A method of the seeder: it may change the object and send requests,
    and it returns or raises. What an exception leaves changed stays
    changed. *)
Definition M (A : Type) : Type := Seeder.t -> result A * Seeder.t.

Definition ret {A} (a : A) : M A := fun self => (Ok a, self).

Definition raise {A} (e : exn) : M A := fun self => (Raise e, self).

Definition bind {A B} (m : M A) (k : A -> M B) : M B :=
  fun self =>
    match m self with
    | (Ok a, self') => k a self'
    | (Raise e, self') => (Raise e, self')
    end.

Definition lift {A} (r : result A) : M A := fun self => (r, self).

Definition gets {A} (f : Seeder.t -> A) : M A := fun self => (Ok (f self), self).

Definition modify (f : Seeder.t -> Seeder.t) : M unit := fun self => (Ok tt, f self).

(** [try: m except HttpError as err: handler(err.status, err.body)] *)
Definition try_http {A} (m : M A) (handler : Z -> string -> M A) : M A :=
  fun self =>
    match m self with
    | (Raise (HttpError status body), self') => handler status body self'
    | other => other
    end.

Notation "x <- m ;; k" := (bind m (fun x => k))
  (at level 100, m at next level, right associativity).

(** [for x in xs: body(x)] *)
Fixpoint for_each {X} (xs : list X) (body : X -> M unit) : M unit :=
  match xs with
  | [] => ret tt
  | x :: xs' => _ <- body x ;; for_each xs' body
  end.

(** [for x in xs: acc.append(body(x))] *)
Fixpoint collect {X Y} (xs : list X) (body : X -> M Y) : M (list Y) :=
  match xs with
  | [] => ret []
  | x :: xs' => y <- body x ;; ys <- collect xs' body ;; ret (y :: ys)
  end.

Section Seeding.
Context {py : PyLib} {gw : Gateway}.

(** [HttpResponse.json] *)
Definition response_json (response : HttpResponse.t) : result json :=
  if negb (Py.truthy_str (HttpResponse.body response)) then Ok (JObj [])
  else json_loads (HttpResponse.body response).

(** The request [SimpleHttpClient.request] makes of its arguments:
    parameters that are [None] are dropped and the others turned into
    text, the headers start from [Accept], get [Content-Type] when there is
    a body, and then the headers of the caller. *)
Definition build_request (method url : string)
    (params : option (list (string * json))) (json_body : option json)
    (headers : option (list (string * string))) (timeout : Z) : request :=
  let query :=
    match params with
    | Some given =>
        map (fun kv => (fst kv, py_str (snd kv)))
          (List.filter (fun kv => negb (bool_decide (snd kv = JNull))) given)
    | None => []
    end in
  let req_headers := [("Accept", "application/json")] in
  let req_headers :=
    match json_body with
    | Some _ => Dict.set "Content-Type" "application/json" req_headers
    | None => req_headers
    end in
  let req_headers :=
    match headers with
    | Some given =>
        fold_left (fun acc kv => Dict.set (fst kv) (snd kv) acc) given req_headers
    | None => req_headers
    end in
  mk_request method url query json_body req_headers timeout.

(** [SimpleHttpClient.request] *)
Definition http_request (method url : string)
    (params : option (list (string * json))) (json_body : option json)
    (headers : option (list (string * string))) (timeout : Z)
  : M HttpResponse.t :=
  fun self =>
    let request_obj := build_request method url params json_body headers timeout in
    let self' := Seeder.set_sent (Seeder.sent self ++ [request_obj]) self in
    match urlopen (Seeder.sent self) request_obj with
    | Response status body => (Ok (HttpResponse.mk status body), self')
    | HTTPError code body => (Raise (HttpError code body), self')
    | URLError reason =>
        (Raise (RuntimeError ("Failed to reach " +:+ url +:+ ": " +:+ reason)), self')
    end.

(** [SimpleHttpClient.get] *)
Definition http_get (url : string) (params : option (list (string * json)))
    (headers : option (list (string * string))) (timeout : Z) : M HttpResponse.t :=
  http_request "GET" url params None headers timeout.

(** [SimpleHttpClient.post] *)
Definition http_post (url : string) (json_body : option json)
    (headers : option (list (string * string))) (timeout : Z) : M HttpResponse.t :=
  http_request "POST" url None json_body headers timeout.

Definition _url (path : string) : M string :=
  base <- gets Seeder.base_url ;;
  let path := if PyStr.is_prefix "/" path then path else "/" +:+ path in
  ret (base +:+ path).

(** **** Sites *)

Definition _fetch_site_by_slug (slug : string) : M json :=
  try_http
    (url <- _url ("/api/sites/slug/" +:+ slug) ;;
     response <- http_get url None None 15 ;;
     lift (response_json response))
    (fun status body =>
       let body_lower := PyStr.lower body in
       if (status =? 404)
          || ((status =? 400) && PyStr.contains "site not found" body_lower)
       then ret JNull
       else raise (HttpError status body)).

Definition site_payload (row : Row.t) : json :=
  JObj [("name", JStr (Row.site_name row));
        ("slug", JStr (Row.site_slug row));
        ("description", JStr (Row.site_description row));
        ("currency", JStr (Row.site_currency row));
        ("language", JStr (Row.site_language row));
        ("config", JStr (Row.site_config row))].

Definition site_cache_key (row : Row.t) : string :=
  if Py.truthy_str (Row.site_key row) then Row.site_key row else Row.site_slug row.

(** The [try] statement of [_ensure_site]: create the site, and when
    the slug is taken fetch the site that has it. The two
    [getitem]s are the arguments of the log call. *)
Definition create_site (row : Row.t) : M json :=
  try_http
    (url <- _url "/api/sites" ;;
     owner <- gets Seeder.owner_id ;;
     response <- http_post url (Some (site_payload row))
                   (Some [("X-Owner-Id", owner)]) 30 ;;
     site <- lift (response_json response) ;;
     _ <- lift (Py.getitem site "id") ;;
     _ <- lift (Py.getitem site "slug") ;;
     ret site)
    (fun status body =>
       if (status =? 400) && PyStr.contains "slug" (PyStr.lower body)
       then _fetch_site_by_slug (Row.site_slug row)
       else raise (HttpError status body)).

Definition _ensure_site (row : Row.t) : M json :=
  let cache_key := site_cache_key row in
  cache <- gets Seeder.site_cache ;;
  match cache !! cache_key with
  | Some cached => ret cached
  | None =>
      dry <- gets Seeder.dry_run ;;
      site <- (if negb dry then _fetch_site_by_slug (Row.site_slug row)
               else ret JNull) ;;
      site <- (if Py.truthy site
               then _ <- lift (Py.getitem site "id") ;; ret site
               else if dry
                    then ret (JObj [("id", JStr ("dry-" +:+ cache_key))])
                    else create_site row) ;;
      if negb (Py.truthy site)
      then raise (RuntimeError ("Unable to ensure site '" +:+ Row.site_name row +:+ "'"))
      else
        _ <- modify (fun self =>
               Seeder.set_site_cache (<[cache_key := site]> (Seeder.site_cache self)) self) ;;
        ret site
  end.

(** **** Filters *)

Definition _filter_cache_key (category_id key : json) : string * json :=
  (PyStr.lower (py_str category_id), key).

(** Hashing a cache key: a list or a dictionary in it is a [TypeError]. *)
Definition hash_key (cache_key : string * json) : M unit :=
  if Py.hashable (snd cache_key) then ret tt
  else raise (TypeError "unhashable type").

Definition refresh_entry (entry : json) : M unit :=
  category_id <- lift (Py.getitem entry "categoryId") ;;
  key <- lift (Py.getitem entry "key") ;;
  let cache_key := _filter_cache_key category_id key in
  id <- lift (Py.getitem entry "id") ;;
  key' <- lift (Py.getitem entry "key") ;;
  type <- lift (Py.getitem entry "type") ;;
  _ <- hash_key cache_key ;;
  modify (fun self =>
    Seeder.set_filter_cache
      (<[cache_key := CreatedFilter.mk id key' type]> (Seeder.filter_cache self)) self).

Definition _refresh_filters (site_id : json) : M unit :=
  dry <- gets Seeder.dry_run ;;
  if bool_decide (site_id = JNull) || dry then ret tt
  else
    url <- _url "/api/catalog/filters" ;;
    response <- http_get url (Some [("siteId", JStr (py_str site_id))]) None 30 ;;
    entries <- lift (rbind (response_json response) Py.iter) ;;
    for_each entries refresh_entry.

Definition filter_payload (site_id category_id definition : json) : result json :=
  rbind (Py.get definition "siteId") (fun given_site =>
  rbind (Py.getitem definition "key") (fun key =>
  rbind (Py.getitem definition "type") (fun type =>
  rbind (Py.get definition "displayName") (fun display_name =>
  rbind (Py.get definition "unit") (fun unit_ =>
  rbind (Py.get definition "values") (fun values =>
  rbind (Py.get definition "minValue") (fun min_value =>
  rbind (Py.get definition "maxValue") (fun max_value =>
  Ok (JObj [("siteId", or_else given_site (JStr (py_str site_id)));
            ("categoryId", JStr (py_str category_id));
            ("key", key);
            ("type", type);
            ("displayName", display_name);
            ("unit", unit_);
            ("values", values);
            ("minValue", min_value);
            ("maxValue", max_value)]))))))))).

(** The body of the loop of [_ensure_filter_definitions]. *)
Definition ensure_definition (site_id category_id definition : json) : M unit :=
  key <- lift (Py.getitem definition "key") ;;
  let cache_key := _filter_cache_key category_id key in
  _ <- hash_key cache_key ;;
  cache <- gets Seeder.filter_cache ;;
  match cache !! cache_key with
  | Some _ => ret tt
  | None =>
      dry <- gets Seeder.dry_run ;;
      if dry then
        type <- lift (Py.getitem definition "type") ;;
        modify (fun self =>
          Seeder.set_filter_cache
            (<[cache_key := CreatedFilter.mk (JStr ("dry-filter-" +:+ py_str key)) key type]>
               (Seeder.filter_cache self)) self)
      else
        payload <- lift (filter_payload site_id category_id definition) ;;
        url <- _url "/api/catalog/filters" ;;
        response <- http_post url (Some payload) None 30 ;;
        created <- lift (response_json response) ;;
        id <- lift (Py.getitem created "id") ;;
        key' <- lift (Py.getitem created "key") ;;
        type <- lift (Py.getitem created "type") ;;
        modify (fun self =>
          Seeder.set_filter_cache
            (<[cache_key := CreatedFilter.mk id key' type]> (Seeder.filter_cache self)) self)
  end.

Definition _ensure_filter_definitions (site_id category_id definitions : json) : M unit :=
  if negb (Py.truthy definitions) then ret tt
  else
    each <- lift (Py.iter definitions) ;;
    for_each each (ensure_definition site_id category_id).

(** The body of the loop over [row["product_filters"].items()]. *)
Definition map_assignment (category_id : json) (entry : string * json) : M json :=
  let '(key, value) := entry in
  let cache_key := _filter_cache_key category_id (JStr key) in
  cache <- gets Seeder.filter_cache ;;
  match cache !! cache_key with
  | None =>
      raise (RuntimeError ("No filter '" +:+ key +:+ "' found for category "
                           +:+ py_str category_id))
  | Some cached_filter =>
      let assignment := [("filterId", JStr (py_str (CreatedFilter.id cached_filter)))] in
      if bool_decide (CreatedFilter.type cached_filter = JStr "QUANTITATIVE")
      then
        number <- lift (py_float value) ;;
        ret (JObj (Dict.set "numericValue" (JFloat number) assignment))
      else ret (JObj (Dict.set "textValue" (JStr (py_str value)) assignment))
  end.

Definition _ensure_filters_and_map_assignments
    (site_id category_id : json) (row : Row.t) : M (list json) :=
  dry <- gets Seeder.dry_run ;;
  _ <- (if negb dry then _refresh_filters site_id else ret tt) ;;
  _ <- _ensure_filter_definitions site_id category_id (Row.filter_definitions row) ;;
  entries <- lift (Py.items (Row.product_filters row)) ;;
  collect entries (map_assignment category_id).

(** **** Categories *)

Definition _fetch_categories (site_id : json) : M json :=
  url <- _url "/api/catalog/products/categories" ;;
  response <- http_get url (Some [("siteId", JStr (py_str site_id))]) None 30 ;;
  lift (response_json response).

(** The body of the loop over the categories that exist. *)
Definition cache_category (site_id category : json) : M unit :=
  name <- lift (Py.getitem category "name") ;;
  lowered <- lift (Py.lower name) ;;
  modify (fun self =>
    Seeder.set_category_cache
      (<[(py_str site_id, lowered) := category]> (Seeder.category_cache self)) self).

(** The categories of the site that exist are fetched and cached under
    their names in lower case. *)
Definition cache_existing_categories (site_id : json) : M unit :=
  existing <- _fetch_categories site_id ;;
  each <- lift (Py.iter existing) ;;
  for_each each (cache_category site_id).

Definition _ensure_category (site_id : json) (category_name : string)
    (filter_definitions : json) : M json :=
  let cache_key := (py_str site_id, PyStr.lower category_name) in
  cache <- gets Seeder.category_cache ;;
  match cache !! cache_key with
  | Some cached => ret cached
  | None =>
      dry <- gets Seeder.dry_run ;;
      _ <- (if negb dry then cache_existing_categories site_id else ret tt) ;;
      cache <- gets Seeder.category_cache ;;
      match cache !! cache_key with
      | Some cached => ret cached
      | None =>
          let payload := JObj [("siteId", JStr (py_str site_id));
                               ("name", JStr category_name)] in
          category <-
            (if dry
             then ret (JObj [("id", JStr ("dry-cat-" +:+ category_name));
                             ("name", JStr category_name)])
             else
               url <- _url "/api/catalog/products/categories" ;;
               response <- http_post url (Some payload) None 30 ;;
               category <- lift (response_json response) ;;
               _ <- lift (Py.getitem category "id") ;;
               ret category) ;;
          _ <- modify (fun self =>
                 Seeder.set_category_cache
                   (<[cache_key := category]> (Seeder.category_cache self)) self) ;;
          _ <- (if Py.truthy filter_definitions && negb dry
                then _refresh_filters site_id else ret tt) ;;
          ret category
      end
  end.

(** **** Products *)

Definition product_payload (site_id category_id : json) (row : Row.t)
    (filter_assignments : list json) : list (string * json) :=
  let payload :=
    [("siteId", JStr (py_str site_id));
     ("name", JStr (Row.product_name row));
     ("description", JStr (Row.product_description row));
     ("images", JArr (map JStr (Row.product_images row)));
     ("categoryIds", JArr [JStr (py_str category_id)]);
     ("sku", JStr (Row.product_sku row));
     ("status", JStr (Row.product_status row));
     ("filters", JArr filter_assignments)] in
  match Row.product_scheduled_publish_at row with
  | Some at_ =>
      if Py.truthy_str at_ then Dict.set "scheduledPublishAt" (JStr at_) payload
      else payload
  | None => payload
  end.

Definition _create_product (site_id category_id : json) (row : Row.t)
    (filter_assignments : list json) : M string :=
  let payload := product_payload site_id category_id row filter_assignments in
  dry <- gets Seeder.dry_run ;;
  if dry then ret ("dry-product-" +:+ Row.product_sku row)
  else
    url <- _url "/api/catalog/products" ;;
    response <- http_post url (Some (JObj payload)) None 30 ;;
    created <- lift (response_json response) ;;
    product_id <- lift (Py.get created "id") ;;
    ret (py_str product_id).

(** **** Pricing *)

Definition price_payload (product_id : string) (row : Row.t) : list (string * json) :=
  let payload :=
    [("productId", JStr product_id);
     ("amount", match Row.price_amount row with Some f => JFloat f | None => JNull end);
     ("currency", JStr (Row.price_currency row))] in
  let payload :=
    match Row.price_effective_from row with
    | Some from_ =>
        if Py.truthy_str from_ then Dict.set "effectiveFrom" (JStr from_) payload
        else payload
    | None => payload
    end in
  match Row.price_effective_to row with
  | Some to_ =>
      if Py.truthy_str to_ then Dict.set "effectiveTo" (JStr to_) payload else payload
  | None => payload
  end.

Definition _create_price (product_id : string) (row : Row.t) : M unit :=
  let payload := price_payload product_id row in
  dry <- gets Seeder.dry_run ;;
  if dry then ret tt
  else
    url <- _url "/api/prices" ;;
    response <- http_post url (Some (JObj payload)) None 30 ;;
    created <- lift (response_json response) ;;
    _ <- lift (Py.get created "id") ;;
    ret tt.

(** **** Inventory *)

Definition inventory_payload (product_id : string) (row : Row.t) : list (string * json) :=
  [("productId", JStr product_id);
   ("initialQuantity",
    match Row.inventory_initial_quantity row with Some n => JInt n | None => JNull end)].

Definition _create_inventory (product_id : string) (row : Row.t) : M unit :=
  let payload := inventory_payload product_id row in
  dry <- gets Seeder.dry_run ;;
  if dry then ret tt
  else
    url <- _url "/api/inventory" ;;
    response <- http_post url (Some (JObj payload)) None 30 ;;
    created <- lift (response_json response) ;;
    _ <- lift (Py.get created "id") ;;
    ret tt.

(** **** The rows *)

(** The body of the loop of [process_rows]. *)
Definition process_row (row : Row.t) : M unit :=
  site <- _ensure_site row ;;
  site_id <- lift (Py.getitem site "id") ;;
  category <- _ensure_category site_id (Row.category_name row)
                (Row.filter_definitions row) ;;
  category_id <- lift (Py.getitem category "id") ;;
  filter_assignments <- _ensure_filters_and_map_assignments site_id category_id row ;;
  product_id <- _create_product site_id category_id row filter_assignments ;;
  _ <- _create_price product_id row ;;
  _create_inventory product_id row.

Definition process_rows (rows : list Row.t) : M unit :=
  for_each rows process_row.
End Seeding.

(** *** The script *)

Record Args : Type := mk_args {
  csv_path : string;
  gateway_base_url : string;
  owner_id : string;
  dry_run : bool;
}.

Section Script.
Context {py : PyLib} {gw : Gateway} {csv : CsvFiles}.

(** [main]: what it returns or raises, and the requests it has sent. *)
Definition main (args : Args) : result unit * list request :=
  match uuid_of_str (owner_id args) with
  | None => (Raise (SystemExit ("Invalid owner UUID: " +:+ owner_id args)), [])
  | Some owner =>
      match load_rows (csv_path args) with
      | Raise e => (Raise e, [])
      | Ok rows =>
          let seeder := Seeder.init (gateway_base_url args) owner (dry_run args) in
          let '(outcome, seeder') := process_rows rows seeder in
          (outcome, Seeder.sent seeder')
      end
  end.
End Script.

End Seed.

(** ** Payloads as Python compares them *)

Module Doc.

(** The keys of every dictionary of the document are all different, as
    they are in a [dict]. *)
#[warnings="-register-all"]
Inductive unique_keys : json -> Prop :=
| uk_null : unique_keys JNull
| uk_bool b : unique_keys (JBool b)
| uk_int z : unique_keys (JInt z)
| uk_float r : unique_keys (JFloat r)
| uk_str s : unique_keys (JStr s)
| uk_arr items : Forall unique_keys items -> unique_keys (JArr items)
| uk_obj fields :
    List.NoDup (map fst fields) ->
    Forall (fun kv => unique_keys (snd kv)) fields ->
    unique_keys (JObj fields).

(** Two documents are the same payload when they differ at most in the
    order the members of their dictionaries were inserted in: Python
    finds two such dictionaries equal. *)
#[warnings="-register-all"]
Inductive same_payload : json -> json -> Prop :=
| same_null : same_payload JNull JNull
| same_bool b : same_payload (JBool b) (JBool b)
| same_int z : same_payload (JInt z) (JInt z)
| same_float r : same_payload (JFloat r) (JFloat r)
| same_str s : same_payload (JStr s) (JStr s)
| same_arr xs ys :
    Forall2 same_payload xs ys -> same_payload (JArr xs) (JArr ys)
| same_obj xs zs ys :
    Permutation xs zs ->
    Forall2 (fun a b => fst a = fst b /\ same_payload (snd a) (snd b)) zs ys ->
    same_payload (JObj xs) (JObj ys).

End Doc.

(** ** The lock file, line by line

    The layout the specification gives the lock file, JSON with the keys
    sorted and indented by two spaces, written out line by line. It is
    compared below with what [json.dump] writes. *)

Module Layout.

(** A line of the file: its nesting depth and its text after the
    indentation. *)
Definition line : Type := nat * string.

(** Two spaces for every level of nesting. *)
Fixpoint indentation (depth : nat) : string :=
  match depth with
  | O => ""
  | S depth' => "  " +:+ indentation depth'
  end.

(** The lines one after the other, each ended by a new line. *)
Fixpoint text (ls : list line) : string :=
  match ls with
  | [] => ""
  | (depth, content) :: rest =>
      indentation depth +:+ content +:+ String (ascii_of_N 10) (text rest)
  end.

(** [lead] put in front of the first line. *)
Definition lead_with (lead : string) (ls : list line) : list line :=
  match ls with
  | [] => []
  | (depth, content) :: rest => (depth, lead +:+ content) :: rest
  end.

(** A comma put at the end of the last line. *)
Fixpoint comma_after (ls : list line) : list line :=
  match ls with
  | [] => []
  | [(depth, content)] => [(depth, content +:+ ",")]
  | l :: rest => l :: comma_after rest
  end.

(** The lines of the members of a list or a dictionary: a comma after
    every member but the last. *)
Fixpoint members (blocks : list (list line)) : list line :=
  match blocks with
  | [] => []
  | [block] => block
  | block :: rest => comma_after block ++ members rest
  end.

(** The lines of a document at nesting depth [depth]: a scalar is one
    line; a list or a dictionary that is not empty has a line for its
    opening bracket, the lines of its members one level deeper and a line for
    its closing bracket; the members of a dictionary come in the order of
    their keys, each with its key in front. *)
Fixpoint lines (depth : nat) (v : json) : list line :=
  match v with
  | JArr [] => [(depth, "[]")]
  | JArr items =>
      (depth, "[") :: members (map (lines (S depth)) items) ++ [(depth, "]")]
  | JObj [] => [(depth, "{}")]
  | JObj fields =>
      (depth, "{")
      :: members
           (map (fun kv => lead_with (JsonDump.encode_str (fst kv) +:+ ": ") (snd kv))
              (Dict.sorted_items
                 (map (fun kv => let '(k, x) := kv in (k, lines (S depth) x)) fields)))
      ++ [(depth, "}")]
  | scalar => [(depth, JsonDump.encode depth scalar)]
  end.

(** The text of lines that follow other lines: every line after a new
    line. *)
Fixpoint below (ls : list line) : string :=
  match ls with
  | [] => ""
  | (depth, content) :: rest =>
      String (ascii_of_N 10) (indentation depth +:+ content +:+ below rest)
  end.

(** The text of a block that stands where its first line is already
    indented. *)
Definition inline (ls : list line) : string :=
  match ls with
  | [] => ""
  | (_, content) :: rest => content +:+ below rest
  end.

(** A block whose first line is at nesting depth [depth]. *)
Definition starts_at (depth : nat) (ls : list line) : Prop :=
  exists content rest, ls = (depth, content) :: rest.

End Layout.

(** ** The vocabulary of the properties *)

(** The order of the keys, on the members of dictionaries. *)
Definition key_le {V : Type} (a b : string * V) : Prop :=
  String.leb (fst a) (fst b) = true.

(** The text of one member of a dictionary at nesting depth [level]. *)
Definition member_text (level : nat) (kv : string * json) : string :=
  JsonDump.encode_str (fst kv) +:+ ": " +:+ JsonDump.encode (S level) (snd kv).

(** What a method of the seeder leaves as it is: the settings stay, no key
    leaves a cache, and the requests sent stay sent. *)
Record grows (a b : Seed.Seeder.t) : Prop := mk_grows {
  grows_base_url : Seed.Seeder.base_url b = Seed.Seeder.base_url a;
  grows_owner_id : Seed.Seeder.owner_id b = Seed.Seeder.owner_id a;
  grows_dry_run : Seed.Seeder.dry_run b = Seed.Seeder.dry_run a;
  grows_site_cache :
    forall k, is_Some (Seed.Seeder.site_cache a !! k) ->
              is_Some (Seed.Seeder.site_cache b !! k);
  grows_category_cache :
    forall k, is_Some (Seed.Seeder.category_cache a !! k) ->
              is_Some (Seed.Seeder.category_cache b !! k);
  grows_filter_cache :
    forall k, is_Some (Seed.Seeder.filter_cache a !! k) ->
              is_Some (Seed.Seeder.filter_cache b !! k);
  grows_sent : exists more, Seed.Seeder.sent b = Seed.Seeder.sent a ++ more;
}.

Definition respects {A} (m : Seed.M A) : Prop :=
  forall self r self', m self = (r, self') -> grows self self'.

(** A method keeps a relation between the state it starts in and the
    state it leaves, whatever it returns or raises. *)
Definition keeps {A} (R : Seed.Seeder.t -> Seed.Seeder.t -> Prop) (m : Seed.M A) : Prop :=
  forall self r self', m self = (r, self') -> R self self'.

(** In a dry run nothing is sent. *)
Definition quiet (a b : Seed.Seeder.t) : Prop :=
  Seed.Seeder.dry_run a = true ->
  Seed.Seeder.dry_run b = true /\ Seed.Seeder.sent b = Seed.Seeder.sent a.

(** The paths of the gateway the seeder knows, the fetch of a site by its
    slug apart. *)
Definition endpoints : list string :=
  ["/api/sites"; "/api/catalog/filters"; "/api/catalog/products/categories";
   "/api/catalog/products"; "/api/prices"; "/api/inventory"].

(** A request as the seeder makes them: to one of its endpoints below the
    base URL, asking for JSON; a GET without a body, or a POST with a JSON
    body and its content type. *)
Definition ok_request (base : string) (req : request) : Prop :=
  (exists path, req_url req = base +:+ path /\
                (In path endpoints \/ exists slug, path = "/api/sites/slug/" +:+ slug)) /\
  Dict.get "Accept" (req_headers req) = Some "application/json" /\
  match req_json req with
  | Some _ =>
      req_method req = "POST" /\
      Dict.get "Content-Type" (req_headers req) = Some "application/json"
  | None => req_method req = "GET"
  end.

(** From a seeder on the base URL [base], only such requests are sent. *)
Definition sends_ok (base : string) (a b : Seed.Seeder.t) : Prop :=
  Seed.Seeder.base_url a = base ->
  Seed.Seeder.base_url b = base /\
  exists more,
    Seed.Seeder.sent b = Seed.Seeder.sent a ++ more /\ Forall (ok_request base) more.

(** A field of the seeder is left as it is. *)
Definition unchanged {X} (f : Seed.Seeder.t -> X) (a b : Seed.Seeder.t) : Prop := f b = f a.

(** No site leaves the cache of sites, and none is replaced. *)
Definition site_stable (a b : Seed.Seeder.t) : Prop :=
  forall k v, Seed.Seeder.site_cache a !! k = Some v -> Seed.Seeder.site_cache b !! k = Some v.

(** The assignment of one filter of a product: it names the filter cached
    for the category under the key, and carries the value as a number when
    the filter is quantitative and as a text otherwise. *)
Definition assignment_for {py : PyLib} (cache : gmap (string * json) Seed.CreatedFilter.t)
    (category_id : json) (entry : string * json) (assignment : json) : Prop :=
  exists cached,
    cache !! Seed._filter_cache_key category_id (JStr (fst entry)) = Some cached /\
    if bool_decide (Seed.CreatedFilter.type cached = JStr "QUANTITATIVE")
    then exists number,
        py_float (snd entry) = Ok number /\
        assignment = JObj [("filterId", JStr (py_str (Seed.CreatedFilter.id cached)));
                           ("numericValue", JFloat number)]
    else assignment = JObj [("filterId", JStr (py_str (Seed.CreatedFilter.id cached)));
                            ("textValue", JStr (py_str (snd entry)))].

(** A row as the checks of [_normalize_row] leave it. *)
Definition well_formed_row (row : Seed.Row.t) : Prop :=
  Forall (fun text => text <> "")
    [Seed.Row.site_key row; Seed.Row.site_name row; Seed.Row.site_slug row;
     Seed.Row.site_description row; Seed.Row.site_currency row; Seed.Row.site_language row;
     Seed.Row.site_config row; Seed.Row.category_name row; Seed.Row.product_name row;
     Seed.Row.product_description row; Seed.Row.product_sku row;
     Seed.Row.product_status row; Seed.Row.price_currency row] /\
  Seed.Row.product_images row <> [] /\
  Forall (fun image => image <> "") (Seed.Row.product_images row) /\
  Seed.Row.price_amount row <> None /\
  Seed.Row.inventory_initial_quantity row <> None /\
  (PyStr.upper (Seed.Row.product_status row) = "SCHEDULED" ->
   Seed.Row.product_scheduled_publish_at row <> None) /\
  Seed.Row.product_scheduled_publish_at row <> Some "" /\
  Seed.Row.price_effective_from row <> Some "" /\
  Seed.Row.price_effective_to row <> Some "".

(** What the lines of the status make of a well-formed mapping. *)
Definition clean_commits (commits : list (string * string)) : Prop :=
  List.NoDup (map fst commits) /\
  forall path sha, In (path, sha) commits ->
    path <> "" /\ PyStr.is_prefix "+" sha = false /\ PyStr.is_prefix "-" sha = false.

(** ** Sample worlds

    Concrete instances of the parameters, on which the properties below
    are run. *)

Module Sample.

Definition nl : string := String (ascii_of_N 10) EmptyString.

(** A repository with three submodules. *)
Definition git : Subprocess := {|
  subprocess_run argv cwd :=
    match argv with
    | "git" :: "submodule" :: _ =>
        (0, " 1234567890abcdef services/catalog (v1.2)" +:+ nl
            +:+ "+abcdef0123456789 infra/gateway (heads/main)" +:+ nl
            +:+ "-00112233445566 services/pricing" +:+ nl, "")
    | "git" :: "rev-parse" :: "--abbrev-ref" :: _ => (0, "main" +:+ nl, "")
    | "git" :: "rev-parse" :: _ => (0, "deadbeefcafe" +:+ nl, "")
    | _ => (1, "", "unknown command")
    end |}.

Definition commits : list (string * string) :=
  [("services/catalog", "1234567890abcdef");
   ("infra/gateway", "abcdef0123456789");
   ("services/pricing", "00112233445566")].

(** Image metadata for the gateway alone: a tag and a tag prefix. *)
Definition gateway_image : Lock.ImageMetadata.t :=
  Lock.ImageMetadata.mk "registry.example/gw" (Some "v9") (Some "sha256:aa") (Some "rel-").

Definition image_metadata : gmap string Lock.ImageMetadata.t :=
  {[ "gateway" := gateway_image ]}.

Definition catalog_lock : Lock.ServiceLock.t :=
  Lock.ServiceLock.mk "services/catalog" "1234567890abcdef"
    (Lock.ImageMetadata.mk "ghcr.io/shopifake/catalog" (Some "main-1234567") None None) None.

Definition gateway_lock : Lock.ServiceLock.t :=
  Lock.ServiceLock.mk "infra/gateway" "abcdef0123456789"
    (Lock.ImageMetadata.mk "registry.example/gw" (Some "rel-abcdef0") (Some "sha256:aa") None)
    None.

Definition pricing_lock : Lock.ServiceLock.t :=
  Lock.ServiceLock.mk "services/pricing" "00112233445566"
    (Lock.ImageMetadata.mk "ghcr.io/shopifake/pricing" (Some "main-0011223") None None) None.

Definition locks : gmap string Lock.ServiceLock.t :=
  <["catalog" := catalog_lock]> (<["gateway" := gateway_lock]> (<["pricing" := pricing_lock]> ∅)).

(** *** The seeder *)

Definition base : string := "http://localhost:9000".
Definition owner : string := "11111111-1111-1111-1111-111111111111".

Definition site_doc : json := JObj [("id", JStr "site-1"); ("slug", JStr "acme")].
Definition category_doc : json := JObj [("id", JStr "cat-1"); ("name", JStr "Shoes")].
Definition filter_definitions : json :=
  JArr [JObj [("key", JStr "size"); ("type", JStr "TEXT")]].
Definition filter_doc : json :=
  JObj [("id", JStr "filter-1"); ("key", JStr "size"); ("type", JStr "TEXT")].
Definition product_filters : json := JObj [("size", JStr "42")].
Definition product_doc : json := JObj [("id", JStr "prod-1")].
Definition price_doc : json := JObj [("id", JStr "price-1")].
Definition inventory_doc : json := JObj [("id", JStr "inv-1")].

(** The documents of the samples. Their dictionaries are written in key
    order, so each is what [json.loads] makes of its own text. *)
Definition documents : list json :=
  [JArr []; site_doc; category_doc; filter_definitions; filter_doc; product_filters;
   product_doc; price_doc; inventory_doc].

(** The Python library on the texts of the samples: the parsers know the
    texts the samples hold and refuse every other text. The samples never
    print a list or a dictionary. *)
Definition py : PyLib := {|
  json_loads text :=
    match find (fun v => String.eqb (JsonDump.dumps v) text) documents with
    | Some v => Ok v
    | None => Raise (ValueError "Expecting value: line 1 column 1 (char 0)")
    end;
  float_of_str text :=
    if String.eqb text "19.99" then Ok "19.99"
    else Raise (ValueError ("could not convert string to float: '" +:+ text +:+ "'"));
  float_of_int n := Ok (PyStr.of_Z n +:+ ".0");
  int_of_str text :=
    match NilZero.int_of_string text with
    | Some d => Ok (Z.of_int d)
    | None => Raise (ValueError ("invalid literal for int() with base 10: '" +:+ text +:+ "'"))
    end;
  container_repr _ := "[...]";
  uuid_of_str text := if String.eqb text owner then Some text else None;
|}.

Definition asks (method path : string) (req : request) : bool :=
  String.eqb (req_method req) method && String.eqb (req_url req) (base +:+ path).

(** A gateway on which nothing exists yet and every creation succeeds. *)
Definition gateway : Gateway := {|
  urlopen history req :=
    if asks "GET" "/api/sites/slug/acme" req then HTTPError 404 "Site not found"
    else if asks "POST" "/api/sites" req then Response 201 (JsonDump.dumps site_doc)
    else if asks "GET" "/api/catalog/products/categories" req
         then Response 200 (JsonDump.dumps (JArr []))
    else if asks "POST" "/api/catalog/products/categories" req
         then Response 201 (JsonDump.dumps category_doc)
    else if asks "GET" "/api/catalog/filters" req then Response 200 (JsonDump.dumps (JArr []))
    else if asks "POST" "/api/catalog/filters" req then Response 201 (JsonDump.dumps filter_doc)
    else if asks "POST" "/api/catalog/products" req
         then Response 201 (JsonDump.dumps product_doc)
    else if asks "POST" "/api/prices" req then Response 201 (JsonDump.dumps price_doc)
    else if asks "POST" "/api/inventory" req then Response 201 (JsonDump.dumps inventory_doc)
    else URLError "connection refused"
|}.

(** A gateway on which another client has made the site, the category and
    the filter between the fetch and the creation: the fetches before the
    creation find nothing, every creation is refused, and the site is found
    by its slug once its creation has been tried. *)
Definition contended : Gateway := {|
  urlopen history req :=
    if asks "GET" "/api/sites/slug/acme" req
    then if existsb (asks "POST" "/api/sites") history
         then Response 200 (JsonDump.dumps site_doc)
         else HTTPError 404 "Site not found"
    else if asks "POST" "/api/sites" req then HTTPError 400 "Slug already exists"
    else if asks "GET" "/api/catalog/products/categories" req
         then Response 200 (JsonDump.dumps (JArr []))
    else if asks "POST" "/api/catalog/products/categories" req
         then HTTPError 409 "Category already exists"
    else if asks "GET" "/api/catalog/filters" req then Response 200 (JsonDump.dumps (JArr []))
    else if asks "POST" "/api/catalog/filters" req then HTTPError 409 "Filter already exists"
    else URLError "connection refused"
|}.

Definition row : Seed.Row.t :=
  Seed.Row.mk "acme" "Acme" "acme" "Demo shop" "EUR" "en" "{}" "Shoes" filter_definitions
    "Boot" "A leather boot" ["http://img.example/boot.png"] "SKU-1" "DRAFT" None
    product_filters (Some "19.99") "EUR" None None (Some 5).

(** The line of the CSV file the row above comes from. *)
Definition raw_row : gmap string string :=
  list_to_map
    [("site_key", "acme"); ("site_name", "Acme"); ("site_slug", "acme");
     ("site_description", "Demo shop"); ("site_currency", "EUR"); ("site_language", "en");
     ("site_config", "{}"); ("category_name", " Shoes ");
     ("filter_definitions", JsonDump.dumps filter_definitions);
     ("product_name", "Boot"); ("product_description", "A leather boot");
     ("product_images", "http://img.example/boot.png | "); ("product_sku", "SKU-1");
     ("product_filters", JsonDump.dumps product_filters);
     ("price_amount", "19.99"); ("price_currency", "EUR");
     ("inventory_initial_quantity", "5")].

(** The same line with a blank currency of the price. *)
Definition raw_row_without_currency : gmap string string :=
  <["price_currency" := "  "]> raw_row.

Definition csv : CsvFiles := {|
  read_csv path :=
    if String.eqb path "data/seed-data.csv" then Some [raw_row]
    else if String.eqb path "data/broken.csv" then Some [raw_row; raw_row_without_currency]
    else None
|}.

Definition seeder : Seed.Seeder.t := Seed.Seeder.init base owner false.

(** The method and the URL of a request. *)
Definition brief (req : request) : string * string := (req_method req, req_url req).

(** *** The lock script *)

(** A repository whose status has a commit without a path. *)
Definition short_git : Subprocess := {|
  subprocess_run argv cwd := (0, " 1234567890abcdef services/catalog (v1.2)" +:+ nl
                                 +:+ "+abcdef0123456789" +:+ nl, "")
|}.

(** The image metadata of the gateway as a file holds them, and a file
    whose second service has no repository. *)
Definition metadata_doc : json :=
  JObj [("gateway",
         JObj [("digest", JStr "sha256:aa"); ("repository", JStr "registry.example/gw");
               ("tag", JStr "v9"); ("tag_prefix", JStr "rel-")])].

Definition broken_metadata_doc : json :=
  JObj [("gateway", JObj [("repository", JStr "registry.example/gw")]);
        ("pricing", JObj [("tag", JStr "v1")])].

Definition lock_py : PyLib := {|
  json_loads text :=
    match find (fun v => String.eqb (JsonDump.dumps v) text)
            [metadata_doc; broken_metadata_doc] with
    | Some v => Ok v
    | None => Raise (ValueError "Expecting value: line 1 column 1 (char 0)")
    end;
  float_of_str text := Raise (ValueError ("could not convert string to float: '" +:+ text +:+ "'"));
  float_of_int n := Ok (PyStr.of_Z n +:+ ".0");
  int_of_str text :=
    Raise (ValueError ("invalid literal for int() with base 10: '" +:+ text +:+ "'"));
  container_repr _ := "[...]";
  uuid_of_str _ := None;
|}.

Definition files : gmap (list string) FS.node :=
  <[["config"; "images.json"] := FS.File (JsonDump.dumps metadata_doc)]>
    (<[["config"; "broken.json"] := FS.File (JsonDump.dumps broken_metadata_doc)]>
       (<[["config"] := FS.Dir]> ∅)).

Definition lock_args : GenerateLock.Args :=
  GenerateLock.mk_args None (Some ["config"; "images.json"]) None false
    (Some "main-") "ghcr.io/shopifake/".

(** A directory that is no repository. *)
Definition no_git : Subprocess := {|
  subprocess_run argv cwd := (128, "", " fatal: not a git repository ")
|}.

(** *** More of the seeder *)

Definition dry_seeder : Seed.Seeder.t := Seed.Seeder.init base owner true.

(** A row of a site the gateway cannot be asked for. *)
Definition stray_row : Seed.Row.t :=
  Seed.Row.mk "other" "Other" "other" "Another shop" "EUR" "en" "{}" "Shoes" (JArr [])
    "Boot" "A leather boot" ["http://img.example/boot.png"] "SKU-2" "DRAFT" None
    (JObj []) (Some "19.99") "EUR" None None (Some 5).

End Sample.

(** * Properties *)

(** ** The order of strings and sorting by key *)

Section StringOrder.

Lemma leb_iff (a b : string) :
  String.leb a b = true <-> OrderedTypeEx.String_as_OT.lt a b \/ a = b.
Proof.
  unfold String.leb.
  destruct (String.compare a b) eqn:Hcmp.
  - apply OrderedTypeEx.String_as_OT.cmp_eq in Hcmp. tauto.
  - apply OrderedTypeEx.String_as_OT.cmp_lt in Hcmp. tauto.
  - split; [ discriminate | ].
    intros [Hlt | Heq].
    + apply OrderedTypeEx.String_as_OT.cmp_lt in Hlt.
      unfold OrderedTypeEx.String_as_OT.cmp in Hlt. congruence.
    + apply OrderedTypeEx.String_as_OT.cmp_eq in Heq.
      unfold OrderedTypeEx.String_as_OT.cmp in Heq. congruence.
Qed.

Lemma leb_refl (a : string) : String.leb a a = true.
Proof. apply leb_iff. right. reflexivity. Qed.

Lemma leb_trans (a b c : string) :
  String.leb a b = true -> String.leb b c = true -> String.leb a c = true.
Proof.
  rewrite !leb_iff. intros [Hab | ->] [Hbc | ->]; auto.
  left. eapply OrderedTypeEx.String_as_OT.lt_trans; eassumption.
Qed.

Lemma leb_false_flip (a b : string) : String.leb a b = false -> String.leb b a = true.
Proof.
  intros Hab. destruct (String.leb_total a b) as [H | H]; [ congruence | exact H ].
Qed.

Lemma ltb_iff (a b : string) :
  String.ltb a b = true <-> String.leb a b = true /\ a <> b.
Proof.
  unfold String.ltb, String.leb.
  destruct (String.compare a b) eqn:Hcmp.
  - apply OrderedTypeEx.String_as_OT.cmp_eq in Hcmp. split; [ discriminate | tauto ].
  - split; [ | reflexivity ]. intros _. split; [ reflexivity | ].
    intros ->. apply OrderedTypeEx.String_as_OT.cmp_lt in Hcmp.
    eapply OrderedTypeEx.String_as_OT.lt_not_eq; [ exact Hcmp | reflexivity ].
  - split; [ discriminate | ]. intros [H _]. discriminate.
Qed.

End StringOrder.

Section SortedItems.
Context {V : Type}.

Lemma insert_sorted_perm (kv : string * V) (l : list (string * V)) :
  Permutation (Dict.insert_sorted kv l) (kv :: l).
Proof.
  induction l as [ | kv' l IH ]; simpl.
  - reflexivity.
  - destruct (String.leb (fst kv) (fst kv')).
    + reflexivity.
    + rewrite IH. apply perm_swap.
Qed.

Lemma sorted_items_perm (d : list (string * V)) : Permutation (Dict.sorted_items d) d.
Proof.
  induction d as [ | kv d IH ]; simpl.
  - reflexivity.
  - rewrite insert_sorted_perm. apply perm_skip. exact IH.
Qed.

Lemma insert_sorted_sorted (kv : string * V) (l : list (string * V)) :
  StronglySorted key_le l -> StronglySorted key_le (Dict.insert_sorted kv l).
Proof.
  induction 1 as [ | kv' l Hl IH Hall ]; simpl.
  - constructor; constructor.
  - destruct (String.leb (fst kv) (fst kv')) eqn:Hle.
    + constructor.
      * constructor; assumption.
      * constructor; [ exact Hle | ].
        eapply List.Forall_impl; [ | exact Hall ].
        intros c Hc. unfold key_le in *. eapply leb_trans; eassumption.
    + constructor; [ exact IH | ].
      apply (Permutation_Forall (Permutation_sym (insert_sorted_perm kv l))).
      constructor; [ | exact Hall ].
      unfold key_le. apply leb_false_flip. exact Hle.
Qed.

Lemma sorted_items_sorted (d : list (string * V)) :
  StronglySorted key_le (Dict.sorted_items d).
Proof.
  induction d as [ | kv d IH ]; simpl.
  - constructor.
  - apply insert_sorted_sorted. exact IH.
Qed.

(** Two sorted lists with the same members are the same list, when no
    key comes twice. *)
Lemma sorted_unique (l1 l2 : list (string * V)) :
  StronglySorted key_le l1 -> StronglySorted key_le l2 ->
  Permutation l1 l2 -> List.NoDup (map fst l1) -> l1 = l2.
Proof.
  intros Hs1. revert l2.
  induction Hs1 as [ | a l1 Hs1 IH Ha ]; intros l2 Hs2 Hperm Hnd.
  - apply Permutation_nil in Hperm. congruence.
  - destruct Hs2 as [ | b l2 Hs2 Hb ].
    + apply Permutation_sym, Permutation_nil in Hperm. discriminate.
    + assert (Hab : a = b).
      { assert (Hina : In a (b :: l2)) by (eapply Permutation_in; [ exact Hperm | left; reflexivity ]).
        assert (Hinb : In b (a :: l1))
          by (eapply Permutation_in; [ apply Permutation_sym; exact Hperm | left; reflexivity ]).
        destruct Hina as [Heq | Hina]; [ congruence | ].
        destruct Hinb as [Heq | Hinb]; [ congruence | ].
        exfalso.
        rewrite List.Forall_forall in Ha, Hb.
        assert (Hk : fst a = fst b).
        { apply String.leb_antisym; [ apply (Ha b Hinb) | apply (Hb a Hina) ]. }
        simpl in Hnd. apply List.NoDup_cons_iff in Hnd as [Hnotin _].
        apply Hnotin. rewrite Hk. apply in_map. exact Hinb. }
      subst b. f_equal.
      apply IH.
      * exact Hs2.
      * eapply Permutation_cons_inv. exact Hperm.
      * simpl in Hnd. apply List.NoDup_cons_iff in Hnd as [_ Hnd]. exact Hnd.
Qed.

(** Sorting forgets the order the members were inserted in. *)
Lemma sorted_items_of_perm (d1 d2 : list (string * V)) :
  Permutation d1 d2 -> List.NoDup (map fst d1) ->
  Dict.sorted_items d1 = Dict.sorted_items d2.
Proof.
  intros Hperm Hnd.
  apply sorted_unique.
  - apply sorted_items_sorted.
  - apply sorted_items_sorted.
  - rewrite !sorted_items_perm. exact Hperm.
  - eapply Permutation_NoDup; [ | exact Hnd ].
    apply Permutation_map, Permutation_sym, sorted_items_perm.
Qed.

End SortedItems.

Section SortedStrings.

Lemma sorted_In (xs : list string) (x : string) : In x (Dict.sorted xs) <-> In x xs.
Proof.
  unfold Dict.sorted.
  assert (Hperm : Permutation (map fst (Dict.sorted_items (map (fun y => (y, tt)) xs))) xs).
  { rewrite sorted_items_perm. rewrite map_map. simpl. rewrite map_id. reflexivity. }
  split; intros H.
  - eapply Permutation_in; [ exact Hperm | exact H ].
  - eapply Permutation_in; [ apply Permutation_sym; exact Hperm | exact H ].
Qed.

Lemma strictly_sorted_keys {V} (l : list (string * V)) :
  StronglySorted key_le l -> List.NoDup (map fst l) ->
  StronglySorted (fun a b => String.ltb a b = true) (map fst l).
Proof.
  induction 1 as [ | a l Hs IH Ha ]; simpl; intros Hnd.
  - constructor.
  - apply List.NoDup_cons_iff in Hnd as [Hnotin Hnd].
    constructor; [ apply IH; exact Hnd | ].
    rewrite List.Forall_forall in Ha. apply List.Forall_forall.
    intros k Hk. apply in_map_iff in Hk as (b & <- & Hb).
    apply ltb_iff. split; [ apply (Ha b Hb) | ].
    intros Heq. apply Hnotin. rewrite Heq. apply in_map. exact Hb.
Qed.

Lemma sorted_strict (xs : list string) :
  List.NoDup xs -> StronglySorted (fun a b => String.ltb a b = true) (Dict.sorted xs).
Proof.
  intros Hnd. unfold Dict.sorted. apply strictly_sorted_keys.
  - apply sorted_items_sorted.
  - eapply Permutation_NoDup.
    + apply Permutation_map, Permutation_sym, sorted_items_perm.
    + rewrite map_map. simpl. rewrite map_id. exact Hnd.
Qed.

Lemma existsb_eqb_In (x : string) (xs : list string) :
  existsb (String.eqb x) xs = true <-> In x xs.
Proof.
  rewrite existsb_exists. split.
  - intros (y & Hy & Heq). apply String.eqb_eq in Heq. subst. exact Hy.
  - intros H. exists x. split; [ exact H | apply String.eqb_refl ].
Qed.

Lemma dedup_In (xs : list string) (x : string) : In x (Dict.dedup xs) <-> In x xs.
Proof.
  induction xs as [ | y xs IH ]; simpl; [ tauto | ].
  destruct (existsb (String.eqb y) xs) eqn:Hy.
  - apply existsb_eqb_In in Hy. rewrite IH. split; [ tauto | ].
    intros [<- | H]; assumption.
  - simpl. rewrite IH. tauto.
Qed.

Lemma dedup_NoDup (xs : list string) : List.NoDup (Dict.dedup xs).
Proof.
  induction xs as [ | y xs IH ]; simpl; [ constructor | ].
  destruct (existsb (String.eqb y) xs) eqn:Hy; [ exact IH | ].
  constructor; [ | exact IH ].
  rewrite dedup_In. intros Hin. apply existsb_eqb_In in Hin. congruence.
Qed.

End SortedStrings.

(** ** The lock generator *)

Section LockLoop.
Variable image_metadata : gmap string Lock.ImageMetadata.t.
Variable services_filter : option (list string).
Variable default_registry : string.
Variable default_tag_prefix : option string.

Let step := Lock.lock_step image_metadata services_filter default_registry default_tag_prefix.

(** Where a lock comes from: it was there before the loop, or the loop
    made it for a submodule it keeps. *)
Lemma fold_lock_step_origin (commits : list (string * string)) :
  forall (init : gmap string Lock.ServiceLock.t) name lock,
    fold_left step commits init !! name = Some lock ->
    init !! name = Some lock \/
    exists path sha,
      In (path, sha) commits /\ Lock.path_name path = name /\
      Lock.selected services_filter name = true /\
      lock = Lock.lock_for image_metadata default_registry default_tag_prefix path sha.
Proof.
  induction commits as [ | [path sha] commits IH ]; simpl; intros init name lock Hlook.
  - left. exact Hlook.
  - apply IH in Hlook as [Hinit | (p & s & Hin & Hname & Hsel & Hlock)].
    + unfold step, Lock.lock_step in Hinit.
      destruct (Lock.selected services_filter (Lock.path_name path)) eqn:Hsel; simpl in Hinit.
      * destruct (decide (Lock.path_name path = name)) as [Heq | Hne].
        -- subst name. rewrite lookup_insert_eq in Hinit. injection Hinit as <-.
           right. exists path, sha. auto.
        -- rewrite lookup_insert_ne in Hinit by exact Hne. left. exact Hinit.
      * left. exact Hinit.
    + right. exists p, s. auto.
Qed.

Lemma lock_step_keeps (locks : gmap string Lock.ServiceLock.t) entry name :
  is_Some (locks !! name) -> is_Some (step locks entry !! name).
Proof.
  intros Hsome. destruct entry as [path sha]. unfold step, Lock.lock_step.
  destruct (negb _); [ exact Hsome | ].
  destruct (decide (Lock.path_name path = name)) as [<- | Hne].
  - rewrite lookup_insert_eq. eauto.
  - rewrite lookup_insert_ne by exact Hne. exact Hsome.
Qed.

Lemma fold_lock_step_keeps (commits : list (string * string)) :
  forall (init : gmap string Lock.ServiceLock.t) name,
    is_Some (init !! name) -> is_Some (fold_left step commits init !! name).
Proof.
  induction commits as [ | entry commits IH ]; simpl; intros init name Hsome.
  - exact Hsome.
  - apply IH. apply lock_step_keeps. exact Hsome.
Qed.

(** Every submodule the loop keeps has a lock under its name. *)
Lemma fold_lock_step_present (commits : list (string * string)) :
  forall (init : gmap string Lock.ServiceLock.t) path sha,
    In (path, sha) commits ->
    Lock.selected services_filter (Lock.path_name path) = true ->
    is_Some (fold_left step commits init !! Lock.path_name path).
Proof.
  induction commits as [ | entry commits IH ]; simpl; intros init path sha Hin Hsel.
  - contradiction.
  - destruct Hin as [-> | Hin].
    + apply fold_lock_step_keeps. unfold step, Lock.lock_step.
      rewrite Hsel. simpl. rewrite lookup_insert_eq. eauto.
    + eapply IH; eassumption.
Qed.

End LockLoop.

Section LockFacts.
Context {sp : Subprocess}.

Lemma locks_of_commits_ok commits md flt registry prefix locks :
  Lock.locks_of_commits commits md flt registry prefix = Ok locks ->
  locks = fold_left (Lock.lock_step md flt registry prefix) commits ∅.
Proof.
  unfold Lock.locks_of_commits.
  destruct (Lock.filter_given flt); [ | congruence ].
  destruct (Lock.missing_services _ _); [ congruence | discriminate ].
Qed.

Lemma build_service_locks_ok root scope md flt registry prefix commits locks :
  Lock.list_submodules root scope = Ok commits ->
  Lock.build_service_locks root scope md flt registry prefix = Ok locks ->
  locks = fold_left (Lock.lock_step md flt registry prefix) commits ∅.
Proof.
  intros Hlist Hbuild. unfold Lock.build_service_locks in Hbuild.
  rewrite Hlist in Hbuild. simpl in Hbuild.
  apply locks_of_commits_ok in Hbuild. exact Hbuild.
Qed.

(** Every lock of the result is the lock of a submodule the loop keeps. *)
Lemma built_lock_origin root scope md flt registry prefix locks name lock :
  Lock.build_service_locks root scope md flt registry prefix = Ok locks ->
  locks !! name = Some lock ->
  exists commits path sha,
    Lock.list_submodules root scope = Ok commits /\
    In (path, sha) commits /\ Lock.path_name path = name /\
    Lock.selected flt name = true /\
    lock = Lock.lock_for md registry prefix path sha.
Proof.
  intros Hbuild Hlook.
  destruct (Lock.list_submodules root scope) as [commits | e] eqn:Hlist.
  - pose proof (build_service_locks_ok _ _ _ _ _ _ _ _ Hlist Hbuild) as ->.
    apply fold_lock_step_origin in Hlook as [Hempty | (path & sha & H)].
    + rewrite lookup_empty in Hempty. discriminate.
    + exists commits, path, sha. tauto.
  - unfold Lock.build_service_locks in Hbuild. rewrite Hlist in Hbuild. discriminate.
Qed.

Lemma final_tag_default prefix registry name sha :
  Lock.final_tag (Lock.ImageMetadata.mk (registry +:+ "/" +:+ name) None None prefix) sha
  = Some (default "" prefix +:+ PyStr.take 7 sha).
Proof.
  unfold Lock.final_tag. simpl.
  destruct prefix as [ p | ]; simpl; [ | reflexivity ].
  unfold Py.truthy_str. destruct (String.eqb p "") eqn:Hp; simpl; [ | reflexivity ].
  apply String.eqb_eq in Hp. subst p. reflexivity.
Qed.

(** C5. A submodule the image metadata does not list is locked to the
    computed default: the repository is the default registry, a slash and
    the service name (the last component of the submodule path), and the
    tag is the first seven characters of the locked commit, after the
    default tag prefix when there is one. The lock under a name is that of
    a submodule of this name, and of this very submodule when no other
    submodule has its name. *)
Theorem default_image_for_unlisted_submodule
    root scope md flt registry prefix commits locks path sha :
  Lock.list_submodules root scope = Ok commits ->
  Lock.build_service_locks root scope md flt registry prefix = Ok locks ->
  In (path, sha) commits ->
  md !! Lock.path_name path = None ->
  Lock.selected flt (Lock.path_name path) = true ->
  exists lock,
    locks !! Lock.path_name path = Some lock /\
    Lock.ImageMetadata.repository (Lock.ServiceLock.image lock)
      = registry +:+ "/" +:+ Lock.path_name path /\
    Lock.ImageMetadata.tag (Lock.ServiceLock.image lock)
      = Some (default "" prefix +:+ PyStr.take 7 (Lock.ServiceLock.git_sha lock)) /\
    In (Lock.ServiceLock.submodule_path lock, Lock.ServiceLock.git_sha lock) commits /\
    Lock.path_name (Lock.ServiceLock.submodule_path lock) = Lock.path_name path /\
    ((forall p s, In (p, s) commits -> Lock.path_name p = Lock.path_name path ->
                  p = path /\ s = sha) ->
     Lock.ServiceLock.submodule_path lock = path /\ Lock.ServiceLock.git_sha lock = sha).
Proof.
  intros Hlist Hbuild Hin Hmd Hsel.
  pose proof (build_service_locks_ok _ _ _ _ _ _ _ _ Hlist Hbuild) as Hlocks.
  destruct (fold_lock_step_present md flt registry prefix commits ∅ path sha Hin Hsel)
    as [lock Hlock].
  rewrite <- Hlocks in Hlock.
  exists lock. split; [ exact Hlock | ].
  rewrite Hlocks in Hlock.
  apply fold_lock_step_origin in Hlock as [Hempty | (p & s & Hin' & Hname & _ & ->)].
  { rewrite lookup_empty in Hempty. discriminate. }
  unfold Lock.lock_for, Lock.image_for. rewrite Hname, Hmd. simpl.
  repeat split.
  - apply final_tag_default.
  - exact Hin'.
  - exact Hname.
  - apply (H p s Hin' Hname).
  - apply (H p s Hin' Hname).
Qed.

(** C10. When the image metadata of a service gives a tag prefix that is
    not empty, the tag of its lock is the prefix followed by the first
    seven characters of the locked commit, whatever tag the entry also
    gives; the tag of the entry is used as it is when the entry has no
    tag prefix, or an empty one. *)
Theorem tag_prefix_overrides_explicit_tag
    root scope md flt registry prefix locks name lock entry :
  Lock.build_service_locks root scope md flt registry prefix = Ok locks ->
  locks !! name = Some lock ->
  md !! name = Some entry ->
  (forall p, Lock.ImageMetadata.tag_prefix entry = Some p -> p <> "" ->
     Lock.ImageMetadata.tag (Lock.ServiceLock.image lock)
     = Some (p +:+ PyStr.take 7 (Lock.ServiceLock.git_sha lock))) /\
  (forall t, Lock.ImageMetadata.tag entry = Some t ->
     Lock.ImageMetadata.tag_prefix entry = None \/
     Lock.ImageMetadata.tag_prefix entry = Some "" ->
     Lock.ImageMetadata.tag (Lock.ServiceLock.image lock) = Some t) /\
  (Lock.ImageMetadata.tag entry = None ->
     Lock.ImageMetadata.tag_prefix entry = None \/
     Lock.ImageMetadata.tag_prefix entry = Some "" ->
     Lock.ImageMetadata.tag (Lock.ServiceLock.image lock)
     = Some (PyStr.take 7 (Lock.ServiceLock.git_sha lock))).
Proof.
  intros Hbuild Hlook Hmd.
  destruct (built_lock_origin _ _ _ _ _ _ _ _ _ Hbuild Hlook)
    as (commits & path & sha & _ & _ & Hname & _ & ->).
  unfold Lock.lock_for, Lock.image_for. rewrite Hname, Hmd. simpl.
  unfold Lock.final_tag.
  split; [ | split ].
  - intros p Hp Hne. rewrite Hp. simpl.
    unfold Py.truthy_str. destruct (String.eqb p "") eqn:Heq.
    + apply String.eqb_eq in Heq. contradiction.
    + reflexivity.
  - intros t Ht [Hp | Hp]; rewrite Hp, Ht; reflexivity.
  - intros Ht [Hp | Hp]; rewrite Hp, Ht; reflexivity.
Qed.

Lemma missing_services_In names (locks : gmap string Lock.ServiceLock.t) n :
  In n (Lock.missing_services names locks) <-> In n names /\ locks !! n = None.
Proof.
  unfold Lock.missing_services.
  rewrite sorted_In, dedup_In, filter_In.
  destruct (locks !! n); split; intros [H1 H2]; split; auto; discriminate.
Qed.

Lemma missing_services_sorted names (locks : gmap string Lock.ServiceLock.t) :
  StronglySorted (fun a b => String.ltb a b = true) (Lock.missing_services names locks).
Proof. apply sorted_strict, dedup_NoDup. Qed.

Lemma selected_requested names n :
  names <> [] -> Lock.selected (Some names) n = true <-> In n names.
Proof.
  intros Hne. unfold Lock.selected, Lock.in_list. simpl.
  destruct names as [ | n0 names ]; [ contradiction | ].
  rewrite <- (existsb_eqb_In n (n0 :: names)).
  destruct (existsb (String.eqb n) (n0 :: names)); simpl; split; congruence.
Qed.

(** C9. With a list of requested services that is not empty, the
    function returns exactly when every requested name is the name of a
    submodule, and the mapping it returns then has the requested names,
    all of them names of submodules, and no other; otherwise it raises a
    [ValueError] whose message lists, in increasing order and each once,
    the requested names that no submodule has. *)
Theorem requested_services_exactly
    root scope md names registry prefix commits :
  Lock.list_submodules root scope = Ok commits ->
  names <> [] ->
  let named n := exists path sha, In (path, sha) commits /\ Lock.path_name path = n in
  exists missing,
    StronglySorted (fun a b => String.ltb a b = true) missing /\
    (forall n, In n missing <-> In n names /\ ~ named n) /\
    match Lock.build_service_locks root scope md (Some names) registry prefix with
    | Ok locks =>
        missing = [] /\
        forall n, is_Some (locks !! n) <-> In n names /\ named n
    | Raise e =>
        missing <> [] /\
        e = ValueError ("Requested services missing from submodules: "
                        +:+ PyStr.join ", " missing)
    end.
Proof.
  intros Hlist Hne named.
  set (locks := fold_left (Lock.lock_step md (Some names) registry prefix) commits ∅).
  assert (Hlocks : forall n, is_Some (locks !! n) <-> In n names /\ named n).
  { intros n. split.
    - intros [lock Hlock]. apply fold_lock_step_origin in Hlock
        as [Hempty | (path & sha & Hin & Hname & Hsel & _)].
      + rewrite lookup_empty in Hempty. discriminate.
      + split; [ apply (selected_requested names n Hne); exact Hsel | ].
        exists path, sha. auto.
    - intros [Hreq (path & sha & Hin & <-)].
      eapply fold_lock_step_present; [ exact Hin | ].
      apply selected_requested; assumption. }
  exists (Lock.missing_services names locks).
  split; [ apply missing_services_sorted | ].
  split.
  { intros n. rewrite missing_services_In. split.
    - intros [Hreq Hnone]. split; [ exact Hreq | ].
      intros Hnamed. assert (Hsome : is_Some (locks !! n)) by (apply Hlocks; auto).
      rewrite Hnone in Hsome. destruct Hsome as [? Hsome]. discriminate.
    - intros [Hreq Hnot]. split; [ exact Hreq | ].
      destruct (locks !! n) eqn:Hl; [ | reflexivity ].
      exfalso. apply Hnot. apply Hlocks. eauto. }
  unfold Lock.build_service_locks. rewrite Hlist. simpl.
  unfold Lock.locks_of_commits. fold locks.
  assert (Hgiven : Lock.filter_given (Some names) = true)
    by (destruct names; [ contradiction | reflexivity ]).
  rewrite Hgiven. simpl.
  destruct (Lock.missing_services names locks) as [ | m ms ] eqn:Hmiss.
  - split; [ reflexivity | exact Hlocks ].
  - split; [ discriminate | reflexivity ].
Qed.

(** C7, as the code has it. A lock the generator builds is serialized
    with the fields [submodule_path], [git_sha] and [image], in this
    order, and never with [notes]. Its image has [repository]; it has
    [tag] when the resolved tag is not empty, and [digest] when the image
    metadata of the service gives a digest that is not empty; it has no
    other field. *)
Theorem serialized_lock_fields
    root scope md flt registry prefix locks name lock :
  Lock.build_service_locks root scope md flt registry prefix = Ok locks ->
  locks !! name = Some lock ->
  let entry := Lock.ServiceLock.to_mapping lock in
  Dict.keys entry = ["submodule_path"; "git_sha"; "image"] /\
  Dict.get "submodule_path" entry = Some (JStr (Lock.ServiceLock.submodule_path lock)) /\
  Dict.get "git_sha" entry = Some (JStr (Lock.ServiceLock.git_sha lock)) /\
  Dict.get "notes" entry = None /\
  exists image tag,
    Dict.get "image" entry = Some (JObj image) /\
    Dict.get "repository" image
      = Some (JStr (Lock.ImageMetadata.repository (Lock.ServiceLock.image lock))) /\
    Lock.ImageMetadata.tag (Lock.ServiceLock.image lock) = Some tag /\
    Dict.get "tag" image = (if Py.truthy_str tag then Some (JStr tag) else None) /\
    Dict.get "digest" image
      = match md !! name with
        | Some given =>
            match Lock.ImageMetadata.digest given with
            | Some d => if Py.truthy_str d then Some (JStr d) else None
            | None => None
            end
        | None => None
        end /\
    (forall k, In k (Dict.keys image) -> k = "repository" \/ k = "tag" \/ k = "digest").
Proof.
  intros Hbuild Hlook entry.
  destruct (built_lock_origin _ _ _ _ _ _ _ _ _ Hbuild Hlook)
    as (commits & path & sha & _ & _ & Hname & _ & Hlock).
  subst entry lock. unfold Lock.lock_for. rewrite Hname.
  unfold Lock.ServiceLock.to_mapping. simpl.
  repeat (split; [ reflexivity | ]).
  set (img := Lock.image_for md registry prefix name).
  assert (Htag : exists tag, Lock.final_tag img sha = Some tag).
  { unfold Lock.final_tag. destruct (Py.truthy_opt_str _); [ eauto | ].
    destruct (Lock.ImageMetadata.tag img); eauto. }
  destruct Htag as [tag Htag].
  assert (Hdigest : Lock.ImageMetadata.digest img
                    = match md !! name with
                      | Some given => Lock.ImageMetadata.digest given
                      | None => None
                      end).
  { unfold img, Lock.image_for. destruct (md !! name); reflexivity. }
  eexists. exists tag.
  split; [ reflexivity | ].
  unfold Lock.ImageMetadata.to_mapping. simpl. rewrite Htag.
  assert (Hd : match md !! name with
               | Some given =>
                   match Lock.ImageMetadata.digest given with
                   | Some d => if Py.truthy_str d then Some (JStr d) else None
                   | None => None
                   end
               | None => None
               end
               = match Lock.ImageMetadata.digest img with
                 | Some d => if Py.truthy_str d then Some (JStr d) else None
                 | None => None
                 end).
  { rewrite Hdigest. destruct (md !! name); reflexivity. }
  rewrite Hd. clear Hd Hdigest.
  destruct (Py.truthy_str tag); destruct (Lock.ImageMetadata.digest img) as [ d | ];
    try destruct (Py.truthy_str d); simpl;
    (split; [ reflexivity | ]); (split; [ reflexivity | ]);
    (split; [ reflexivity | ]); (split; [ reflexivity | ]);
    intros k Hk; simpl in Hk; intuition.
Qed.

End LockFacts.

(** ** The text of the lock file *)

Section DumpFacts.

Lemma insert_sorted_map_values {V W} (f : V -> W) (kv : string * V) (l : list (string * V)) :
  Dict.insert_sorted (fst kv, f (snd kv)) (map (fun x => (fst x, f (snd x))) l)
  = map (fun x => (fst x, f (snd x))) (Dict.insert_sorted kv l).
Proof.
  induction l as [ | kv' l IH ]; simpl; [ reflexivity | ].
  destruct (String.leb (fst kv) (fst kv')); simpl; [ reflexivity | ].
  rewrite IH. reflexivity.
Qed.

(** Sorting looks at the keys only: it can be done before or after the
    values are encoded. *)
Lemma sorted_items_map_values {V W} (f : V -> W) (d : list (string * V)) :
  Dict.sorted_items (map (fun x => (fst x, f (snd x))) d)
  = map (fun x => (fst x, f (snd x))) (Dict.sorted_items d).
Proof.
  induction d as [ | kv d IH ]; simpl; [ reflexivity | ].
  rewrite IH. apply insert_sorted_map_values.
Qed.

Lemma encoded_members level (fields : list (string * json)) :
  map (fun kv => JsonDump.encode_str (fst kv) +:+ ": " +:+ snd kv)
    (Dict.sorted_items
       (map (fun kv => let '(k, x) := kv in (k, JsonDump.encode (S level) x)) fields))
  = map (member_text level) (Dict.sorted_items fields).
Proof.
  rewrite (map_ext _ (fun x => (fst x, JsonDump.encode (S level) (snd x))))
    by (intros [k x]; reflexivity).
  rewrite sorted_items_map_values, map_map. reflexivity.
Qed.

(** A dictionary that is not empty is written with its members in the
    order of their keys, one a line, two spaces deeper than the braces. *)
Lemma encode_object level (fields : list (string * json)) :
  fields <> [] ->
  JsonDump.encode level (JObj fields)
  = "{" +:+ JsonDump.newline_indent (S level)
    +:+ PyStr.join (JsonDump.separator (S level))
          (map (member_text level) (Dict.sorted_items fields))
    +:+ JsonDump.newline_indent level +:+ "}".
Proof.
  intros Hne. destruct fields as [ | kv fields ]; [ contradiction | ].
  rewrite <- encoded_members. reflexivity.
Qed.

Lemma encode_array level (items : list json) :
  items <> [] ->
  JsonDump.encode level (JArr items)
  = "[" +:+ JsonDump.newline_indent (S level)
    +:+ PyStr.join (JsonDump.separator (S level)) (map (JsonDump.encode (S level)) items)
    +:+ JsonDump.newline_indent level +:+ "]".
Proof.
  intros Hne. destruct items as [ | x items ]; [ contradiction | reflexivity ].
Qed.

Lemma same_members_encoded level (zs ys : list (string * json)) :
  Forall (fun kv =>
            Doc.unique_keys (snd kv) ->
            forall level p2, Doc.same_payload (snd kv) p2 ->
                             JsonDump.encode level (snd kv) = JsonDump.encode level p2) zs ->
  Forall (fun kv => Doc.unique_keys (snd kv)) zs ->
  Forall2 (fun a b => fst a = fst b /\ Doc.same_payload (snd a) (snd b)) zs ys ->
  map (fun x => (fst x, JsonDump.encode level (snd x))) zs
  = map (fun x => (fst x, JsonDump.encode level (snd x))) ys.
Proof.
  intros HIH Huk Hsame. induction Hsame as [ | a b zs ys [Hk Hv] _ IH ]; simpl.
  - reflexivity.
  - apply List.Forall_cons_iff in HIH as [Ha HIH].
    apply List.Forall_cons_iff in Huk as [Hua Huk].
    rewrite Hk, (Ha Hua level _ Hv), (IH HIH Huk). reflexivity.
Qed.

Lemma same_payload_refl (p : json) : Doc.same_payload p p.
Proof.
  induction p as [ | b | z | r | s | items IH | fields IH ] using json_ind';
    try constructor.
  - induction IH; constructor; assumption.
  - apply (Doc.same_obj fields fields fields); [ reflexivity | ].
    induction IH; constructor; [ split; [ reflexivity | assumption ] | assumption ].
Qed.

(** The text does not depend on the order the members of the
    dictionaries were inserted in. *)
Lemma encode_same_payload (p1 : json) :
  Doc.unique_keys p1 ->
  forall level p2, Doc.same_payload p1 p2 ->
                   JsonDump.encode level p1 = JsonDump.encode level p2.
Proof.
  induction p1 as [ | b | z | r | s | items IH | fields IH ] using json_ind';
    intros Huk level p2 Hsame; inversion Hsame; subst; try reflexivity.
  - (* arrays *)
    inversion Huk as [ | | | | | items' Hitems | ]; subst.
    assert (Hmap : forall lv, map (JsonDump.encode lv) items = map (JsonDump.encode lv) ys).
    { intros lv. clear Hsame Huk.
      match goal with H : Forall2 _ items ys |- _ => rename H into H2 end.
      induction H2 as [ | x y xs ys' Hxy _ IH2 ]; simpl; [ reflexivity | ].
      apply List.Forall_cons_iff in IH as [Hx IH].
      apply List.Forall_cons_iff in Hitems as [Hux Hitems].
      rewrite (Hx Hux lv y Hxy), (IH2 IH Hitems). reflexivity. }
    match goal with H : Forall2 _ items ys |- _ => rename H into H2 end.
    destruct H2 as [ | x y xs ys' Hxy H2 ]; [ reflexivity | ].
    rewrite !encode_array by discriminate. rewrite Hmap. reflexivity.
  - (* dictionaries *)
    inversion Huk as [ | | | | | | fields' Hnd Hvals ]; subst.
    match goal with
    | Hp : Permutation fields zs, H2 : Forall2 _ zs ys |- _ =>
        rename Hp into Hperm; rename H2 into Hmembers
    end.
    assert (Hsorted : forall lv,
               map (member_text lv) (Dict.sorted_items fields)
               = map (member_text lv) (Dict.sorted_items ys)).
    { intros lv. rewrite <- !encoded_members.
      rewrite !(map_ext (fun kv : string * json =>
                           let '(k, x) := kv in (k, JsonDump.encode (S lv) x))
                  (fun x => (fst x, JsonDump.encode (S lv) (snd x))))
        by (intros [k x]; reflexivity).
      f_equal.
      rewrite <- (same_members_encoded (S lv) zs ys).
      - apply sorted_items_of_perm.
        + apply Permutation_map. exact Hperm.
        + rewrite map_map. simpl. exact Hnd.
      - eapply Permutation_Forall; [ exact Hperm | ].
        eapply List.Forall_impl; [ | exact IH ].
        intros kv Hkv Hu lv' p2 Hs. apply Hkv; assumption.
      - eapply Permutation_Forall; [ exact Hperm | exact Hvals ].
      - exact Hmembers. }
    destruct fields as [ | kv fields ].
    + apply Permutation_nil in Hperm. subst zs. inversion Hmembers. reflexivity.
    + destruct ys as [ | y ys ].
      * inversion Hmembers; subst.
        apply Permutation_sym, Permutation_nil in Hperm. discriminate.
      * rewrite !encode_object by discriminate. rewrite Hsorted. reflexivity.
Qed.

End DumpFacts.

(** *** The text, line by line *)

Section LayoutFacts.

Lemma append_cons (x : ascii) (a b : string) : String x a +:+ b = String x (a +:+ b).
Proof. reflexivity. Qed.

Lemma append_nil_l (b : string) : "" +:+ b = b.
Proof. reflexivity. Qed.

Lemma append_assoc (a b c : string) : (a +:+ b) +:+ c = a +:+ b +:+ c.
Proof.
  induction a as [ | x a IH ]; [ reflexivity | ]. rewrite !append_cons, IH. reflexivity.
Qed.

Lemma append_nil_r (a : string) : a +:+ "" = a.
Proof.
  induction a as [ | x a IH ]; [ reflexivity | ]. rewrite append_cons, IH. reflexivity.
Qed.

(** Texts are compared with their pieces put one after the other. *)
Ltac pieces :=
  repeat first [ rewrite append_assoc | rewrite append_cons
               | rewrite append_nil_l | rewrite append_nil_r ].

Lemma spaces_indentation (depth : nat) :
  JsonDump.spaces (2 * depth) = Layout.indentation depth.
Proof.
  induction depth as [ | depth IH ]; [ reflexivity | ].
  replace (2 * S depth)%nat with (S (S (2 * depth))) by lia.
  cbn [JsonDump.spaces Layout.indentation]. rewrite IH. reflexivity.
Qed.

Lemma below_app (xs ys : list Layout.line) : Layout.below (xs ++ ys) = Layout.below xs +:+ Layout.below ys.
Proof.
  induction xs as [ | [d c] xs IH ]; [ reflexivity | ].
  cbn [Layout.below app]. rewrite IH. pieces. reflexivity.
Qed.

Lemma below_block (depth : nat) (ls : list Layout.line) :
  Layout.starts_at depth ls ->
  Layout.below ls = JsonDump.newline_indent depth +:+ Layout.inline ls.
Proof.
  intros (content & rest & ->). unfold JsonDump.newline_indent.
  rewrite spaces_indentation. cbn [Layout.below Layout.inline]. pieces. reflexivity.
Qed.

Lemma text_below (ls : list Layout.line) :
  Layout.text ls = match ls with
                   | [] => ""
                   | (depth, content) :: rest =>
                       Layout.indentation depth +:+ content +:+ Layout.below rest
                       +:+ String (ascii_of_N 10) ""
                   end.
Proof.
  induction ls as [ | [d c] ls IH ]; [ reflexivity | ].
  cbn [Layout.text]. rewrite IH. destruct ls as [ | [d' c'] ls ]; [ reflexivity | ].
  cbn [Layout.below]. pieces. reflexivity.
Qed.

Lemma lead_with_starts (lead : string) (depth : nat) (ls : list Layout.line) :
  Layout.starts_at depth ls -> Layout.starts_at depth (Layout.lead_with lead ls).
Proof. intros (content & rest & ->). eexists. eexists. reflexivity. Qed.

Lemma inline_lead_with (lead : string) (depth : nat) (ls : list Layout.line) :
  Layout.starts_at depth ls -> Layout.inline (Layout.lead_with lead ls) = lead +:+ Layout.inline ls.
Proof. intros (content & rest & ->). cbn [Layout.lead_with Layout.inline]. pieces. reflexivity. Qed.

Lemma comma_after_starts (depth : nat) (ls : list Layout.line) :
  Layout.starts_at depth ls -> Layout.starts_at depth (Layout.comma_after ls).
Proof.
  intros (content & rest & ->). destruct rest as [ | l rest ];
    eexists; eexists; reflexivity.
Qed.

Lemma below_comma_after (ls : list Layout.line) :
  ls <> [] -> Layout.below (Layout.comma_after ls) = Layout.below ls +:+ ",".
Proof.
  induction ls as [ | [d c] ls IH ]; intros Hne; [ contradiction | ].
  destruct ls as [ | l ls ].
  - cbn [Layout.comma_after Layout.below]. pieces. reflexivity.
  - change (Layout.comma_after ((d, c) :: l :: ls)) with ((d, c) :: Layout.comma_after (l :: ls)).
    cbn [Layout.below]. rewrite IH by discriminate. pieces. reflexivity.
Qed.

Lemma inline_comma_after (depth : nat) (ls : list Layout.line) :
  Layout.starts_at depth ls -> Layout.inline (Layout.comma_after ls) = Layout.inline ls +:+ ",".
Proof.
  intros (content & rest & ->). destruct rest as [ | l rest ].
  - cbn [Layout.comma_after Layout.inline Layout.below]. pieces. reflexivity.
  - change (Layout.comma_after ((depth, content) :: l :: rest))
      with ((depth, content) :: Layout.comma_after (l :: rest)).
    cbn [Layout.inline]. rewrite below_comma_after by discriminate. pieces. reflexivity.
Qed.

(** The members of a list or a dictionary, Layout.below its opening bracket:
    each on a line of its own at the depth of the members, with a comma
    between two of them. *)
Lemma below_members (depth : nat) (blocks : list (list Layout.line)) :
  blocks <> [] ->
  Forall (Layout.starts_at depth) blocks ->
  Layout.below (Layout.members blocks)
  = JsonDump.newline_indent depth
    +:+ PyStr.join (JsonDump.separator depth) (map Layout.inline blocks).
Proof.
  induction blocks as [ | block blocks IH ]; intros Hne Hall; [ contradiction | ].
  apply List.Forall_cons_iff in Hall as [Hblock Hall].
  destruct blocks as [ | block' blocks ].
  - apply below_block. exact Hblock.
  - change (Layout.members (block :: block' :: blocks))
      with (Layout.comma_after block ++ Layout.members (block' :: blocks)).
    rewrite below_app, IH by (discriminate || assumption).
    rewrite (below_block depth) by (apply comma_after_starts; exact Hblock).
    rewrite (inline_comma_after depth) by exact Hblock.
    change (PyStr.join (JsonDump.separator depth) (map Layout.inline (block :: block' :: blocks)))
      with (Layout.inline block +:+ JsonDump.separator depth
            +:+ PyStr.join (JsonDump.separator depth) (map Layout.inline (block' :: blocks))).
    unfold JsonDump.separator. pieces. reflexivity.
Qed.

Lemma lines_start (depth : nat) (v : json) : Layout.starts_at depth (Layout.lines depth v).
Proof.
  destruct v as [ | b | z | r | s | [ | x items ] | [ | kv fields ] ];
    eexists; eexists; reflexivity.
Qed.

(** The text [json.dump] writes of a document is the text of its lines. *)
Lemma encode_inline (v : json) :
  forall depth, JsonDump.encode depth v = Layout.inline (Layout.lines depth v).
Proof.
  induction v as [ | b | z | r | s | items IH | fields IH ] using json_ind'; intros depth;
    try (cbn [Layout.lines Layout.inline Layout.below]; rewrite append_nil_r; reflexivity).
  - destruct items as [ | x items ]; [ reflexivity | ].
    rewrite encode_array by discriminate.
    change (Layout.lines depth (JArr (x :: items)))
      with ((depth, "[") :: Layout.members (map (Layout.lines (S depth)) (x :: items))
            ++ [(depth, "]")]).
    cbn [Layout.inline]. rewrite below_app.
    rewrite (below_members (S depth)).
    + rewrite map_map.
      rewrite (map_ext_in (JsonDump.encode (S depth))
                 (fun y => Layout.inline (Layout.lines (S depth) y))).
      * cbn [Layout.below]. unfold JsonDump.newline_indent.
        rewrite !spaces_indentation. pieces. reflexivity.
      * intros y Hy. rewrite List.Forall_forall in IH. apply IH. exact Hy.
    + discriminate.
    + apply List.Forall_forall. intros block Hin.
      apply in_map_iff in Hin as (y & <- & _). apply lines_start.
  - destruct fields as [ | kv fields ]; [ reflexivity | ].
    rewrite encode_object by discriminate.
    change (Layout.lines depth (JObj (kv :: fields)))
      with ((depth, "{")
            :: Layout.members
                 (map (fun kv => Layout.lead_with (JsonDump.encode_str (fst kv) +:+ ": ")
                                   (snd kv))
                    (Dict.sorted_items
                       (map (fun kv => let '(k, x) := kv in (k, Layout.lines (S depth) x))
                          (kv :: fields))))
            ++ [(depth, "}")]).
    rewrite (map_ext (fun kv : string * json =>
                        let '(k, x) := kv in (k, Layout.lines (S depth) x))
               (fun x => (fst x, Layout.lines (S depth) (snd x))))
      by (intros [k x]; reflexivity).
    rewrite sorted_items_map_values, map_map. cbn [fst snd].
    assert (Hne : Dict.sorted_items (kv :: fields) <> []).
    { intros Hnil. pose proof (sorted_items_perm (kv :: fields)) as Hperm.
      rewrite Hnil in Hperm. apply Permutation_nil in Hperm. discriminate. }
    assert (Hall : Forall (fun entry => forall depth,
                              JsonDump.encode depth (snd entry)
                              = Layout.inline (Layout.lines depth (snd entry)))
                     (Dict.sorted_items (kv :: fields))).
    { eapply Permutation_Forall; [ apply Permutation_sym, sorted_items_perm | exact IH ]. }
    cbn [Layout.inline]. rewrite below_app.
    rewrite (below_members (S depth)).
    + rewrite map_map.
      rewrite (map_ext_in (member_text depth)
                 (fun entry =>
                    Layout.inline (Layout.lead_with (JsonDump.encode_str (fst entry) +:+ ": ")
                              (Layout.lines (S depth) (snd entry))))).
      * cbn [Layout.below]. unfold JsonDump.newline_indent.
        rewrite !spaces_indentation. pieces. reflexivity.
      * intros entry Hin. rewrite List.Forall_forall in Hall.
        rewrite (inline_lead_with _ (S depth)) by apply lines_start.
        unfold member_text. rewrite (Hall entry Hin). pieces. reflexivity.
    + destruct (Dict.sorted_items (kv :: fields)); [ contradiction | discriminate ].
    + apply List.Forall_forall. intros block Hin.
      apply in_map_iff in Hin as (entry & <- & _).
      apply lead_with_starts, lines_start.
Qed.

(** What [dump_lock] writes: the lines of the payload, each ended by a
    new line. *)
Lemma dumps_text (payload : json) :
  JsonDump.dumps payload +:+ String (ascii_of_N 10) EmptyString
  = Layout.text (Layout.lines 0 payload).
Proof.
  unfold JsonDump.dumps. rewrite encode_inline, text_below.
  destruct (lines_start 0 payload) as (content & rest & ->).
  cbn [Layout.inline Layout.indentation]. pieces. reflexivity.
Qed.

End LayoutFacts.

Section LockFile.

Lemma services_payload_keys (locks : gmap string Lock.ServiceLock.t) :
  StronglySorted (fun a b => String.ltb a b = true) (Dict.keys (Lock.services_payload locks))
  /\ forall n, In n (Dict.keys (Lock.services_payload locks)) <-> is_Some (locks !! n).
Proof.
  unfold Lock.services_payload, Dict.keys. rewrite map_map. simpl.
  split.
  - apply strictly_sorted_keys; [ apply sorted_items_sorted | ].
    eapply Permutation_NoDup.
    + apply Permutation_map, Permutation_sym, sorted_items_perm.
    + apply NoDup_ListNoDup, NoDup_fst_map_to_list.
  - intros n.
    assert (Hperm : Permutation (map fst (Dict.sorted_items (map_to_list locks)))
                      (map fst (map_to_list locks)))
      by apply Permutation_map, sorted_items_perm.
    split.
    + intros Hin. eapply Permutation_in in Hin; [ | exact Hperm ].
      apply in_map_iff in Hin as ([k v] & <- & Hkv). simpl.
      apply list_elem_of_In, elem_of_map_to_list in Hkv. eauto.
    + intros [v Hv].
      eapply Permutation_in; [ apply Permutation_sym; exact Hperm | ].
      apply in_map_iff. exists (n, v). split; [ reflexivity | ].
      apply list_elem_of_In, elem_of_map_to_list. exact Hv.
Qed.

Lemma dump_lock_written (payload : json) (output : FS.path) (force : bool)
    (fs fs' : gmap (list string) FS.node) :
  Lock.dump_lock payload output force fs = (Ok output, fs') ->
  fs' !! output = Some (FS.File (JsonDump.dumps payload +:+ String (ascii_of_N 10) EmptyString)).
Proof.
  unfold Lock.dump_lock.
  destruct (FS.exists_ fs output && negb force); [ discriminate | ].
  destruct (FS.mkdir_parents (FS.parent output) fs) as [[ [] | e ] fs1]; [ | discriminate ].
  unfold FS.write_text.
  destruct (FS.is_dir fs1 output); [ discriminate | ].
  destruct (FS.is_dir fs1 (FS.parent output)).
  - intros Heq. injection Heq as <-. apply lookup_insert_eq.
  - destruct (FS.exists_ fs1 (FS.parent output)); discriminate.
Qed.

(** *** The overwrite guard *)

Lemma prefixes_from_length (base p q : FS.path) :
  In q (FS.prefixes_from base p) ->
  (length base < length q <= length base + length p)%nat.
Proof.
  revert base. induction p as [ | c p IH ]; simpl; intros base Hin; [ contradiction | ].
  destruct Hin as [<- | Hin].
  - rewrite length_app. simpl. lia.
  - apply IH in Hin. rewrite length_app in Hin. simpl in Hin. lia.
Qed.

Lemma prefixes_from_last (base p : FS.path) :
  p <> [] -> In (base ++ p) (FS.prefixes_from base p).
Proof.
  revert base. induction p as [ | c p IH ]; intros base Hne; [ contradiction | ].
  simpl. destruct p as [ | c' p ].
  - left. reflexivity.
  - right. specialize (IH (base ++ [c])). rewrite <- app_assoc in IH.
    apply IH. discriminate.
Qed.

Lemma output_not_above_itself (output q : FS.path) :
  In q (FS.prefixes (FS.parent output)) -> q <> output.
Proof.
  intros Hin ->. apply prefixes_from_length in Hin. simpl in Hin.
  unfold FS.parent in Hin.
  rewrite removelast_firstn_len, List.length_firstn in Hin.
  destruct output as [ | c output ]; simpl in Hin; lia.
Qed.

(** Making the directories succeeds when no regular file is in the way. *)
Lemma mkdir_each_ok (p : FS.path) (qs : list FS.path) :
  forall fs : gmap (list string) FS.node,
    (forall q c, In q qs -> fs !! q <> Some (FS.File c)) ->
    exists fs',
      FS.mkdir_each p qs fs = (Ok tt, fs') /\
      (forall q, In q qs -> fs' !! q = Some FS.Dir) /\
      (forall q, ~ In q qs -> fs' !! q = fs !! q).
Proof.
  induction qs as [ | q0 qs IH ]; simpl; intros fs Hfree.
  - exists fs. split; [ reflexivity | ]. split; [ contradiction | reflexivity ].
  - destruct (fs !! q0) as [ [ c | ] | ] eqn:Hq0.
    + exfalso. apply (Hfree q0 c); [ left; reflexivity | exact Hq0 ].
    + destruct (IH fs) as (fs' & Hrun & Hdirs & Hrest).
      { intros q c Hin. apply Hfree. right. exact Hin. }
      exists fs'. split; [ exact Hrun | ]. split.
      * intros q [<- | Hin]; [ | apply Hdirs; exact Hin ].
        destruct (in_dec (List.list_eq_dec string_dec) q0 qs) as [Hin | Hnin].
        -- apply Hdirs. exact Hin.
        -- rewrite Hrest by exact Hnin. exact Hq0.
      * intros q Hnin. apply Hrest. tauto.
    + destruct (IH (<[q0 := FS.Dir]> fs)) as (fs' & Hrun & Hdirs & Hrest).
      { intros q c Hin. destruct (decide (q0 = q)) as [<- | Hne].
        - rewrite lookup_insert_eq. discriminate.
        - rewrite lookup_insert_ne by exact Hne. apply Hfree. right. exact Hin. }
      exists fs'. split; [ exact Hrun | ]. split.
      * intros q [<- | Hin]; [ | apply Hdirs; exact Hin ].
        destruct (in_dec (List.list_eq_dec string_dec) q0 qs) as [Hin | Hnin].
        -- apply Hdirs. exact Hin.
        -- rewrite Hrest by exact Hnin. apply lookup_insert_eq.
      * intros q Hnin. rewrite Hrest by tauto.
        apply lookup_insert_ne. tauto.
Qed.

(** The payload is written when nothing is in the way. *)
Lemma dump_lock_writes (payload : json) (output : FS.path) (force : bool)
    (fs : gmap (list string) FS.node) :
  force = true \/ FS.exists_ fs output = false ->
  FS.is_dir fs output = false ->
  (forall q c, In q (FS.prefixes (FS.parent output)) -> fs !! q <> Some (FS.File c)) ->
  exists fs',
    Lock.dump_lock payload output force fs = (Ok output, fs') /\
    fs' !! output
    = Some (FS.File (JsonDump.dumps payload +:+ String (ascii_of_N 10) EmptyString)).
Proof.
  intros Hgo Hnodir Hfree.
  assert (Hguard : FS.exists_ fs output && negb force = false).
  { destruct Hgo as [-> | ->]; [ apply andb_false_r | reflexivity ]. }
  destruct (mkdir_each_ok (FS.parent output) (FS.prefixes (FS.parent output)) fs Hfree)
    as (fs1 & Hmk & Hdirs & Hrest).
  assert (Hout : output <> []) by (intros ->; discriminate).
  assert (Hsame : fs1 !! output = fs !! output).
  { apply Hrest. intros Hin. apply (output_not_above_itself output output Hin). reflexivity. }
  assert (Hnodir1 : FS.is_dir fs1 output = false).
  { unfold FS.is_dir in *. destruct output; [ contradiction | ]. rewrite Hsame. exact Hnodir. }
  assert (Hparent : FS.is_dir fs1 (FS.parent output) = true).
  { unfold FS.is_dir. destruct (FS.parent output) as [ | c par ] eqn:Hpar; [ reflexivity | ].
    rewrite (Hdirs (c :: par)); [ reflexivity | ].
    rewrite <- Hpar. apply (prefixes_from_last [] (FS.parent output)).
    rewrite Hpar. discriminate. }
  eexists. split.
  - unfold Lock.dump_lock. rewrite Hguard.
    unfold FS.mkdir_parents. rewrite Hmk.
    unfold FS.write_text. rewrite Hnodir1, Hparent. reflexivity.
  - apply lookup_insert_eq.
Qed.

(** C6. [dump_lock] writes the lock file, and what it writes is
    determined by the payload. When the output may be written (it does not
    exist or [force] is set, it is no directory and no regular file lies
    above it), [dump_lock] returns the output and the file then holds the
    lines of the payload, each ended by a new line: what [json.dump] writes
    with a new line after it is, for every payload, these lines, on which a
    list or a dictionary that is not empty has its brackets on lines of
    their own and its members between them, one level deeper and so two
    spaces further in, and the members of a dictionary stand in the
    increasing order of their keys. Two payloads that differ only in the
    order their dictionaries were filled in give the same outcome and the
    same file, byte for byte. The services of the payload are keyed by
    service name in increasing order. *)
Theorem lock_file_is_deterministic
    (p1 p2 : json) (output : FS.path) (force : bool) (fs : gmap (list string) FS.node)
    (locks : gmap string Lock.ServiceLock.t) :
  Doc.unique_keys p1 ->
  Doc.same_payload p1 p2 ->
  Lock.dump_lock p1 output force fs = Lock.dump_lock p2 output force fs /\
  JsonDump.dumps p1 = JsonDump.dumps p2 /\
  Layout.text (Layout.lines 0 p1) = Layout.text (Layout.lines 0 p2) /\
  (force = true \/ FS.exists_ fs output = false ->
   FS.is_dir fs output = false ->
   (forall q c, In q (FS.prefixes (FS.parent output)) -> fs !! q <> Some (FS.File c)) ->
   exists fs',
     Lock.dump_lock p1 output force fs = (Ok output, fs') /\
     Lock.dump_lock p2 output force fs = (Ok output, fs') /\
     fs' !! output = Some (FS.File (Layout.text (Layout.lines 0 p1)))) /\
  (forall fs', Lock.dump_lock p1 output force fs = (Ok output, fs') ->
     fs' !! output = Some (FS.File (Layout.text (Layout.lines 0 p1)))) /\
  (forall payload,
     JsonDump.dumps payload +:+ String (ascii_of_N 10) EmptyString
     = Layout.text (Layout.lines 0 payload)) /\
  (forall depth fields,
     exists ordered,
       Permutation ordered fields /\
       StronglySorted key_le ordered /\
       (fields <> [] ->
        Layout.lines depth (JObj fields)
        = (depth, "{")
          :: Layout.members
               (map (fun kv =>
                       Layout.lead_with (JsonDump.encode_str (fst kv) +:+ ": ")
                         (Layout.lines (S depth) (snd kv)))
                  ordered)
          ++ [(depth, "}")])) /\
  StronglySorted (fun a b => String.ltb a b = true) (Dict.keys (Lock.services_payload locks)) /\
  (forall n, In n (Dict.keys (Lock.services_payload locks)) <-> is_Some (locks !! n)).
Proof.
  intros Huk Hsame.
  assert (Hdumps : JsonDump.dumps p1 = JsonDump.dumps p2)
    by (apply encode_same_payload; assumption).
  assert (Hrun : Lock.dump_lock p1 output force fs = Lock.dump_lock p2 output force fs).
  { unfold Lock.dump_lock. rewrite Hdumps. reflexivity. }
  split; [ exact Hrun | ]. split; [ exact Hdumps | ].
  split; [ rewrite <- !dumps_text, Hdumps; reflexivity | ].
  split.
  { intros Hgo Hnodir Hfree.
    destruct (dump_lock_writes p1 output force fs Hgo Hnodir Hfree) as (fs' & Hok & Hfile).
    exists fs'. split; [ exact Hok | ]. split; [ rewrite <- Hrun; exact Hok | ].
    rewrite <- dumps_text. exact Hfile. }
  split.
  { intros fs' Hok. rewrite <- dumps_text. eapply dump_lock_written. exact Hok. }
  split; [ exact dumps_text | ].
  split; [ | apply services_payload_keys ].
  intros depth fields. exists (Dict.sorted_items fields).
  split; [ apply sorted_items_perm | ]. split; [ apply sorted_items_sorted | ].
  intros Hne. destruct fields as [ | kv fields ]; [ contradiction | ].
  change (Layout.lines depth (JObj (kv :: fields)))
    with ((depth, "{")
          :: Layout.members
               (map (fun kv => Layout.lead_with (JsonDump.encode_str (fst kv) +:+ ": ")
                                 (snd kv))
                  (Dict.sorted_items
                     (map (fun kv => let '(k, x) := kv in (k, Layout.lines (S depth) x))
                        (kv :: fields))))
          ++ [(depth, "}")]).
  rewrite (map_ext (fun kv : string * json =>
                      let '(k, x) := kv in (k, Layout.lines (S depth) x))
             (fun x => (fst x, Layout.lines (S depth) (snd x))))
    by (intros [k x]; reflexivity).
  rewrite sorted_items_map_values, map_map. reflexivity.
Qed.

(** C8. When the output path exists and [force] is not set, [dump_lock]
    raises [FileExistsError] and leaves the file system as it was. When
    [force] is set or the path does not exist, and the path can hold a
    regular file (it is no directory and no regular file lies above it), it
    makes the directories above the path, writes the payload to the path,
    leaves everything else as it was, and returns the path. *)
Theorem dump_lock_refuses_to_overwrite
    (payload : json) (output : FS.path) (force : bool) (fs : gmap (list string) FS.node) :
  (FS.exists_ fs output = true -> force = false ->
   Lock.dump_lock payload output force fs
   = (Raise (FileExistsError ("Lock file already exists: " +:+ FS.path_str output)), fs)) /\
  (force = true \/ FS.exists_ fs output = false ->
   FS.is_dir fs output = false ->
   (forall q c, In q (FS.prefixes (FS.parent output)) -> fs !! q <> Some (FS.File c)) ->
   exists fs',
     Lock.dump_lock payload output force fs = (Ok output, fs') /\
     fs' !! output
     = Some (FS.File (JsonDump.dumps payload +:+ String (ascii_of_N 10) EmptyString)) /\
     (forall q, In q (FS.prefixes (FS.parent output)) -> fs' !! q = Some FS.Dir) /\
     (forall q, q <> output -> ~ In q (FS.prefixes (FS.parent output)) ->
                fs' !! q = fs !! q)).
Proof.
  split.
  - intros Hexists ->. unfold Lock.dump_lock. rewrite Hexists. reflexivity.
  - intros Hgo Hnodir Hfree.
    assert (Hguard : FS.exists_ fs output && negb force = false).
    { destruct Hgo as [-> | ->]; [ apply andb_false_r | reflexivity ]. }
    destruct (mkdir_each_ok (FS.parent output) (FS.prefixes (FS.parent output)) fs Hfree)
      as (fs1 & Hmk & Hdirs & Hrest).
    assert (Hout : output <> []) by (intros ->; discriminate).
    assert (Hsame : fs1 !! output = fs !! output).
    { apply Hrest. intros Hin. apply (output_not_above_itself output output Hin). reflexivity. }
    assert (Hnodir1 : FS.is_dir fs1 output = false).
    { unfold FS.is_dir in *. destruct output; [ contradiction | ]. rewrite Hsame. exact Hnodir. }
    assert (Hparent : FS.is_dir fs1 (FS.parent output) = true).
    { unfold FS.is_dir. destruct (FS.parent output) as [ | c par ] eqn:Hpar; [ reflexivity | ].
      rewrite (Hdirs (c :: par)); [ reflexivity | ].
      rewrite <- Hpar. apply (prefixes_from_last [] (FS.parent output)).
      rewrite Hpar. discriminate. }
    exists (<[output := FS.File (JsonDump.dumps payload +:+ String (ascii_of_N 10) EmptyString)]> fs1).
    split; [ | split; [ | split ] ].
    + unfold Lock.dump_lock. rewrite Hguard.
      unfold FS.mkdir_parents. rewrite Hmk.
      unfold FS.write_text. rewrite Hnodir1, Hparent. reflexivity.
    + apply lookup_insert_eq.
    + intros q Hin. rewrite lookup_insert_ne.
      * apply Hdirs. exact Hin.
      * intros Heq. apply (output_not_above_itself output q Hin). auto.
    + intros q Hne Hnin. rewrite lookup_insert_ne by auto. apply Hrest. exact Hnin.
Qed.

End LockFile.

(** ** The lock generator on the sample repository *)

Example sample_submodules :
  Lock.list_submodules (sp := Sample.git) "." ["services"; "infra"] = Ok Sample.commits.
Proof. reflexivity. Qed.

Example sample_locks :
  Lock.build_service_locks (sp := Sample.git) "." ["services"; "infra"]
    Sample.image_metadata None "ghcr.io/shopifake" (Some "main-")
  = Ok Sample.locks.
Proof. reflexivity. Qed.

Lemma default_image_for_unlisted_submodule_witness :
  Lock.list_submodules (sp := Sample.git) "." ["services"; "infra"] = Ok Sample.commits /\
  Lock.build_service_locks (sp := Sample.git) "." ["services"; "infra"]
    Sample.image_metadata None "ghcr.io/shopifake" (Some "main-") = Ok Sample.locks /\
  In ("services/catalog", "1234567890abcdef") Sample.commits /\
  Sample.image_metadata !! Lock.path_name "services/catalog" = None /\
  Lock.selected None (Lock.path_name "services/catalog") = true /\
  exists lock,
    Sample.locks !! Lock.path_name "services/catalog" = Some lock /\
    Lock.ImageMetadata.repository (Lock.ServiceLock.image lock)
      = "ghcr.io/shopifake" +:+ "/" +:+ Lock.path_name "services/catalog" /\
    Lock.ImageMetadata.tag (Lock.ServiceLock.image lock)
      = Some (default "" (Some "main-") +:+ PyStr.take 7 (Lock.ServiceLock.git_sha lock)) /\
    In (Lock.ServiceLock.submodule_path lock, Lock.ServiceLock.git_sha lock) Sample.commits /\
    Lock.path_name (Lock.ServiceLock.submodule_path lock) = Lock.path_name "services/catalog" /\
    ((forall p s, In (p, s) Sample.commits ->
                  Lock.path_name p = Lock.path_name "services/catalog" ->
                  p = "services/catalog" /\ s = "1234567890abcdef") ->
     Lock.ServiceLock.submodule_path lock = "services/catalog" /\
     Lock.ServiceLock.git_sha lock = "1234567890abcdef").
Proof.
  assert (Hin : In ("services/catalog", "1234567890abcdef") Sample.commits)
    by (left; reflexivity).
  split; [ reflexivity | ]. split; [ reflexivity | ]. split; [ exact Hin | ].
  split; [ reflexivity | ]. split; [ reflexivity | ].
  apply (default_image_for_unlisted_submodule (sp := Sample.git)
           "." ["services"; "infra"] Sample.image_metadata None "ghcr.io/shopifake"
           (Some "main-") Sample.commits Sample.locks "services/catalog" "1234567890abcdef");
    [ reflexivity | reflexivity | exact Hin | reflexivity | reflexivity ].
Defined.

Lemma tag_prefix_overrides_explicit_tag_witness :
  Lock.build_service_locks (sp := Sample.git) "." ["services"; "infra"]
    Sample.image_metadata None "ghcr.io/shopifake" (Some "main-") = Ok Sample.locks /\
  Sample.locks !! "gateway" = Some Sample.gateway_lock /\
  Sample.image_metadata !! "gateway" = Some Sample.gateway_image /\
  (forall p, Lock.ImageMetadata.tag_prefix Sample.gateway_image = Some p -> p <> "" ->
     Lock.ImageMetadata.tag (Lock.ServiceLock.image Sample.gateway_lock)
     = Some (p +:+ PyStr.take 7 (Lock.ServiceLock.git_sha Sample.gateway_lock))) /\
  (forall t, Lock.ImageMetadata.tag Sample.gateway_image = Some t ->
     Lock.ImageMetadata.tag_prefix Sample.gateway_image = None \/
     Lock.ImageMetadata.tag_prefix Sample.gateway_image = Some "" ->
     Lock.ImageMetadata.tag (Lock.ServiceLock.image Sample.gateway_lock) = Some t) /\
  (Lock.ImageMetadata.tag Sample.gateway_image = None ->
     Lock.ImageMetadata.tag_prefix Sample.gateway_image = None \/
     Lock.ImageMetadata.tag_prefix Sample.gateway_image = Some "" ->
     Lock.ImageMetadata.tag (Lock.ServiceLock.image Sample.gateway_lock)
     = Some (PyStr.take 7 (Lock.ServiceLock.git_sha Sample.gateway_lock))).
Proof.
  split; [ reflexivity | ]. split; [ reflexivity | ]. split; [ reflexivity | ].
  apply (tag_prefix_overrides_explicit_tag (sp := Sample.git)
           "." ["services"; "infra"] Sample.image_metadata None "ghcr.io/shopifake"
           (Some "main-") Sample.locks "gateway" Sample.gateway_lock Sample.gateway_image);
    reflexivity.
Defined.

(** The tag [v9] the metadata gives for the gateway is not the tag of its
    lock: the prefix wins. *)
Example sample_gateway_tag :
  Lock.ImageMetadata.tag Sample.gateway_image = Some "v9" /\
  Lock.ImageMetadata.tag (Lock.ServiceLock.image Sample.gateway_lock) = Some "rel-abcdef0".
Proof. split; reflexivity. Qed.

Lemma requested_services_exactly_witness :
  Lock.list_submodules (sp := Sample.git) "." ["services"; "infra"] = Ok Sample.commits /\
  ["gateway"; "catalog"] <> [] /\
  exists missing,
    StronglySorted (fun a b => String.ltb a b = true) missing /\
    (forall n, In n missing <->
               In n ["gateway"; "catalog"] /\
               ~ (exists path sha, In (path, sha) Sample.commits /\ Lock.path_name path = n)) /\
    match Lock.build_service_locks (sp := Sample.git) "." ["services"; "infra"]
            Sample.image_metadata (Some ["gateway"; "catalog"]) "ghcr.io/shopifake"
            (Some "main-") with
    | Ok locks =>
        missing = [] /\
        forall n, is_Some (locks !! n) <->
                  In n ["gateway"; "catalog"] /\
                  (exists path sha, In (path, sha) Sample.commits /\ Lock.path_name path = n)
    | Raise e =>
        missing <> [] /\
        e = ValueError ("Requested services missing from submodules: "
                        +:+ PyStr.join ", " missing)
    end.
Proof.
  split; [ reflexivity | ]. split; [ discriminate | ].
  apply (requested_services_exactly (sp := Sample.git)
           "." ["services"; "infra"] Sample.image_metadata ["gateway"; "catalog"]
           "ghcr.io/shopifake" (Some "main-") Sample.commits);
    [ reflexivity | discriminate ].
Defined.

(** Two of the three requested names are no submodule, one of them asked
    for twice: the error names them once each, in order. *)
Example sample_missing_services :
  Lock.build_service_locks (sp := Sample.git) "." ["services"; "infra"]
    Sample.image_metadata (Some ["zeta"; "gateway"; "alpha"; "zeta"]) "ghcr.io/shopifake" None
  = Raise (ValueError "Requested services missing from submodules: alpha, zeta").
Proof. reflexivity. Qed.

Lemma serialized_lock_fields_witness :
  Lock.build_service_locks (sp := Sample.git) "." ["services"; "infra"]
    Sample.image_metadata None "ghcr.io/shopifake" (Some "main-") = Ok Sample.locks /\
  Sample.locks !! "gateway" = Some Sample.gateway_lock /\
  let entry := Lock.ServiceLock.to_mapping Sample.gateway_lock in
  Dict.keys entry = ["submodule_path"; "git_sha"; "image"] /\
  Dict.get "submodule_path" entry
    = Some (JStr (Lock.ServiceLock.submodule_path Sample.gateway_lock)) /\
  Dict.get "git_sha" entry = Some (JStr (Lock.ServiceLock.git_sha Sample.gateway_lock)) /\
  Dict.get "notes" entry = None /\
  exists image tag,
    Dict.get "image" entry = Some (JObj image) /\
    Dict.get "repository" image
      = Some (JStr (Lock.ImageMetadata.repository (Lock.ServiceLock.image Sample.gateway_lock))) /\
    Lock.ImageMetadata.tag (Lock.ServiceLock.image Sample.gateway_lock) = Some tag /\
    Dict.get "tag" image = (if Py.truthy_str tag then Some (JStr tag) else None) /\
    Dict.get "digest" image
      = match Sample.image_metadata !! "gateway" with
        | Some given =>
            match Lock.ImageMetadata.digest given with
            | Some d => if Py.truthy_str d then Some (JStr d) else None
            | None => None
            end
        | None => None
        end /\
    (forall k, In k (Dict.keys image) -> k = "repository" \/ k = "tag" \/ k = "digest").
Proof.
  split; [ reflexivity | ]. split; [ reflexivity | ].
  apply (serialized_lock_fields (sp := Sample.git)
           "." ["services"; "infra"] Sample.image_metadata None "ghcr.io/shopifake"
           (Some "main-") Sample.locks "gateway" Sample.gateway_lock);
    reflexivity.
Defined.

(** C7, as the data model words it, fails on the sample repository: the
    lock of the catalog, which has no image metadata, is serialized
    without [notes] and without a [digest] in its image; the lock of the
    gateway, whose metadata gives every field, is serialized without
    [notes]. *)
Lemma serialized_lock_lacks_documented_fields :
  Lock.build_service_locks (sp := Sample.git) "." ["services"; "infra"]
    Sample.image_metadata None "ghcr.io/shopifake" (Some "main-") = Ok Sample.locks /\
  Sample.locks !! "catalog" = Some Sample.catalog_lock /\
  Sample.locks !! "gateway" = Some Sample.gateway_lock /\
  ~ Lock.documented_shape (Lock.ServiceLock.to_mapping Sample.catalog_lock) /\
  ~ Lock.documented_shape (Lock.ServiceLock.to_mapping Sample.gateway_lock) /\
  Lock.ServiceLock.to_mapping Sample.catalog_lock
  = [("submodule_path", JStr "services/catalog");
     ("git_sha", JStr "1234567890abcdef");
     ("image", JObj [("repository", JStr "ghcr.io/shopifake/catalog");
                     ("tag", JStr "main-1234567")])].
Proof.
  split; [ reflexivity | ]. split; [ reflexivity | ]. split; [ reflexivity | ].
  split; [ | split; [ | reflexivity ] ].
  - intros (_ & _ & [x Hx] & _). discriminate Hx.
  - intros (_ & _ & [x Hx] & _). discriminate Hx.
Qed.

Lemma lock_file_is_deterministic_witness :
  let p1 := JObj [("services", JObj [("gateway", JStr "g"); ("catalog", JStr "c")]);
                  ("metadata", JObj [("commit", JStr "deadbeef")])] in
  let p2 := JObj [("metadata", JObj [("commit", JStr "deadbeef")]);
                  ("services", JObj [("catalog", JStr "c"); ("gateway", JStr "g")])] in
  Doc.unique_keys p1 /\ Doc.same_payload p1 p2 /\
  Lock.dump_lock p1 ["locks"; "lock.yml"] false ∅
  = Lock.dump_lock p2 ["locks"; "lock.yml"] false ∅ /\
  JsonDump.dumps p1 = JsonDump.dumps p2 /\
  exists fs',
    Lock.dump_lock p1 ["locks"; "lock.yml"] false ∅ = (Ok ["locks"; "lock.yml"], fs') /\
    Lock.dump_lock p2 ["locks"; "lock.yml"] false ∅ = (Ok ["locks"; "lock.yml"], fs') /\
    fs' !! ["locks"; "lock.yml"]
    = Some (FS.File
              (Layout.text
                 [(0%nat, "{");
                  (1%nat, JsonDump.encode_str "metadata" +:+ ": {");
                  (2%nat, JsonDump.encode_str "commit" +:+ ": " +:+ JsonDump.encode_str "deadbeef");
                  (1%nat, "},");
                  (1%nat, JsonDump.encode_str "services" +:+ ": {");
                  (2%nat, JsonDump.encode_str "catalog" +:+ ": " +:+ JsonDump.encode_str "c"
                      +:+ ",");
                  (2%nat, JsonDump.encode_str "gateway" +:+ ": " +:+ JsonDump.encode_str "g");
                  (1%nat, "}");
                  (0%nat, "}")])).
Proof.
  intros p1 p2.
  assert (Huk : Doc.unique_keys p1).
  { constructor.
    - repeat constructor; simpl; intuition discriminate.
    - repeat constructor; simpl; intuition discriminate. }
  assert (Hsame : Doc.same_payload p1 p2).
  { eapply Doc.same_obj.
    - apply perm_swap.
    - constructor; [ split; [ reflexivity | apply same_payload_refl ] | ].
      constructor; [ | constructor ].
      split; [ reflexivity | ].
      eapply Doc.same_obj; [ apply perm_swap | ].
      repeat constructor. }
  split; [ exact Huk | ]. split; [ exact Hsame | ].
  destruct (lock_file_is_deterministic p1 p2 ["locks"; "lock.yml"] false ∅ Sample.locks
              Huk Hsame) as (Hfile & Htext & _ & Hwritten & _).
  split; [ exact Hfile | ]. split; [ exact Htext | ].
  apply Hwritten.
  - right. reflexivity.
  - reflexivity.
  - intros q c _. rewrite lookup_empty. discriminate.
Defined.

Example sample_lock_text :
  JsonDump.dumps (JObj [("services", JObj [("gateway", JStr "g"); ("catalog", JArr [JInt 1; JNull])]);
                        ("metadata", JObj [])])
  = "{" +:+ Sample.nl
    +:+ "  " +:+ JsonDump.encode_str "metadata" +:+ ": {}," +:+ Sample.nl
    +:+ "  " +:+ JsonDump.encode_str "services" +:+ ": {" +:+ Sample.nl
    +:+ "    " +:+ JsonDump.encode_str "catalog" +:+ ": [" +:+ Sample.nl
    +:+ "      1," +:+ Sample.nl
    +:+ "      null" +:+ Sample.nl
    +:+ "    ]," +:+ Sample.nl
    +:+ "    " +:+ JsonDump.encode_str "gateway" +:+ ": " +:+ JsonDump.encode_str "g" +:+ Sample.nl
    +:+ "  }" +:+ Sample.nl
    +:+ "}".
Proof. reflexivity. Qed.

Lemma dump_lock_refuses_to_overwrite_witness :
  let payload := JObj [("services", JObj [])] in
  let old : gmap (list string) FS.node :=
    <[["locks"; "lock.yml"] := FS.File "old"]> (<[["locks"] := FS.Dir]> ∅) in
  (FS.exists_ old ["locks"; "lock.yml"] = true /\
   Lock.dump_lock payload ["locks"; "lock.yml"] false old
   = (Raise (FileExistsError ("Lock file already exists: "
                              +:+ FS.path_str ["locks"; "lock.yml"])), old)) /\
  (exists fs',
     Lock.dump_lock payload ["locks"; "lock.yml"] true old = (Ok ["locks"; "lock.yml"], fs') /\
     fs' !! ["locks"; "lock.yml"]
     = Some (FS.File (JsonDump.dumps payload +:+ String (ascii_of_N 10) EmptyString)) /\
     (forall q, In q (FS.prefixes (FS.parent ["locks"; "lock.yml"])) -> fs' !! q = Some FS.Dir) /\
     (forall q, q <> ["locks"; "lock.yml"] ->
                ~ In q (FS.prefixes (FS.parent ["locks"; "lock.yml"])) ->
                fs' !! q = old !! q)) /\
  (exists fs',
     Lock.dump_lock payload ["locks"; "new"; "lock.yml"] false ∅
     = (Ok ["locks"; "new"; "lock.yml"], fs') /\
     fs' !! ["locks"; "new"; "lock.yml"]
     = Some (FS.File (JsonDump.dumps payload +:+ String (ascii_of_N 10) EmptyString)) /\
     (forall q, In q (FS.prefixes (FS.parent ["locks"; "new"; "lock.yml"])) ->
                fs' !! q = Some FS.Dir) /\
     (forall q, q <> ["locks"; "new"; "lock.yml"] ->
                ~ In q (FS.prefixes (FS.parent ["locks"; "new"; "lock.yml"])) ->
                fs' !! q = (∅ : gmap (list string) FS.node) !! q)).
Proof.
  intros payload old.
  split; [ | split ].
  - split; [ reflexivity | ].
    apply (proj1 (dump_lock_refuses_to_overwrite payload ["locks"; "lock.yml"] false old));
      reflexivity.
  - apply (proj2 (dump_lock_refuses_to_overwrite payload ["locks"; "lock.yml"] true old)).
    + left. reflexivity.
    + reflexivity.
    + intros q c [<- | []]. discriminate.
  - apply (proj2 (dump_lock_refuses_to_overwrite payload ["locks"; "new"; "lock.yml"] false ∅)).
    + right. reflexivity.
    + reflexivity.
    + intros q c _. rewrite lookup_empty. discriminate.
Defined.

(** ** Loading the rows *)

Section LoadFacts.
Context {py : PyLib} {gw : Gateway} {csv : CsvFiles}.

Lemma blank_required_is_missing (normalized : Seed.Row.t) (k : string) (v : json) :
  In (k, v) (Seed.Row.items normalized) ->
  Seed.is_blank v = true ->
  existsb (String.eqb k) Seed.optional_keys = false ->
  Seed.missing_fields normalized <> [].
Proof.
  intros Hin Hblank Hreq Hnil.
  assert (Hfil : In (k, v)
                   (List.filter
                      (fun kv => Seed.is_blank (snd kv)
                                 && negb (existsb (String.eqb (fst kv)) Seed.optional_keys))
                      (Seed.Row.items normalized))).
  { apply filter_In. split; [ exact Hin | ]. cbn [fst snd]. rewrite Hblank, Hreq. reflexivity. }
  unfold Seed.missing_fields in Hnil.
  apply (in_map fst) in Hfil. rewrite Hnil in Hfil. contradiction.
Qed.

Ltac blank_field key :=
  match goal with
  | Hmiss : Seed.missing_fields ?n = [] |- _ =>
      apply (blank_required_is_missing n key (JStr EmptyString)) in Hmiss;
      [ contradiction
      | simpl; repeat (first [ left; f_equal; f_equal; congruence | right ])
      | reflexivity
      | reflexivity ]
  end.

(** The checks let no row through that has a required field blank. *)
Lemma validate_requires (normalized accepted : Seed.Row.t) :
  Seed.validate normalized = Ok accepted ->
  accepted = normalized /\
  Seed.Row.site_key normalized <> "" /\
  Seed.Row.site_name normalized <> "" /\
  Seed.Row.site_slug normalized <> "" /\
  Seed.Row.site_description normalized <> "" /\
  Seed.Row.site_currency normalized <> "" /\
  Seed.Row.site_language normalized <> "" /\
  Seed.Row.site_config normalized <> "" /\
  Seed.Row.category_name normalized <> "" /\
  Seed.Row.product_name normalized <> "" /\
  Seed.Row.product_description normalized <> "" /\
  Seed.Row.product_sku normalized <> "" /\
  Seed.Row.price_amount normalized <> None /\
  Seed.Row.price_currency normalized <> "" /\
  Seed.Row.inventory_initial_quantity normalized <> None.
Proof.
  unfold Seed.validate.
  destruct (_ && _); [ discriminate | ].
  destruct (Seed.is_none (Seed.Row.price_amount normalized)) eqn:Hprice; [ discriminate | ].
  destruct (Py.truthy_str (Seed.Row.price_currency normalized)) eqn:Hcur; [ | discriminate ].
  destruct (Seed.is_none (Seed.Row.inventory_initial_quantity normalized)) eqn:Hinv;
    [ discriminate | ].
  simpl. destruct (Seed.missing_fields normalized) eqn:Hmiss; [ | discriminate ].
  intros Heq. injection Heq as <-.
  split; [ reflexivity | ].
  repeat split; intros Hblank.
  - blank_field "site_key".
  - blank_field "site_name".
  - blank_field "site_slug".
  - blank_field "site_description".
  - blank_field "site_currency".
  - blank_field "site_language".
  - blank_field "site_config".
  - blank_field "category_name".
  - blank_field "product_name".
  - blank_field "product_description".
  - blank_field "product_sku".
  - rewrite Hblank in Hprice. discriminate.
  - rewrite Hblank in Hcur. discriminate.
  - rewrite Hblank in Hinv. discriminate.
Qed.

(** What a row that [_normalize_row] accepts has. *)
Lemma normalize_row_requires (raw : gmap string string) (row : Seed.Row.t) :
  Seed._normalize_row raw = Ok row ->
  Seed.images_of raw <> [] /\
  forall column, In column Seed.required_columns -> Seed.field raw column <> "".
Proof.
  unfold Seed._normalize_row.
  destruct (Seed.parse_json_field raw "filter_definitions") as [ fd | ]; [ simpl | discriminate ].
  destruct (Seed.parse_json_field raw "product_filters") as [ pf | ]; [ simpl | discriminate ].
  destruct (Seed.images_of raw) as [ | image images ] eqn:Himages; [ discriminate | ].
  destruct (Py.truthy_str (Seed.field raw "price_amount")) eqn:Hprice.
  - destruct (float_of_str (Seed.field raw "price_amount")) as [ f | ]; [ simpl | discriminate ].
    destruct (Py.truthy_str (Seed.field raw "inventory_initial_quantity")) eqn:Hinv.
    + destruct (int_of_str (Seed.field raw "inventory_initial_quantity")) as [ n | ];
        [ simpl | discriminate ].
      intros Hvalid. apply validate_requires in Hvalid. simpl in Hvalid.
      split; [ discriminate | ].
      intros column Hcol Hblank. simpl in Hcol.
      repeat (destruct Hcol as [<- | Hcol]; [ try tauto | ]); try contradiction.
      * rewrite Hblank in Hprice. discriminate.
      * rewrite Hblank in Hinv. discriminate.
    + simpl. intros Hvalid. apply validate_requires in Hvalid. simpl in Hvalid. tauto.
  - simpl. destruct (if Py.truthy_str (Seed.field raw "inventory_initial_quantity")
                     then _ else _) as [ inv | ]; [ simpl | discriminate ].
    intros Hvalid. apply validate_requires in Hvalid. simpl in Hvalid. tauto.
Qed.

Lemma normalize_row_rejects (raw : gmap string string) :
  Seed.lacks_required_field raw -> exists exc, Seed._normalize_row raw = Raise exc.
Proof.
  intros Hlacks. destruct (Seed._normalize_row raw) as [ row | exc ] eqn:Hrow; [ | eauto ].
  exfalso. apply normalize_row_requires in Hrow as [Himages Hcolumns].
  destruct Hlacks as [(column & Hin & Hblank) | Hnone].
  - apply (Hcolumns column Hin Hblank).
  - contradiction.
Qed.

(** The loop stops at the first row that does not normalize, and names
    its line. *)
Lemma normalize_from_outcome (raws : list (gmap string string)) :
  forall index done,
    (exists rows,
        Forall2 (fun raw row => Seed._normalize_row raw = Ok row) raws rows /\
        Seed.normalize_from index raws done = Ok (done ++ rows))
    \/
    (exists j raw exc,
        nth_error raws j = Some raw /\
        Seed._normalize_row raw = Raise exc /\
        (forall k raw', (k < j)%nat -> nth_error raws k = Some raw' ->
                        is_ok (Seed._normalize_row raw') = true) /\
        Seed.normalize_from index raws done
        = Raise (ValueError ("Failed to parse CSV row " +:+ PyStr.of_Z (index + Z.of_nat j)
                             +:+ ": " +:+ exn_str exc))).
Proof.
  induction raws as [ | raw raws IH ]; intros index done; simpl.
  - left. exists []. split; [ constructor | ]. rewrite app_nil_r. reflexivity.
  - destruct (Seed._normalize_row raw) as [ row | exc ] eqn:Hrow.
    + destruct (IH (index + 1) (done ++ [row])) as [(rows & Hall & Hrun)
                                                   | (j & raw' & exc & Hnth & Hfail & Hbefore & Hrun)].
      * left. exists (row :: rows). split; [ constructor; assumption | ].
        rewrite Hrun, <- app_assoc. reflexivity.
      * right. exists (S j), raw', exc. split; [ exact Hnth | ]. split; [ exact Hfail | ].
        split.
        -- intros k raw'' Hk Hnth'. destruct k as [ | k ]; simpl in Hnth'.
           ++ injection Hnth' as <-. rewrite Hrow. reflexivity.
           ++ apply (Hbefore k raw''); [ lia | exact Hnth' ].
        -- rewrite Hrun.
           replace (index + 1 + Z.of_nat j) with (index + Z.of_nat (S j)) by lia.
           reflexivity.
    + right. exists 0%nat, raw, exc. split; [ reflexivity | ]. split; [ exact Hrow | ].
      split; [ intros k raw' Hk; lia | ].
      replace (index + Z.of_nat 0) with index by lia. reflexivity.
Qed.

(** Whatever [main] sends, it sends after every row of the file has been
    normalized. *)
Lemma requests_follow_loading (args : Seed.Args) :
  snd (Seed.main args) <> [] ->
  exists raws rows,
    read_csv (Seed.csv_path args) = Some raws /\
    Forall2 (fun raw row => Seed._normalize_row raw = Ok row) raws rows /\
    Seed.load_rows (Seed.csv_path args) = Ok rows.
Proof.
  unfold Seed.main. destruct (uuid_of_str (Seed.owner_id args)); [ | intros H; contradiction H; reflexivity ].
  unfold Seed.load_rows.
  destruct (read_csv (Seed.csv_path args)) as [ raws | ];
    [ | intros H; contradiction H; reflexivity ].
  destruct (normalize_from_outcome raws 2 [])
    as [(rows & Hall & Hrun) | (j & bad & exc & _ & _ & _ & Hrun)]; rewrite Hrun.
  - intros _. exists raws, rows. auto.
  - intros H. contradiction H. reflexivity.
Qed.

(** C2. The rows of the file are all normalized and checked before the
    seeder is made. When a row of the file lacks a required field,
    [load_rows] returns no rows and raises a [ValueError] that names the
    line of the first row that does not normalize, which is the row itself
    when the rows before it are well formed, and [main] ends with this
    error having sent no request. And whenever [main] has sent a request,
    every row of its file has been normalized. *)
Theorem rows_are_validated_before_any_request
    (args : Seed.Args) (raws : list (gmap string string))
    (i : nat) (raw : gmap string string) :
  read_csv (Seed.csv_path args) = Some raws ->
  nth_error raws i = Some raw ->
  Seed.lacks_required_field raw ->
  exists j bad exc,
    (j <= i)%nat /\
    nth_error raws j = Some bad /\
    Seed._normalize_row bad = Raise exc /\
    (forall k raw', (k < j)%nat -> nth_error raws k = Some raw' ->
                    is_ok (Seed._normalize_row raw') = true) /\
    ((forall k raw', (k < i)%nat -> nth_error raws k = Some raw' ->
                     is_ok (Seed._normalize_row raw') = true) -> j = i) /\
    Seed.load_rows (Seed.csv_path args)
    = Raise (ValueError ("Failed to parse CSV row " +:+ PyStr.of_Z (Z.of_nat j + 2)
                         +:+ ": " +:+ exn_str exc)) /\
    (forall owner, uuid_of_str (Seed.owner_id args) = Some owner ->
       Seed.main args
       = (Raise (ValueError ("Failed to parse CSV row " +:+ PyStr.of_Z (Z.of_nat j + 2)
                             +:+ ": " +:+ exn_str exc)), [])) /\
    snd (Seed.main args) = [] /\
    (forall other : Seed.Args,
       snd (Seed.main other) <> [] ->
       exists raws' rows,
         read_csv (Seed.csv_path other) = Some raws' /\
         Forall2 (fun raw' row => Seed._normalize_row raw' = Ok row) raws' rows /\
         Seed.load_rows (Seed.csv_path other) = Ok rows).
Proof.
  intros Hfile Hnth Hlacks.
  destruct (normalize_row_rejects raw Hlacks) as [exc_i Hreject].
  destruct (normalize_from_outcome raws 2 [])
    as [(rows & Hall & _) | (j & bad & exc & Hbad & Hfail & Hbefore & Hrun)].
  - exfalso.
    assert (Hok : exists row, Seed._normalize_row raw = Ok row).
    { clear - Hall Hnth. revert i Hnth.
      induction Hall as [ | raw0 row0 raws rows H0 _ IH ]; intros i Hnth.
      - destruct i; discriminate.
      - destruct i as [ | i ]; simpl in Hnth.
        + injection Hnth as <-. eauto.
        + eapply IH. exact Hnth. }
    destruct Hok as [row Hok]. congruence.
  - assert (Hle : (j <= i)%nat).
    { destruct (Nat.le_gt_cases j i) as [Hle | Hgt]; [ exact Hle | ].
      specialize (Hbefore i raw Hgt Hnth). rewrite Hreject in Hbefore. discriminate. }
    assert (Hload : Seed.load_rows (Seed.csv_path args)
                    = Raise (ValueError ("Failed to parse CSV row "
                                         +:+ PyStr.of_Z (Z.of_nat j + 2)
                                         +:+ ": " +:+ exn_str exc))).
    { unfold Seed.load_rows. rewrite Hfile, Hrun.
      replace (2 + Z.of_nat j) with (Z.of_nat j + 2) by lia. reflexivity. }
    exists j, bad, exc.
    split; [ exact Hle | ]. split; [ exact Hbad | ]. split; [ exact Hfail | ].
    split; [ exact Hbefore | ]. split; [ | split; [ exact Hload | split ] ].
    + intros Hgood.
      destruct (Nat.eq_dec j i) as [Heq | Hne]; [ exact Heq | ].
      assert (Hlt : (j < i)%nat) by lia.
      specialize (Hgood j bad Hlt Hbad). rewrite Hfail in Hgood. discriminate.
    + intros owner Howner. unfold Seed.main. rewrite Howner, Hload. reflexivity.
    + split; [ | apply requests_follow_loading ].
      unfold Seed.main. destruct (uuid_of_str (Seed.owner_id args)); [ | reflexivity ].
      rewrite Hload. reflexivity.
Qed.

End LoadFacts.

(** ** The seeder *)

Section Monad.

Lemma grows_refl (a : Seed.Seeder.t) : grows a a.
Proof.
  constructor; auto. exists []. rewrite app_nil_r. reflexivity.
Qed.

Lemma grows_trans (a b c : Seed.Seeder.t) : grows a b -> grows b c -> grows a c.
Proof.
  intros [B1 O1 D1 S1 C1 F1 [m1 T1]] [B2 O2 D2 S2 C2 F2 [m2 T2]].
  constructor; try congruence; auto.
  exists (m1 ++ m2). rewrite T2, T1, app_assoc. reflexivity.
Qed.

Lemma bind_inv {A B} (m : Seed.M A) (k : A -> Seed.M B) self r self' :
  Seed.bind m k self = (r, self') ->
  (exists a mid, m self = (Ok a, mid) /\ k a mid = (r, self'))
  \/ (exists e, m self = (Raise e, self') /\ r = Raise e).
Proof.
  unfold Seed.bind. destruct (m self) as [[a | e] mid]; intros H.
  - left. eauto.
  - right. injection H as <- <-. eauto.
Qed.

Lemma bind_ok {A B} (m : Seed.M A) (k : A -> Seed.M B) self b self' :
  Seed.bind m k self = (Ok b, self') ->
  exists a mid, m self = (Ok a, mid) /\ k a mid = (Ok b, self').
Proof.
  intros H. apply bind_inv in H as [H | (e & _ & H)]; [ exact H | discriminate ].
Qed.

Lemma bind_run {A B} (m : Seed.M A) (k : A -> Seed.M B) self a mid :
  m self = (Ok a, mid) -> Seed.bind m k self = k a mid.
Proof. intros H. unfold Seed.bind. rewrite H. reflexivity. Qed.

Lemma bind_raise {A B} (m : Seed.M A) (k : A -> Seed.M B) self e mid :
  m self = (Raise e, mid) -> Seed.bind m k self = (Raise e, mid).
Proof. intros H. unfold Seed.bind. rewrite H. reflexivity. Qed.

Lemma respects_ret {A} (a : A) : respects (Seed.ret a).
Proof. intros self r self' H. injection H as _ <-. apply grows_refl. Qed.

Lemma respects_raise {A} (e : exn) : respects (@Seed.raise A e).
Proof. intros self r self' H. injection H as _ <-. apply grows_refl. Qed.

Lemma respects_lift {A} (x : result A) : respects (Seed.lift x).
Proof. intros self r self' H. injection H as _ <-. apply grows_refl. Qed.

Lemma respects_gets {A} (f : Seed.Seeder.t -> A) : respects (Seed.gets f).
Proof. intros self r self' H. injection H as _ <-. apply grows_refl. Qed.

Lemma respects_bind {A B} (m : Seed.M A) (k : A -> Seed.M B) :
  respects m -> (forall a, respects (k a)) -> respects (Seed.bind m k).
Proof.
  intros Hm Hk self r self' H.
  apply bind_inv in H as [(a & mid & H1 & H2) | (e & H1 & _)].
  - eapply grows_trans; [ eapply Hm; exact H1 | eapply Hk; exact H2 ].
  - eapply Hm. exact H1.
Qed.

Lemma respects_try_http {A} (m : Seed.M A) (handler : Z -> string -> Seed.M A) :
  respects m -> (forall status body, respects (handler status body)) ->
  respects (Seed.try_http m handler).
Proof.
  intros Hm Hh self r self' H. unfold Seed.try_http in H.
  destruct (m self) as [[a | e] mid] eqn:Hrun.
  - injection H as <- <-. eapply Hm. exact Hrun.
  - destruct e; try (injection H as <- <-; eapply Hm; exact Hrun).
    eapply grows_trans; [ eapply Hm; exact Hrun | eapply Hh; exact H ].
Qed.

Lemma respects_for_each {X} (xs : list X) (body : X -> Seed.M unit) :
  (forall x, respects (body x)) -> respects (Seed.for_each xs body).
Proof.
  intros Hbody. induction xs as [ | x xs IH ]; simpl.
  - apply respects_ret.
  - apply respects_bind; [ apply Hbody | intros _; exact IH ].
Qed.

Lemma respects_collect {X Y} (xs : list X) (body : X -> Seed.M Y) :
  (forall x, respects (body x)) -> respects (Seed.collect xs body).
Proof.
  intros Hbody. induction xs as [ | x xs IH ]; simpl.
  - apply respects_ret.
  - apply respects_bind; [ apply Hbody | intros y ].
    apply respects_bind; [ exact IH | intros ys; apply respects_ret ].
Qed.

Lemma respects_set_site_cache (k : string) (v : json) :
  respects (Seed.modify (fun self =>
    Seed.Seeder.set_site_cache (<[k := v]> (Seed.Seeder.site_cache self)) self)).
Proof.
  intros self r self' H. injection H as _ <-.
  constructor; simpl; auto.
  - intros k' Hk'. destruct (decide (k = k')) as [<- | Hne].
    + rewrite lookup_insert_eq. eauto.
    + rewrite lookup_insert_ne by exact Hne. exact Hk'.
  - exists []. rewrite app_nil_r. reflexivity.
Qed.

Lemma respects_set_category_cache (k : string * string) (v : json) :
  respects (Seed.modify (fun self =>
    Seed.Seeder.set_category_cache (<[k := v]> (Seed.Seeder.category_cache self)) self)).
Proof.
  intros self r self' H. injection H as _ <-.
  constructor; simpl; auto.
  - intros k' Hk'. destruct (decide (k = k')) as [<- | Hne].
    + rewrite lookup_insert_eq. eauto.
    + rewrite lookup_insert_ne by exact Hne. exact Hk'.
  - exists []. rewrite app_nil_r. reflexivity.
Qed.

Lemma respects_set_filter_cache (k : string * json) (v : Seed.CreatedFilter.t) :
  respects (Seed.modify (fun self =>
    Seed.Seeder.set_filter_cache (<[k := v]> (Seed.Seeder.filter_cache self)) self)).
Proof.
  intros self r self' H. injection H as _ <-.
  constructor; simpl; auto.
  - intros k' Hk'. destruct (decide (k = k')) as [<- | Hne].
    + rewrite lookup_insert_eq. eauto.
    + rewrite lookup_insert_ne by exact Hne. exact Hk'.
  - exists []. rewrite app_nil_r. reflexivity.
Qed.

End Monad.

Section SeederFacts.
Context {py : PyLib} {gw : Gateway}.

Lemma respects_http_request method url params json_body headers timeout :
  respects (Seed.http_request method url params json_body headers timeout).
Proof.
  intros self r self' H. unfold Seed.http_request in H.
  assert (Hgrow : grows self
            (Seed.Seeder.set_sent
               (Seed.Seeder.sent self
                ++ [Seed.build_request method url params json_body headers timeout]) self)).
  { constructor; simpl; auto. eexists. reflexivity. }
  destruct (urlopen _ _); injection H as _ <-; exact Hgrow.
Qed.

(** One step of the proof that a method respects the state: take the
    method apart along its binds and its case distinctions. *)
Ltac respects_step :=
  match goal with
  | |- respects (Seed.bind _ _) => apply respects_bind; [ | intros ? ]
  | |- respects (Seed.ret _) => apply respects_ret
  | |- respects (Seed.raise _) => apply respects_raise
  | |- respects (Seed.lift _) => apply respects_lift
  | |- respects (Seed.gets _) => apply respects_gets
  | |- respects (Seed.try_http _ _) => apply respects_try_http; [ | intros ? ? ]
  | |- respects (Seed.for_each _ _) => apply respects_for_each; intros ?
  | |- respects (Seed.collect _ _) => apply respects_collect; intros ?
  | |- respects (Seed.http_get _ _ _ _) => apply respects_http_request
  | |- respects (Seed.http_post _ _ _ _) => apply respects_http_request
  | |- respects (Seed.modify _) =>
      first [ apply respects_set_site_cache
            | apply respects_set_category_cache
            | apply respects_set_filter_cache ]
  | |- respects (if ?b then _ else _) => destruct b
  | |- respects (match ?x with _ => _ end) => destruct x
  | |- respects (let '(_, _) := ?x in _) => destruct x
  end.

Ltac respects_all := cbv beta; repeat respects_step.

Lemma respects_url path : respects (Seed._url path).
Proof. unfold Seed._url. respects_all. Qed.

Lemma respects_fetch_site_by_slug slug : respects (Seed._fetch_site_by_slug slug).
Proof. unfold Seed._fetch_site_by_slug. respects_all; apply respects_url. Qed.

Lemma respects_create_site row : respects (Seed.create_site row).
Proof.
  unfold Seed.create_site.
  respects_all; first [ apply respects_url | apply respects_fetch_site_by_slug ].
Qed.

Lemma respects_ensure_site row : respects (Seed._ensure_site row).
Proof.
  unfold Seed._ensure_site.
  respects_all; first [ apply respects_fetch_site_by_slug | apply respects_create_site ].
Qed.

Lemma respects_refresh_filters site_id : respects (Seed._refresh_filters site_id).
Proof.
  unfold Seed._refresh_filters, Seed.refresh_entry, Seed.hash_key.
  respects_all; apply respects_url.
Qed.

Lemma respects_ensure_definition site_id category_id definition :
  respects (Seed.ensure_definition site_id category_id definition).
Proof.
  unfold Seed.ensure_definition, Seed.hash_key.
  respects_all; apply respects_url.
Qed.

Lemma respects_ensure_filter_definitions site_id category_id definitions :
  respects (Seed._ensure_filter_definitions site_id category_id definitions).
Proof.
  unfold Seed._ensure_filter_definitions.
  respects_all; apply respects_ensure_definition.
Qed.

Lemma respects_ensure_filters_and_map_assignments site_id category_id row :
  respects (Seed._ensure_filters_and_map_assignments site_id category_id row).
Proof.
  unfold Seed._ensure_filters_and_map_assignments, Seed.map_assignment.
  respects_all;
    first [ apply respects_refresh_filters | apply respects_ensure_filter_definitions ].
Qed.

Lemma respects_ensure_category site_id category_name filter_definitions :
  respects (Seed._ensure_category site_id category_name filter_definitions).
Proof.
  unfold Seed._ensure_category, Seed.cache_existing_categories,
    Seed._fetch_categories, Seed.cache_category.
  respects_all; first [ apply respects_url | apply respects_refresh_filters ].
Qed.

Lemma respects_create_product site_id category_id row filter_assignments :
  respects (Seed._create_product site_id category_id row filter_assignments).
Proof. unfold Seed._create_product. respects_all; apply respects_url. Qed.

Lemma respects_create_price product_id row : respects (Seed._create_price product_id row).
Proof. unfold Seed._create_price. respects_all; apply respects_url. Qed.

Lemma respects_create_inventory product_id row :
  respects (Seed._create_inventory product_id row).
Proof. unfold Seed._create_inventory. respects_all; apply respects_url. Qed.

Lemma respects_process_row row : respects (Seed.process_row row).
Proof.
  unfold Seed.process_row.
  respects_all;
    first [ apply respects_ensure_site | apply respects_ensure_category
          | apply respects_ensure_filters_and_map_assignments
          | apply respects_create_product | apply respects_create_price
          | apply respects_create_inventory ].
Qed.

Lemma respects_process_rows rows : respects (Seed.process_rows rows).
Proof. unfold Seed.process_rows. respects_all. apply respects_process_row. Qed.

(** *** The caches *)

Lemma ensure_site_cached (row : Seed.Row.t) (self : Seed.Seeder.t) (cached : json) :
  Seed.Seeder.site_cache self !! Seed.site_cache_key row = Some cached ->
  Seed._ensure_site row self = (Ok cached, self).
Proof.
  intros Hhit. unfold Seed._ensure_site, Seed.bind, Seed.gets. rewrite Hhit. reflexivity.
Qed.

Lemma ensure_category_cached (site_id : json) (category_name : string)
    (filter_definitions : json) (self : Seed.Seeder.t) (cached : json) :
  Seed.Seeder.category_cache self !! (py_str site_id, PyStr.lower category_name)
  = Some cached ->
  Seed._ensure_category site_id category_name filter_definitions self = (Ok cached, self).
Proof.
  intros Hhit. unfold Seed._ensure_category, Seed.bind, Seed.gets. rewrite Hhit. reflexivity.
Qed.

Lemma ensure_definition_cached (site_id category_id definition key : json)
    (self : Seed.Seeder.t) :
  Py.getitem definition "key" = Ok key ->
  is_Some (Seed.Seeder.filter_cache self !! Seed._filter_cache_key category_id key) ->
  exists r,
    Seed.ensure_definition site_id category_id definition self = (r, self) /\
    (Py.hashable key = true -> r = Ok tt).
Proof.
  intros Hkey [found Hhit].
  unfold Seed.ensure_definition, Seed.bind, Seed.lift, Seed.hash_key. rewrite Hkey. simpl.
  destruct (Py.hashable key); simpl.
  - unfold Seed.gets. rewrite Hhit. eexists. split; reflexivity.
  - eexists. split; [ reflexivity | discriminate ].
Qed.

Lemma url_run (path : string) (self : Seed.Seeder.t) :
  Seed._url path self
  = (Ok (Seed.Seeder.base_url self
         +:+ (if PyStr.is_prefix "/" path then path else "/" +:+ path)), self).
Proof. reflexivity. Qed.

Lemma filter_payload_key (site_id category_id definition payload : json) :
  Seed.filter_payload site_id category_id definition = Ok payload ->
  Py.getitem payload "key" = Py.getitem definition "key".
Proof.
  unfold Seed.filter_payload.
  destruct (Py.get definition "siteId"); [ simpl | discriminate ].
  destruct (Py.getitem definition "key"); [ simpl | discriminate ].
  destruct (Py.getitem definition "type"); [ simpl | discriminate ].
  destruct (Py.get definition "displayName"); [ simpl | discriminate ].
  destruct (Py.get definition "unit"); [ simpl | discriminate ].
  destruct (Py.get definition "values"); [ simpl | discriminate ].
  destruct (Py.get definition "minValue"); [ simpl | discriminate ].
  destruct (Py.get definition "maxValue"); [ simpl | discriminate ].
  intros Heq. injection Heq as <-. reflexivity.
Qed.

(** What [ensure_definition] sends: nothing, or the creation of a filter
    whose key the cache does not have. *)
Lemma ensure_definition_sends (site_id category_id definition : json)
    (self : Seed.Seeder.t) r (self' : Seed.Seeder.t) :
  Seed.ensure_definition site_id category_id definition self = (r, self') ->
  Seed.Seeder.sent self' = Seed.Seeder.sent self
  \/ exists key payload,
       Py.getitem definition "key" = Ok key /\
       Seed.Seeder.filter_cache self !! Seed._filter_cache_key category_id key = None /\
       Seed.filter_payload site_id category_id definition = Ok payload /\
       Seed.Seeder.sent self'
       = Seed.Seeder.sent self
         ++ [Seed.build_request "POST"
               (Seed.Seeder.base_url self +:+ "/api/catalog/filters")
               None (Some payload) None 30].
Proof.
  unfold Seed.ensure_definition, Seed.bind, Seed.lift, Seed.hash_key, Seed.gets.
  destruct (Py.getitem definition "key") as [ key | e ];
    [ simpl | intros H; injection H as _ <-; left; reflexivity ].
  destruct (Py.hashable key); simpl;
    [ | intros H; injection H as _ <-; left; reflexivity ].
  destruct (Seed.Seeder.filter_cache self !! Seed._filter_cache_key category_id key) eqn:Hmiss;
    [ intros H; injection H as _ <-; left; reflexivity | ].
  destruct (Seed.Seeder.dry_run self).
  - destruct (Py.getitem definition "type"); simpl;
      intros H; injection H as _ <-; left; reflexivity.
  - destruct (Seed.filter_payload site_id category_id definition) as [ payload | e ] eqn:Hpay;
      [ simpl | intros H; injection H as _ <-; left; reflexivity ].
    unfold Seed.http_post, Seed.http_request.
    intros H. right. exists key, payload.
    split; [ reflexivity | ]. split; [ exact Hmiss | ]. split; [ reflexivity | ].
    destruct (urlopen _ _) as [ status body | code body | reason ]; simpl in H.
    + destruct (Seed.response_json _) as [ created | e ]; simpl in H;
        [ | injection H as _ <-; reflexivity ].
      destruct (Py.getitem created "id"); simpl in H; [ | injection H as _ <-; reflexivity ].
      destruct (Py.getitem created "key"); simpl in H; [ | injection H as _ <-; reflexivity ].
      destruct (Py.getitem created "type"); simpl in H; injection H as _ <-; reflexivity.
    + injection H as _ <-. reflexivity.
    + injection H as _ <-. reflexivity.
Qed.

Lemma ensure_definitions_send (site_id category_id : json) (each : list json) :
  forall (self : Seed.Seeder.t) r (self' : Seed.Seeder.t),
    Seed.for_each each (Seed.ensure_definition site_id category_id) self = (r, self') ->
    exists more,
      Seed.Seeder.sent self' = Seed.Seeder.sent self ++ more /\
      forall req, In req more ->
        exists definition key payload,
          In definition each /\
          Py.getitem definition "key" = Ok key /\
          Seed.Seeder.filter_cache self !! Seed._filter_cache_key category_id key = None /\
          Seed.filter_payload site_id category_id definition = Ok payload /\
          req = Seed.build_request "POST"
                  (Seed.Seeder.base_url self +:+ "/api/catalog/filters")
                  None (Some payload) None 30.
Proof.
  induction each as [ | definition each IH ]; simpl; intros self r self' Hrun.
  - injection Hrun as _ <-. exists []. rewrite app_nil_r. split; [ reflexivity | contradiction ].
  - assert (Hstep : forall mid r0,
               Seed.ensure_definition site_id category_id definition self = (r0, mid) ->
               exists first,
                 Seed.Seeder.sent mid = Seed.Seeder.sent self ++ first /\
                 forall req, In req first ->
                   exists key payload,
                     Py.getitem definition "key" = Ok key /\
                     Seed.Seeder.filter_cache self !! Seed._filter_cache_key category_id key
                     = None /\
                     Seed.filter_payload site_id category_id definition = Ok payload /\
                     req = Seed.build_request "POST"
                             (Seed.Seeder.base_url self +:+ "/api/catalog/filters")
                             None (Some payload) None 30).
    { intros mid r0 H0. apply ensure_definition_sends in H0
        as [Hsame | (key & payload & Hkey & Hmiss & Hpay & Hsent)].
      - exists []. rewrite app_nil_r. split; [ exact Hsame | contradiction ].
      - eexists. split; [ exact Hsent | ].
        intros req [<- | []]. exists key, payload. auto. }
    apply bind_inv in Hrun as [(u & mid & H1 & H2) | (e & H1 & _)].
    + pose proof (respects_ensure_definition _ _ _ _ _ _ H1) as Hgrow.
      destruct (Hstep _ _ H1) as (first & Hfirst & Hreqs).
      destruct (IH _ _ _ H2) as (rest & Hrest & Hreqs').
      exists (first ++ rest). split; [ rewrite Hrest, Hfirst, app_assoc; reflexivity | ].
      intros req Hin. apply in_app_or in Hin as [Hin | Hin].
      * destruct (Hreqs req Hin) as (key & payload & H).
        exists definition, key, payload. split; [ left; reflexivity | exact H ].
      * destruct (Hreqs' req Hin) as (d & key & payload & Hd & Hkey & Hmiss & Hpay & Hreq).
        exists d, key, payload. split; [ right; exact Hd | ]. split; [ exact Hkey | ].
        split; [ | split; [ exact Hpay | ] ].
        -- destruct (Seed.Seeder.filter_cache self !! Seed._filter_cache_key category_id key)
             eqn:Hself; [ | reflexivity ].
           assert (Hsome : is_Some (Seed.Seeder.filter_cache mid
                                    !! Seed._filter_cache_key category_id key))
             by (apply (grows_filter_cache _ _ Hgrow); eauto).
           rewrite Hmiss in Hsome. destruct Hsome as [? Hsome]. discriminate.
        -- rewrite Hreq, (grows_base_url _ _ Hgrow). reflexivity.
    + destruct (Hstep _ _ H1) as (first & Hfirst & Hreqs).
      exists first. split; [ exact Hfirst | ].
      intros req Hin. destruct (Hreqs req Hin) as (key & payload & H).
      exists definition, key, payload. split; [ left; reflexivity | exact H ].
Qed.

(** C3. Within a run, what is in a cache is not created again. Let the
    seeder be in any state, and let it process any rows after that. A site
    whose cache key (the site key of the row, or its slug when the site key
    is empty) was cached before these rows is still cached, and
    [_ensure_site] returns the cached site and leaves the seeder as it is,
    so it sends nothing; the same for a category, under the site id and the
    name in lower case; a filter definition whose key was cached for the
    category leaves the seeder as it is; and every request
    [_ensure_filter_definitions] sends creates a filter whose key was not
    cached for the category. *)
Theorem caches_prevent_duplicate_creation
    (self1 self2 : Seed.Seeder.t) (rows : list Seed.Row.t) (row : Seed.Row.t) :
  Seed.process_rows rows self1 = (Ok tt, self2) ->
  Seed.site_cache_key row
  = (if String.eqb (Seed.Row.site_key row) "" then Seed.Row.site_slug row
     else Seed.Row.site_key row) /\
  (is_Some (Seed.Seeder.site_cache self1 !! Seed.site_cache_key row) ->
   exists cached,
     Seed.Seeder.site_cache self2 !! Seed.site_cache_key row = Some cached /\
     Seed._ensure_site row self2 = (Ok cached, self2)) /\
  (forall site_id,
     is_Some (Seed.Seeder.category_cache self1
              !! (py_str site_id, PyStr.lower (Seed.Row.category_name row))) ->
     exists cached,
       Seed.Seeder.category_cache self2
       !! (py_str site_id, PyStr.lower (Seed.Row.category_name row)) = Some cached /\
       Seed._ensure_category site_id (Seed.Row.category_name row)
         (Seed.Row.filter_definitions row) self2 = (Ok cached, self2)) /\
  (forall site_id category_id definition key,
     Py.getitem definition "key" = Ok key ->
     is_Some (Seed.Seeder.filter_cache self1
              !! (PyStr.lower (py_str category_id), key)) ->
     exists r,
       Seed.ensure_definition site_id category_id definition self2 = (r, self2) /\
       (Py.hashable key = true -> r = Ok tt)) /\
  (forall site_id category_id r self3,
     Seed._ensure_filter_definitions site_id category_id
       (Seed.Row.filter_definitions row) self2 = (r, self3) ->
     exists more,
       Seed.Seeder.sent self3 = Seed.Seeder.sent self2 ++ more /\
       forall req payload key,
         In req more -> req_json req = Some payload ->
         Py.getitem payload "key" = Ok key ->
         req_method req = "POST" /\
         Seed.Seeder.filter_cache self1 !! (PyStr.lower (py_str category_id), key) = None).
Proof.
  intros Hrun.
  pose proof (respects_process_rows rows _ _ _ Hrun) as Hgrow.
  split; [ | split; [ | split; [ | split ] ] ].
  - unfold Seed.site_cache_key, Py.truthy_str.
    destruct (String.eqb (Seed.Row.site_key row) ""); reflexivity.
  - intros Hcached. apply (grows_site_cache _ _ Hgrow) in Hcached as [cached Hcached].
    exists cached. split; [ exact Hcached | apply ensure_site_cached; exact Hcached ].
  - intros site_id Hcached.
    apply (grows_category_cache _ _ Hgrow) in Hcached as [cached Hcached].
    exists cached. split; [ exact Hcached | apply ensure_category_cached; exact Hcached ].
  - intros site_id category_id definition key Hkey Hcached.
    apply (grows_filter_cache _ _ Hgrow) in Hcached.
    eapply ensure_definition_cached; eassumption.
  - intros site_id category_id r self3 Hensure.
    unfold Seed._ensure_filter_definitions in Hensure.
    destruct (negb (Py.truthy (Seed.Row.filter_definitions row))).
    { injection Hensure as _ <-. exists []. rewrite app_nil_r.
      split; [ reflexivity | intros req payload key [] ]. }
    apply bind_inv in Hensure as [(each & mid & H1 & H2) | (e & H1 & _)].
    + unfold Seed.lift in H1. injection H1 as _ <-.
      destruct (ensure_definitions_send _ _ _ _ _ _ H2) as (more & Hsent & Hreqs).
      exists more. split; [ exact Hsent | ].
      intros req payload key Hin Hjson Hpkey.
      destruct (Hreqs req Hin) as (d & key' & payload' & _ & Hkey' & Hmiss & Hpay & ->).
      simpl in Hjson. injection Hjson as <-.
      split; [ reflexivity | ].
      rewrite (filter_payload_key _ _ _ _ Hpay), Hkey' in Hpkey. injection Hpkey as <-.
      destruct (Seed.Seeder.filter_cache self1 !! (PyStr.lower (py_str category_id), key'))
        eqn:Hself1; [ | reflexivity ].
      assert (Hsome : is_Some (Seed.Seeder.filter_cache self2
                               !! Seed._filter_cache_key category_id key'))
        by (apply (grows_filter_cache _ _ Hgrow); unfold Seed._filter_cache_key; eauto).
      rewrite Hmiss in Hsome. destruct Hsome as [? Hsome]. discriminate.
    + unfold Seed.lift in H1. injection H1 as _ <-.
      exists []. rewrite app_nil_r. split; [ reflexivity | intros req payload key [] ].
Qed.

(** *** The steps of a row *)

Lemma post_run (url : string) (payload : json) (self : Seed.Seeder.t) r (self' : Seed.Seeder.t) :
  Seed.http_post url (Some payload) None 30 self = (r, self') ->
  self' = Seed.Seeder.set_sent
            (Seed.Seeder.sent self ++ [Seed.build_request "POST" url None (Some payload) None 30])
            self /\
  forall resp, r = Ok resp ->
    urlopen (Seed.Seeder.sent self) (Seed.build_request "POST" url None (Some payload) None 30)
    = Response (Seed.HttpResponse.status resp) (Seed.HttpResponse.body resp).
Proof.
  unfold Seed.http_post, Seed.http_request.
  destruct (urlopen _ _) as [ status body | code body | reason ];
    intros H; injection H as <- <-; (split; [ reflexivity | ]);
    intros resp Hresp; try discriminate.
  injection Hresp as <-. reflexivity.
Qed.

(** A product is created by one request, and its id is read off the reply. *)
Lemma create_product_live (site_id category_id : json) (row : Seed.Row.t)
    (filter_assignments : list json) (self : Seed.Seeder.t)
    (product_id : string) (self' : Seed.Seeder.t) :
  Seed.Seeder.dry_run self = false ->
  Seed._create_product site_id category_id row filter_assignments self = (Ok product_id, self') ->
  let req :=
    Seed.build_request "POST" (Seed.Seeder.base_url self +:+ "/api/catalog/products") None
      (Some (JObj (Seed.product_payload site_id category_id row filter_assignments))) None 30 in
  exists status body created id,
    urlopen (Seed.Seeder.sent self) req = Response status body /\
    Seed.response_json (Seed.HttpResponse.mk status body) = Ok created /\
    Py.get created "id" = Ok id /\
    product_id = py_str id /\
    self' = Seed.Seeder.set_sent (Seed.Seeder.sent self ++ [req]) self.
Proof.
  intros Hdry Hrun req. unfold Seed._create_product in Hrun.
  apply bind_ok in Hrun as (dry & s0 & Hgets & Hrun).
  unfold Seed.gets in Hgets. injection Hgets as <- <-. rewrite Hdry in Hrun.
  apply bind_ok in Hrun as (url & s0 & Hurl & Hrun).
  rewrite url_run in Hurl. injection Hurl as <- <-. simpl in Hrun.
  apply bind_ok in Hrun as (resp & s1 & Hpost & Hrun).
  apply post_run in Hpost as [-> Hreply].
  apply bind_ok in Hrun as (created & s2 & Hjson & Hrun).
  unfold Seed.lift in Hjson. injection Hjson as Hjson <-.
  apply bind_ok in Hrun as (id & s3 & Hid & Hrun).
  unfold Seed.lift in Hid. injection Hid as Hid <-.
  unfold Seed.ret in Hrun. injection Hrun as <- <-.
  exists (Seed.HttpResponse.status resp), (Seed.HttpResponse.body resp), created, id.
  split; [ apply Hreply; reflexivity | ].
  split; [ destruct resp; exact Hjson | ].
  split; [ exact Hid | ]. split; reflexivity.
Qed.

Lemma create_price_live (product_id : string) (row : Seed.Row.t)
    (self self' : Seed.Seeder.t) :
  Seed.Seeder.dry_run self = false ->
  Seed._create_price product_id row self = (Ok tt, self') ->
  self' = Seed.Seeder.set_sent
            (Seed.Seeder.sent self
             ++ [Seed.build_request "POST" (Seed.Seeder.base_url self +:+ "/api/prices") None
                   (Some (JObj (Seed.price_payload product_id row))) None 30]) self.
Proof.
  intros Hdry Hrun. unfold Seed._create_price in Hrun.
  apply bind_ok in Hrun as (dry & s0 & Hgets & Hrun).
  unfold Seed.gets in Hgets. injection Hgets as <- <-. rewrite Hdry in Hrun.
  apply bind_ok in Hrun as (url & s0 & Hurl & Hrun).
  rewrite url_run in Hurl. injection Hurl as <- <-. simpl in Hrun.
  apply bind_ok in Hrun as (resp & s1 & Hpost & Hrun).
  apply post_run in Hpost as [-> _].
  apply bind_ok in Hrun as (created & s2 & Hjson & Hrun).
  unfold Seed.lift in Hjson. injection Hjson as _ <-.
  apply bind_ok in Hrun as (id & s3 & Hid & Hrun).
  unfold Seed.lift in Hid. injection Hid as _ <-.
  unfold Seed.ret in Hrun. injection Hrun as <-. reflexivity.
Qed.

Lemma create_inventory_live (product_id : string) (row : Seed.Row.t)
    (self self' : Seed.Seeder.t) :
  Seed.Seeder.dry_run self = false ->
  Seed._create_inventory product_id row self = (Ok tt, self') ->
  self' = Seed.Seeder.set_sent
            (Seed.Seeder.sent self
             ++ [Seed.build_request "POST" (Seed.Seeder.base_url self +:+ "/api/inventory") None
                   (Some (JObj (Seed.inventory_payload product_id row))) None 30]) self.
Proof.
  intros Hdry Hrun. unfold Seed._create_inventory in Hrun.
  apply bind_ok in Hrun as (dry & s0 & Hgets & Hrun).
  unfold Seed.gets in Hgets. injection Hgets as <- <-. rewrite Hdry in Hrun.
  apply bind_ok in Hrun as (url & s0 & Hurl & Hrun).
  rewrite url_run in Hurl. injection Hurl as <- <-. simpl in Hrun.
  apply bind_ok in Hrun as (resp & s1 & Hpost & Hrun).
  apply post_run in Hpost as [-> _].
  apply bind_ok in Hrun as (created & s2 & Hjson & Hrun).
  unfold Seed.lift in Hjson. injection Hjson as _ <-.
  apply bind_ok in Hrun as (id & s3 & Hid & Hrun).
  unfold Seed.lift in Hid. injection Hid as _ <-.
  unfold Seed.ret in Hrun. injection Hrun as <-. reflexivity.
Qed.

Lemma price_payload_product (product_id : string) (row : Seed.Row.t) :
  Dict.get "productId" (Seed.price_payload product_id row) = Some (JStr product_id).
Proof.
  unfold Seed.price_payload.
  destruct (Seed.Row.price_effective_from row) as [ from_ | ];
    destruct (Seed.Row.price_effective_to row) as [ to_ | ];
    try destruct (Py.truthy_str from_); try destruct (Py.truthy_str to_); reflexivity.
Qed.

Lemma sent_extends (a b : Seed.Seeder.t) :
  grows a b -> exists more, Seed.Seeder.sent b = Seed.Seeder.sent a ++ more.
Proof. intros H. apply (grows_sent _ _ H). Qed.

(** C4. A row that is processed goes through the six steps in this
    order, each on the state the one before has left: the site is ensured,
    then the category of the site, then the filters, which gives the
    filter assignments of the product, then the product is created, then
    its price, then its inventory. The requests of the first three steps
    are sent in this order; outside a dry run they are followed by exactly
    three requests, the creation of the product, of the price and of the
    inventory, and the product id in the last two is the text of the id in
    the reply to the first. In a dry run the last three steps send
    nothing. *)
Theorem row_steps_in_order (row : Seed.Row.t) (self self' : Seed.Seeder.t) :
  Seed.process_row row self = (Ok tt, self') ->
  exists site s1 site_id category s2 category_id assignments s3 product_id s4 s5,
    Seed._ensure_site row self = (Ok site, s1) /\
    Py.getitem site "id" = Ok site_id /\
    Seed._ensure_category site_id (Seed.Row.category_name row)
      (Seed.Row.filter_definitions row) s1 = (Ok category, s2) /\
    Py.getitem category "id" = Ok category_id /\
    Seed._ensure_filters_and_map_assignments site_id category_id row s2
    = (Ok assignments, s3) /\
    Seed._create_product site_id category_id row assignments s3 = (Ok product_id, s4) /\
    Seed._create_price product_id row s4 = (Ok tt, s5) /\
    Seed._create_inventory product_id row s5 = (Ok tt, self') /\
    (exists a b c,
        Seed.Seeder.sent s1 = Seed.Seeder.sent self ++ a /\
        Seed.Seeder.sent s2 = Seed.Seeder.sent s1 ++ b /\
        Seed.Seeder.sent s3 = Seed.Seeder.sent s2 ++ c) /\
    Dict.get "productId" (Seed.price_payload product_id row) = Some (JStr product_id) /\
    Dict.get "productId" (Seed.inventory_payload product_id row) = Some (JStr product_id) /\
    (Seed.Seeder.dry_run self = false ->
     let product_request :=
       Seed.build_request "POST" (Seed.Seeder.base_url self +:+ "/api/catalog/products") None
         (Some (JObj (Seed.product_payload site_id category_id row assignments))) None 30 in
     let price_request :=
       Seed.build_request "POST" (Seed.Seeder.base_url self +:+ "/api/prices") None
         (Some (JObj (Seed.price_payload product_id row))) None 30 in
     let inventory_request :=
       Seed.build_request "POST" (Seed.Seeder.base_url self +:+ "/api/inventory") None
         (Some (JObj (Seed.inventory_payload product_id row))) None 30 in
     exists status body created id,
       urlopen (Seed.Seeder.sent s3) product_request = Response status body /\
       Seed.response_json (Seed.HttpResponse.mk status body) = Ok created /\
       Py.get created "id" = Ok id /\
       product_id = py_str id /\
       Seed.Seeder.sent self'
       = Seed.Seeder.sent s3 ++ [product_request; price_request; inventory_request]) /\
    (Seed.Seeder.dry_run self = true ->
     product_id = "dry-product-" +:+ Seed.Row.product_sku row /\
     Seed.Seeder.sent self' = Seed.Seeder.sent s3).
Proof.
  intros Hrun. unfold Seed.process_row in Hrun.
  apply bind_ok in Hrun as (site & s1 & Hsite & Hrun).
  apply bind_ok in Hrun as (site_id & s1' & Hsid & Hrun).
  unfold Seed.lift in Hsid. injection Hsid as Hsid <-.
  apply bind_ok in Hrun as (category & s2 & Hcat & Hrun).
  apply bind_ok in Hrun as (category_id & s2' & Hcid & Hrun).
  unfold Seed.lift in Hcid. injection Hcid as Hcid <-.
  apply bind_ok in Hrun as (assignments & s3 & Hfil & Hrun).
  apply bind_ok in Hrun as (product_id & s4 & Hprod & Hrun).
  apply bind_ok in Hrun as ([] & s5 & Hprice & Hinv).
  pose proof (respects_ensure_site _ _ _ _ Hsite) as G1.
  pose proof (respects_ensure_category _ _ _ _ _ _ Hcat) as G2.
  pose proof (respects_ensure_filters_and_map_assignments _ _ _ _ _ _ Hfil) as G3.
  pose proof (grows_trans _ _ _ (grows_trans _ _ _ G1 G2) G3) as G.
  exists site, s1, site_id, category, s2, category_id, assignments, s3, product_id, s4, s5.
  repeat (split; [ assumption | ]).
  split.
  { destruct (sent_extends _ _ G1) as [a Ha]. destruct (sent_extends _ _ G2) as [b Hb].
    destruct (sent_extends _ _ G3) as [c Hc]. exists a, b, c. auto. }
  split; [ apply price_payload_product | ].
  split; [ reflexivity | ].
  split.
  - intros Hdry product_request price_request inventory_request.
    assert (Hdry3 : Seed.Seeder.dry_run s3 = false) by (rewrite (grows_dry_run _ _ G); exact Hdry).
    destruct (create_product_live _ _ _ _ _ _ _ Hdry3 Hprod)
      as (status & body & created & id & Hreply & Hjson & Hid & Hpid & Hs4).
    assert (Hdry4 : Seed.Seeder.dry_run s4 = false) by (rewrite Hs4; exact Hdry3).
    pose proof (create_price_live _ _ _ _ Hdry4 Hprice) as Hs5.
    assert (Hdry5 : Seed.Seeder.dry_run s5 = false) by (rewrite Hs5; exact Hdry4).
    pose proof (create_inventory_live _ _ _ _ Hdry5 Hinv) as Hs'.
    exists status, body, created, id.
    unfold product_request, price_request, inventory_request.
    rewrite <- (grows_base_url _ _ G).
    split; [ exact Hreply | ]. split; [ exact Hjson | ]. split; [ exact Hid | ].
    split; [ exact Hpid | ].
    rewrite Hs', Hs5, Hs4. simpl. rewrite <- !app_assoc. reflexivity.
  - intros Hdry.
    assert (Hdry3 : Seed.Seeder.dry_run s3 = true) by (rewrite (grows_dry_run _ _ G); exact Hdry).
    unfold Seed._create_product, Seed.bind, Seed.gets in Hprod. rewrite Hdry3 in Hprod.
    injection Hprod as <- <-.
    unfold Seed._create_price, Seed.bind, Seed.gets in Hprice. rewrite Hdry3 in Hprice.
    injection Hprice as <-.
    unfold Seed._create_inventory, Seed.bind, Seed.gets in Hinv. rewrite Hdry3 in Hinv.
    injection Hinv as <-.
    split; reflexivity.
Qed.

(** A step that raises ends the row: the steps after it are not run. *)
Lemma row_stops_at_failed_site (row : Seed.Row.t) (self self' : Seed.Seeder.t) (e : exn) :
  Seed._ensure_site row self = (Raise e, self') ->
  Seed.process_row row self = (Raise e, self').
Proof. intros H. unfold Seed.process_row. apply bind_raise. exact H. Qed.

Lemma row_stops_at_failed_product (row : Seed.Row.t) (self s1 s2 s3 s4 : Seed.Seeder.t)
    (site site_id category category_id : json) (assignments : list json) (e : exn) :
  Seed._ensure_site row self = (Ok site, s1) ->
  Py.getitem site "id" = Ok site_id ->
  Seed._ensure_category site_id (Seed.Row.category_name row)
    (Seed.Row.filter_definitions row) s1 = (Ok category, s2) ->
  Py.getitem category "id" = Ok category_id ->
  Seed._ensure_filters_and_map_assignments site_id category_id row s2 = (Ok assignments, s3) ->
  Seed._create_product site_id category_id row assignments s3 = (Raise e, s4) ->
  Seed.process_row row self = (Raise e, s4).
Proof.
  intros Hsite Hsid Hcat Hcid Hfil Hprod. unfold Seed.process_row.
  rewrite (bind_run _ _ _ _ _ Hsite).
  unfold Seed.lift at 1. unfold Seed.bind at 1. rewrite Hsid.
  rewrite (bind_run _ _ _ _ _ Hcat).
  unfold Seed.lift at 1. unfold Seed.bind at 1. rewrite Hcid.
  rewrite (bind_run _ _ _ _ _ Hfil).
  apply bind_raise. exact Hprod.
Qed.

(** *** The flow of the ensure operations *)

Lemma bind_gets {A B} (f : Seed.Seeder.t -> A) (k : A -> Seed.M B) (self : Seed.Seeder.t) :
  Seed.bind (Seed.gets f) k self = k (f self) self.
Proof. reflexivity. Qed.

Lemma bind_url {B} (path : string) (k : string -> Seed.M B) (self : Seed.Seeder.t) :
  Seed.bind (Seed._url path) k self
  = k (Seed.Seeder.base_url self
       +:+ (if PyStr.is_prefix "/" path then path else "/" +:+ path)) self.
Proof. reflexivity. Qed.

Lemma bind_ret {A B} (a : A) (k : A -> Seed.M B) (self : Seed.Seeder.t) :
  Seed.bind (Seed.ret a) k self = k a self.
Proof. reflexivity. Qed.

Lemma bind_lift_ok {A B} (x : result A) (a : A) (k : A -> Seed.M B) (self : Seed.Seeder.t) :
  x = Ok a -> Seed.bind (Seed.lift x) k self = k a self.
Proof. intros ->. reflexivity. Qed.

Lemma get_run (url : string) (params : option (list (string * json))) (timeout : Z)
    (self : Seed.Seeder.t) r (self' : Seed.Seeder.t) :
  Seed.http_get url params None timeout self = (r, self') ->
  self' = Seed.Seeder.set_sent
            (Seed.Seeder.sent self ++ [Seed.build_request "GET" url params None None timeout])
            self.
Proof.
  unfold Seed.http_get, Seed.http_request.
  destruct (urlopen _ _); intros H; injection H as _ <-; reflexivity.
Qed.

(** Fetching a site by its slug sends one request, whatever comes of it. *)
Lemma fetch_site_sends (slug : string) (self : Seed.Seeder.t) r (self' : Seed.Seeder.t) :
  Seed._fetch_site_by_slug slug self = (r, self') ->
  self' = Seed.Seeder.set_sent
            (Seed.Seeder.sent self
             ++ [Seed.build_request "GET"
                   (Seed.Seeder.base_url self +:+ "/api/sites/slug/" +:+ slug)
                   None None None 15]) self.
Proof.
  unfold Seed._fetch_site_by_slug, Seed.try_http.
  rewrite bind_url. simpl.
  unfold Seed.bind, Seed.http_get, Seed.http_request, Seed.lift.
  destruct (urlopen _ _) as [ status body | code body | reason ].
  - destruct (Seed.response_json _) as [ v | e ].
    + intros H. injection H as _ <-. reflexivity.
    + destruct e; try (intros H; injection H as _ <-; reflexivity).
      destruct (_ || _); intros H; injection H as _ <-; reflexivity.
  - destruct (_ || _); intros H; injection H as _ <-; reflexivity.
  - intros H. injection H as _ <-. reflexivity.
Qed.

(** When a method starts by sending a request, the request is the first
    of those the whole method sends. *)
Lemma bind_sends_first {A B} (m : Seed.M A) (k : A -> Seed.M B) (req : request)
    (self : Seed.Seeder.t) r (self' : Seed.Seeder.t) :
  (forall r0 mid, m self = (r0, mid) ->
                  exists more, Seed.Seeder.sent mid = Seed.Seeder.sent self ++ req :: more) ->
  (forall a, respects (k a)) ->
  Seed.bind m k self = (r, self') ->
  exists more, Seed.Seeder.sent self' = Seed.Seeder.sent self ++ req :: more.
Proof.
  intros Hm Hk Hrun.
  apply bind_inv in Hrun as [(a & mid & H1 & H2) | (e & H1 & _)].
  - destruct (Hm _ _ H1) as [more Hmore].
    destruct (sent_extends _ _ (Hk a _ _ _ H2)) as [more' Hmore'].
    exists (more ++ more'). rewrite Hmore', Hmore, <- app_assoc. reflexivity.
  - eapply Hm. exact H1.
Qed.

Lemma ensure_site_fetches_first (row : Seed.Row.t) (self : Seed.Seeder.t)
    r (self' : Seed.Seeder.t) :
  Seed.Seeder.dry_run self = false ->
  Seed.Seeder.site_cache self !! Seed.site_cache_key row = None ->
  Seed._ensure_site row self = (r, self') ->
  exists more,
    Seed.Seeder.sent self'
    = Seed.Seeder.sent self
      ++ Seed.build_request "GET"
           (Seed.Seeder.base_url self +:+ "/api/sites/slug/" +:+ Seed.Row.site_slug row)
           None None None 15 :: more.
Proof.
  intros Hdry Hmiss. unfold Seed._ensure_site.
  rewrite bind_gets, Hmiss, bind_gets, Hdry. simpl negb. cbv iota.
  apply bind_sends_first.
  - intros r0 mid Hfetch. apply fetch_site_sends in Hfetch. subst mid.
    exists []. reflexivity.
  - intros site. respects_all; apply respects_create_site.
Qed.

Lemma ensure_category_fetches_first (site_id : json) (category_name : string)
    (filter_definitions : json) (self : Seed.Seeder.t) r (self' : Seed.Seeder.t) :
  Seed.Seeder.dry_run self = false ->
  Seed.Seeder.category_cache self !! (py_str site_id, PyStr.lower category_name) = None ->
  Seed._ensure_category site_id category_name filter_definitions self = (r, self') ->
  exists more,
    Seed.Seeder.sent self'
    = Seed.Seeder.sent self
      ++ Seed.build_request "GET"
           (Seed.Seeder.base_url self +:+ "/api/catalog/products/categories")
           (Some [("siteId", JStr (py_str site_id))]) None None 30 :: more.
Proof.
  intros Hdry Hmiss. unfold Seed._ensure_category.
  rewrite bind_gets, Hmiss, bind_gets, Hdry. simpl negb. cbv iota.
  apply bind_sends_first.
  - intros r0 mid. unfold Seed.cache_existing_categories, Seed._fetch_categories.
    intros Hrun. eapply bind_sends_first; [ | | exact Hrun ].
    + intros r1 mid1. rewrite bind_url. simpl.
      intros Hrun1. eapply bind_sends_first; [ | | exact Hrun1 ].
      * intros r2 mid2 Hget. apply get_run in Hget. subst mid2. exists []. reflexivity.
      * intros resp. respects_all.
    + intros existing. unfold Seed.cache_category. respects_all.
  - intros u. respects_all; first [ apply respects_url | apply respects_refresh_filters ].
Qed.

Lemma ensure_filters_refresh_first (site_id category_id : json) (row : Seed.Row.t)
    (self : Seed.Seeder.t) r (self' : Seed.Seeder.t) :
  Seed.Seeder.dry_run self = false ->
  site_id <> JNull ->
  Seed._ensure_filters_and_map_assignments site_id category_id row self = (r, self') ->
  exists more,
    Seed.Seeder.sent self'
    = Seed.Seeder.sent self
      ++ Seed.build_request "GET" (Seed.Seeder.base_url self +:+ "/api/catalog/filters")
           (Some [("siteId", JStr (py_str site_id))]) None None 30 :: more.
Proof.
  intros Hdry Hsite. unfold Seed._ensure_filters_and_map_assignments.
  rewrite bind_gets, Hdry. simpl negb. cbv iota.
  apply bind_sends_first.
  - intros r0 mid. unfold Seed._refresh_filters.
    rewrite bind_gets, Hdry.
    rewrite (bool_decide_eq_false_2 _ Hsite). cbn [orb]. cbv iota.
    rewrite bind_url. simpl.
    intros Hrun. eapply bind_sends_first; [ | | exact Hrun ].
    + intros r1 mid1 Hget. apply get_run in Hget. subst mid1. exists []. reflexivity.
    + intros resp. unfold Seed.refresh_entry, Seed.hash_key. respects_all.
  - intros u. unfold Seed.map_assignment.
    respects_all; apply respects_ensure_filter_definitions.
Qed.

(** A site the fetch finds is returned and cached; it is not created. *)
Lemma ensure_site_found (row : Seed.Row.t) (self s1 : Seed.Seeder.t) (site id : json) :
  Seed.Seeder.dry_run self = false ->
  Seed.Seeder.site_cache self !! Seed.site_cache_key row = None ->
  Seed._fetch_site_by_slug (Seed.Row.site_slug row) self = (Ok site, s1) ->
  Py.truthy site = true ->
  Py.getitem site "id" = Ok id ->
  Seed._ensure_site row self
  = (Ok site,
     Seed.Seeder.set_site_cache
       (<[Seed.site_cache_key row := site]> (Seed.Seeder.site_cache s1)) s1).
Proof.
  intros Hdry Hmiss Hfetch Htruthy Hid. unfold Seed._ensure_site.
  rewrite bind_gets, Hmiss, bind_gets, Hdry. simpl negb. cbv iota.
  rewrite (bind_run _ _ _ _ _ Hfetch). rewrite Htruthy.
  unfold Seed.bind, Seed.lift, Seed.ret, Seed.modify. rewrite Hid. simpl.
  rewrite Htruthy. reflexivity.
Qed.

(** The site alone is re-fetched when its creation is refused for its
    slug. *)
Lemma create_site_conflict (row : Seed.Row.t) (s1 : Seed.Seeder.t) (body : string) :
  let site_post :=
    Seed.build_request "POST" (Seed.Seeder.base_url s1 +:+ "/api/sites") None
      (Some (Seed.site_payload row)) (Some [("X-Owner-Id", Seed.Seeder.owner_id s1)]) 30 in
  urlopen (Seed.Seeder.sent s1) site_post = HTTPError 400 body ->
  PyStr.contains "slug" (PyStr.lower body) = true ->
  Seed.create_site row s1
  = Seed._fetch_site_by_slug (Seed.Row.site_slug row)
      (Seed.Seeder.set_sent (Seed.Seeder.sent s1 ++ [site_post]) s1).
Proof.
  intros site_post Hreply Hslug. unfold Seed.create_site, Seed.try_http.
  rewrite bind_url. simpl.
  rewrite bind_gets.
  unfold Seed.bind at 1. unfold Seed.http_post, Seed.http_request.
  fold site_post. rewrite Hreply. simpl. rewrite Hslug. reflexivity.
Qed.

Lemma ensure_site_conflict (row : Seed.Row.t) (self s1 s2 : Seed.Seeder.t)
    (found site : json) (body : string) :
  let site_post :=
    Seed.build_request "POST" (Seed.Seeder.base_url s1 +:+ "/api/sites") None
      (Some (Seed.site_payload row)) (Some [("X-Owner-Id", Seed.Seeder.owner_id s1)]) 30 in
  Seed.Seeder.dry_run self = false ->
  Seed.Seeder.site_cache self !! Seed.site_cache_key row = None ->
  Seed._fetch_site_by_slug (Seed.Row.site_slug row) self = (Ok found, s1) ->
  Py.truthy found = false ->
  urlopen (Seed.Seeder.sent s1) site_post = HTTPError 400 body ->
  PyStr.contains "slug" (PyStr.lower body) = true ->
  Seed._fetch_site_by_slug (Seed.Row.site_slug row)
    (Seed.Seeder.set_sent (Seed.Seeder.sent s1 ++ [site_post]) s1) = (Ok site, s2) ->
  Py.truthy site = true ->
  Seed._ensure_site row self
  = (Ok site,
     Seed.Seeder.set_site_cache
       (<[Seed.site_cache_key row := site]> (Seed.Seeder.site_cache s2)) s2).
Proof.
  intros site_post Hdry Hmiss Hfetch Hfalsy Hreply Hslug Hagain Htruthy.
  unfold Seed._ensure_site.
  rewrite bind_gets, Hmiss, bind_gets, Hdry. simpl negb. cbv iota.
  rewrite (bind_run _ _ _ _ _ Hfetch). rewrite Hfalsy.
  rewrite (bind_run (Seed.create_site row) _ s1 site s2).
  - rewrite Htruthy. reflexivity.
  - rewrite (create_site_conflict row s1 body Hreply Hslug). exact Hagain.
Qed.

(** A category whose creation is refused is not fetched again: the error
    goes to the caller. *)
Lemma ensure_category_create_fails (site_id : json) (category_name : string)
    (filter_definitions : json) (self s1 : Seed.Seeder.t) (code : Z) (body : string) :
  let category_post :=
    Seed.build_request "POST"
      (Seed.Seeder.base_url s1 +:+ "/api/catalog/products/categories") None
      (Some (JObj [("siteId", JStr (py_str site_id)); ("name", JStr category_name)]))
      None 30 in
  Seed.Seeder.dry_run self = false ->
  Seed.Seeder.category_cache self !! (py_str site_id, PyStr.lower category_name) = None ->
  Seed.cache_existing_categories site_id self = (Ok tt, s1) ->
  Seed.Seeder.category_cache s1 !! (py_str site_id, PyStr.lower category_name) = None ->
  urlopen (Seed.Seeder.sent s1) category_post = HTTPError code body ->
  Seed._ensure_category site_id category_name filter_definitions self
  = (Raise (HttpError code body),
     Seed.Seeder.set_sent (Seed.Seeder.sent s1 ++ [category_post]) s1).
Proof.
  intros category_post Hdry Hmiss Hexisting Hmiss1 Hreply.
  unfold Seed._ensure_category.
  rewrite bind_gets, Hmiss, bind_gets, Hdry. simpl negb. cbv iota.
  rewrite (bind_run _ _ _ _ _ Hexisting).
  rewrite bind_gets, Hmiss1.
  apply bind_raise.
  rewrite bind_url. simpl.
  apply bind_raise.
  unfold Seed.http_post, Seed.http_request. fold category_post. rewrite Hreply. reflexivity.
Qed.

(** A filter whose creation is refused is not fetched again either. *)
Lemma ensure_definition_create_fails (site_id category_id definition key payload : json)
    (self : Seed.Seeder.t) (code : Z) (body : string) :
  let filter_post :=
    Seed.build_request "POST" (Seed.Seeder.base_url self +:+ "/api/catalog/filters") None
      (Some payload) None 30 in
  Seed.Seeder.dry_run self = false ->
  Py.getitem definition "key" = Ok key ->
  Py.hashable key = true ->
  Seed.Seeder.filter_cache self !! Seed._filter_cache_key category_id key = None ->
  Seed.filter_payload site_id category_id definition = Ok payload ->
  urlopen (Seed.Seeder.sent self) filter_post = HTTPError code body ->
  Seed.ensure_definition site_id category_id definition self
  = (Raise (HttpError code body),
     Seed.Seeder.set_sent (Seed.Seeder.sent self ++ [filter_post]) self).
Proof.
  intros filter_post Hdry Hkey Hhash Hmiss Hpay Hreply.
  unfold Seed.ensure_definition.
  rewrite (bind_lift_ok _ _ _ _ Hkey).
  unfold Seed.hash_key. simpl snd. rewrite Hhash.
  rewrite bind_ret, bind_gets, Hmiss, bind_gets, Hdry.
  rewrite (bind_lift_ok _ _ _ _ Hpay).
  rewrite bind_url. simpl.
  apply bind_raise.
  unfold Seed.http_post, Seed.http_request. fold filter_post. rewrite Hreply. reflexivity.
Qed.

(** A site the gateway accepts is returned as the gateway describes it. *)
Lemma create_site_created (row : Seed.Row.t) (s1 : Seed.Seeder.t)
    (status : Z) (body : string) (site id slug : json) :
  let site_post :=
    Seed.build_request "POST" (Seed.Seeder.base_url s1 +:+ "/api/sites") None
      (Some (Seed.site_payload row)) (Some [("X-Owner-Id", Seed.Seeder.owner_id s1)]) 30 in
  urlopen (Seed.Seeder.sent s1) site_post = Response status body ->
  Seed.response_json (Seed.HttpResponse.mk status body) = Ok site ->
  Py.getitem site "id" = Ok id ->
  Py.getitem site "slug" = Ok slug ->
  Seed.create_site row s1
  = (Ok site, Seed.Seeder.set_sent (Seed.Seeder.sent s1 ++ [site_post]) s1).
Proof.
  intros site_post Hreply Hjson Hid Hslug. unfold Seed.create_site, Seed.try_http.
  rewrite bind_url. simpl.
  rewrite bind_gets.
  unfold Seed.bind at 1. unfold Seed.http_post, Seed.http_request.
  fold site_post. rewrite Hreply.
  unfold Seed.bind, Seed.lift, Seed.ret. rewrite Hjson, Hid, Hslug. reflexivity.
Qed.

Lemma ensure_site_created (row : Seed.Row.t) (self s1 : Seed.Seeder.t)
    (found : json) (status : Z) (body : string) (site id slug : json) :
  let site_post :=
    Seed.build_request "POST" (Seed.Seeder.base_url s1 +:+ "/api/sites") None
      (Some (Seed.site_payload row)) (Some [("X-Owner-Id", Seed.Seeder.owner_id s1)]) 30 in
  Seed.Seeder.dry_run self = false ->
  Seed.Seeder.site_cache self !! Seed.site_cache_key row = None ->
  Seed._fetch_site_by_slug (Seed.Row.site_slug row) self = (Ok found, s1) ->
  Py.truthy found = false ->
  urlopen (Seed.Seeder.sent s1) site_post = Response status body ->
  Seed.response_json (Seed.HttpResponse.mk status body) = Ok site ->
  Py.getitem site "id" = Ok id ->
  Py.getitem site "slug" = Ok slug ->
  Py.truthy site = true ->
  Seed._ensure_site row self
  = (Ok site,
     Seed.Seeder.set_site_cache
       (<[Seed.site_cache_key row := site]> (Seed.Seeder.site_cache s1))
       (Seed.Seeder.set_sent (Seed.Seeder.sent s1 ++ [site_post]) s1)).
Proof.
  intros site_post Hdry Hmiss Hfetch Hfalsy Hreply Hjson Hid Hslug Htruthy.
  unfold Seed._ensure_site.
  rewrite bind_gets, Hmiss, bind_gets, Hdry. simpl negb. cbv iota.
  rewrite (bind_run _ _ _ _ _ Hfetch). rewrite Hfalsy.
  rewrite (bind_run (Seed.create_site row) _ s1 site
             (Seed.Seeder.set_sent (Seed.Seeder.sent s1 ++ [site_post]) s1)).
  - rewrite Htruthy. reflexivity.
  - exact (create_site_created row s1 status body site id slug Hreply Hjson Hid Hslug).
Qed.

(** A category the gateway accepts is cached and returned; the filters
    are fetched after it when the row has filter definitions. *)
Lemma ensure_category_created (site_id : json) (category_name : string)
    (filter_definitions : json) (self s1 : Seed.Seeder.t)
    (status : Z) (body : string) (category id : json) (s3 : Seed.Seeder.t) :
  let category_post :=
    Seed.build_request "POST"
      (Seed.Seeder.base_url s1 +:+ "/api/catalog/products/categories") None
      (Some (JObj [("siteId", JStr (py_str site_id)); ("name", JStr category_name)]))
      None 30 in
  let cached :=
    Seed.Seeder.set_category_cache
      (<[(py_str site_id, PyStr.lower category_name) := category]>
         (Seed.Seeder.category_cache s1))
      (Seed.Seeder.set_sent (Seed.Seeder.sent s1 ++ [category_post]) s1) in
  Seed.Seeder.dry_run self = false ->
  Seed.Seeder.category_cache self !! (py_str site_id, PyStr.lower category_name) = None ->
  Seed.cache_existing_categories site_id self = (Ok tt, s1) ->
  Seed.Seeder.category_cache s1 !! (py_str site_id, PyStr.lower category_name) = None ->
  urlopen (Seed.Seeder.sent s1) category_post = Response status body ->
  Seed.response_json (Seed.HttpResponse.mk status body) = Ok category ->
  Py.getitem category "id" = Ok id ->
  (if Py.truthy filter_definitions then Seed._refresh_filters site_id else Seed.ret tt) cached
  = (Ok tt, s3) ->
  Seed._ensure_category site_id category_name filter_definitions self = (Ok category, s3).
Proof.
  intros category_post cached Hdry Hmiss Hexisting Hmiss1 Hreply Hjson Hid Hrefresh.
  unfold Seed._ensure_category.
  rewrite bind_gets, Hmiss, bind_gets, Hdry. simpl negb. cbv iota.
  rewrite (bind_run _ _ _ _ _ Hexisting).
  rewrite bind_gets, Hmiss1.
  rewrite (bind_run _ _ s1 category
             (Seed.Seeder.set_sent (Seed.Seeder.sent s1 ++ [category_post]) s1)).
  - unfold Seed.bind at 1. unfold Seed.modify. fold cached.
    rewrite andb_true_r. rewrite (bind_run _ _ _ _ _ Hrefresh). reflexivity.
  - rewrite bind_url. simpl.
    unfold Seed.bind at 1. unfold Seed.http_post, Seed.http_request. fold category_post.
    rewrite Hreply. unfold Seed.bind, Seed.lift, Seed.ret. rewrite Hjson, Hid. reflexivity.
Qed.

(** A filter the gateway accepts is cached as the gateway describes it. *)
Lemma ensure_definition_created (site_id category_id definition key payload : json)
    (self : Seed.Seeder.t) (status : Z) (body : string) (created id key' type : json) :
  let filter_post :=
    Seed.build_request "POST" (Seed.Seeder.base_url self +:+ "/api/catalog/filters") None
      (Some payload) None 30 in
  Seed.Seeder.dry_run self = false ->
  Py.getitem definition "key" = Ok key ->
  Py.hashable key = true ->
  Seed.Seeder.filter_cache self !! Seed._filter_cache_key category_id key = None ->
  Seed.filter_payload site_id category_id definition = Ok payload ->
  urlopen (Seed.Seeder.sent self) filter_post = Response status body ->
  Seed.response_json (Seed.HttpResponse.mk status body) = Ok created ->
  Py.getitem created "id" = Ok id ->
  Py.getitem created "key" = Ok key' ->
  Py.getitem created "type" = Ok type ->
  Seed.ensure_definition site_id category_id definition self
  = (Ok tt,
     Seed.Seeder.set_filter_cache
       (<[Seed._filter_cache_key category_id key := Seed.CreatedFilter.mk id key' type]>
          (Seed.Seeder.filter_cache self))
       (Seed.Seeder.set_sent (Seed.Seeder.sent self ++ [filter_post]) self)).
Proof.
  intros filter_post Hdry Hkey Hhash Hmiss Hpay Hreply Hjson Hid Hkey' Htype.
  unfold Seed.ensure_definition.
  rewrite (bind_lift_ok _ _ _ _ Hkey).
  unfold Seed.hash_key. simpl snd. rewrite Hhash.
  rewrite bind_ret, bind_gets, Hmiss, bind_gets, Hdry.
  rewrite (bind_lift_ok _ _ _ _ Hpay).
  rewrite bind_url. simpl.
  unfold Seed.bind at 1. unfold Seed.http_post, Seed.http_request. fold filter_post.
  rewrite Hreply. unfold Seed.bind, Seed.lift, Seed.modify. rewrite Hjson, Hid, Hkey', Htype.
  reflexivity.
Qed.

(** X20. The flow of the three ensure operations. They look in the
    cache first: what is cached is returned and nothing is sent. On a miss
    outside a dry run the existing entities are fetched before anything is
    created: the first request of [_ensure_site] fetches the site by its
    slug, the first request of [_ensure_category] fetches the categories
    of the site, and the filters of the site are fetched by the caller of
    [_ensure_filter_definitions] before it looks in the cache. A site the
    fetch finds is cached and not created. What the fetch does not find is
    created: the site, the category or the filter the gateway accepts is
    returned as the gateway describes it and cached under its key, the
    creation being the request sent for it. Only the site recovers from a
    refused creation: when the creation is answered by status 400 with a
    body that mentions the slug, the site is fetched by its slug again and
    the site found is returned and cached. A refused creation of a category
    or of a filter is raised to the caller as the HTTP error it is, and the
    creation is the last request sent. *)
Theorem ensure_operations_flow
    (row : Seed.Row.t) (site_id category_id definition : json) (self : Seed.Seeder.t) :
  let slug := Seed.Row.site_slug row in
  let site_key := Seed.site_cache_key row in
  let category_key := (py_str site_id, PyStr.lower (Seed.Row.category_name row)) in
  (forall cached,
     Seed.Seeder.site_cache self !! site_key = Some cached ->
     Seed._ensure_site row self = (Ok cached, self)) /\
  (forall cached,
     Seed.Seeder.category_cache self !! category_key = Some cached ->
     Seed._ensure_category site_id (Seed.Row.category_name row)
       (Seed.Row.filter_definitions row) self = (Ok cached, self)) /\
  (forall key,
     Py.getitem definition "key" = Ok key -> Py.hashable key = true ->
     is_Some (Seed.Seeder.filter_cache self !! Seed._filter_cache_key category_id key) ->
     Seed.ensure_definition site_id category_id definition self = (Ok tt, self)) /\
  (Seed.Seeder.dry_run self = false ->
   Seed.Seeder.site_cache self !! site_key = None ->
   forall r self', Seed._ensure_site row self = (r, self') ->
     exists more,
       Seed.Seeder.sent self'
       = Seed.Seeder.sent self
         ++ Seed.build_request "GET"
              (Seed.Seeder.base_url self +:+ "/api/sites/slug/" +:+ slug)
              None None None 15 :: more) /\
  (Seed.Seeder.dry_run self = false ->
   Seed.Seeder.category_cache self !! category_key = None ->
   forall r self',
     Seed._ensure_category site_id (Seed.Row.category_name row)
       (Seed.Row.filter_definitions row) self = (r, self') ->
     exists more,
       Seed.Seeder.sent self'
       = Seed.Seeder.sent self
         ++ Seed.build_request "GET"
              (Seed.Seeder.base_url self +:+ "/api/catalog/products/categories")
              (Some [("siteId", JStr (py_str site_id))]) None None 30 :: more) /\
  (Seed.Seeder.dry_run self = false ->
   site_id <> JNull ->
   forall r self',
     Seed._ensure_filters_and_map_assignments site_id category_id row self = (r, self') ->
     exists more,
       Seed.Seeder.sent self'
       = Seed.Seeder.sent self
         ++ Seed.build_request "GET" (Seed.Seeder.base_url self +:+ "/api/catalog/filters")
              (Some [("siteId", JStr (py_str site_id))]) None None 30 :: more) /\
  (Seed.Seeder.dry_run self = false ->
   Seed.Seeder.site_cache self !! site_key = None ->
   forall site s1 id,
     Seed._fetch_site_by_slug slug self = (Ok site, s1) ->
     Py.truthy site = true ->
     Py.getitem site "id" = Ok id ->
     Seed._ensure_site row self
     = (Ok site,
        Seed.Seeder.set_site_cache (<[site_key := site]> (Seed.Seeder.site_cache s1)) s1)) /\
  (Seed.Seeder.dry_run self = false ->
   Seed.Seeder.site_cache self !! site_key = None ->
   forall found s1 body site s2,
     let site_post :=
       Seed.build_request "POST" (Seed.Seeder.base_url s1 +:+ "/api/sites") None
         (Some (Seed.site_payload row))
         (Some [("X-Owner-Id", Seed.Seeder.owner_id s1)]) 30 in
     Seed._fetch_site_by_slug slug self = (Ok found, s1) ->
     Py.truthy found = false ->
     urlopen (Seed.Seeder.sent s1) site_post = HTTPError 400 body ->
     PyStr.contains "slug" (PyStr.lower body) = true ->
     Seed._fetch_site_by_slug slug
       (Seed.Seeder.set_sent (Seed.Seeder.sent s1 ++ [site_post]) s1) = (Ok site, s2) ->
     Py.truthy site = true ->
     Seed._ensure_site row self
     = (Ok site,
        Seed.Seeder.set_site_cache (<[site_key := site]> (Seed.Seeder.site_cache s2)) s2)) /\
  (Seed.Seeder.dry_run self = false ->
   Seed.Seeder.category_cache self !! category_key = None ->
   forall s1 code body,
     let category_post :=
       Seed.build_request "POST"
         (Seed.Seeder.base_url s1 +:+ "/api/catalog/products/categories") None
         (Some (JObj [("siteId", JStr (py_str site_id));
                      ("name", JStr (Seed.Row.category_name row))])) None 30 in
     Seed.cache_existing_categories site_id self = (Ok tt, s1) ->
     Seed.Seeder.category_cache s1 !! category_key = None ->
     urlopen (Seed.Seeder.sent s1) category_post = HTTPError code body ->
     Seed._ensure_category site_id (Seed.Row.category_name row)
       (Seed.Row.filter_definitions row) self
     = (Raise (HttpError code body),
        Seed.Seeder.set_sent (Seed.Seeder.sent s1 ++ [category_post]) s1)) /\
  (Seed.Seeder.dry_run self = false ->
   forall key payload code body,
     let filter_post :=
       Seed.build_request "POST" (Seed.Seeder.base_url self +:+ "/api/catalog/filters") None
         (Some payload) None 30 in
     Py.getitem definition "key" = Ok key ->
     Py.hashable key = true ->
     Seed.Seeder.filter_cache self !! Seed._filter_cache_key category_id key = None ->
     Seed.filter_payload site_id category_id definition = Ok payload ->
     urlopen (Seed.Seeder.sent self) filter_post = HTTPError code body ->
     Seed.ensure_definition site_id category_id definition self
     = (Raise (HttpError code body),
        Seed.Seeder.set_sent (Seed.Seeder.sent self ++ [filter_post]) self)) /\
  (Seed.Seeder.dry_run self = false ->
   Seed.Seeder.site_cache self !! site_key = None ->
   forall found s1 status body site id site_slug,
     let site_post :=
       Seed.build_request "POST" (Seed.Seeder.base_url s1 +:+ "/api/sites") None
         (Some (Seed.site_payload row))
         (Some [("X-Owner-Id", Seed.Seeder.owner_id s1)]) 30 in
     Seed._fetch_site_by_slug slug self = (Ok found, s1) ->
     Py.truthy found = false ->
     urlopen (Seed.Seeder.sent s1) site_post = Response status body ->
     Seed.response_json (Seed.HttpResponse.mk status body) = Ok site ->
     Py.getitem site "id" = Ok id ->
     Py.getitem site "slug" = Ok site_slug ->
     Py.truthy site = true ->
     Seed._ensure_site row self
     = (Ok site,
        Seed.Seeder.set_site_cache (<[site_key := site]> (Seed.Seeder.site_cache s1))
          (Seed.Seeder.set_sent (Seed.Seeder.sent s1 ++ [site_post]) s1))) /\
  (Seed.Seeder.dry_run self = false ->
   Seed.Seeder.category_cache self !! category_key = None ->
   forall s1 status body category id s3,
     let category_post :=
       Seed.build_request "POST"
         (Seed.Seeder.base_url s1 +:+ "/api/catalog/products/categories") None
         (Some (JObj [("siteId", JStr (py_str site_id));
                      ("name", JStr (Seed.Row.category_name row))])) None 30 in
     Seed.cache_existing_categories site_id self = (Ok tt, s1) ->
     Seed.Seeder.category_cache s1 !! category_key = None ->
     urlopen (Seed.Seeder.sent s1) category_post = Response status body ->
     Seed.response_json (Seed.HttpResponse.mk status body) = Ok category ->
     Py.getitem category "id" = Ok id ->
     (if Py.truthy (Seed.Row.filter_definitions row)
      then Seed._refresh_filters site_id else Seed.ret tt)
       (Seed.Seeder.set_category_cache
          (<[category_key := category]> (Seed.Seeder.category_cache s1))
          (Seed.Seeder.set_sent (Seed.Seeder.sent s1 ++ [category_post]) s1))
     = (Ok tt, s3) ->
     Seed._ensure_category site_id (Seed.Row.category_name row)
       (Seed.Row.filter_definitions row) self = (Ok category, s3)) /\
  (Seed.Seeder.dry_run self = false ->
   forall key payload status body created id key' type,
     let filter_post :=
       Seed.build_request "POST" (Seed.Seeder.base_url self +:+ "/api/catalog/filters") None
         (Some payload) None 30 in
     Py.getitem definition "key" = Ok key ->
     Py.hashable key = true ->
     Seed.Seeder.filter_cache self !! Seed._filter_cache_key category_id key = None ->
     Seed.filter_payload site_id category_id definition = Ok payload ->
     urlopen (Seed.Seeder.sent self) filter_post = Response status body ->
     Seed.response_json (Seed.HttpResponse.mk status body) = Ok created ->
     Py.getitem created "id" = Ok id ->
     Py.getitem created "key" = Ok key' ->
     Py.getitem created "type" = Ok type ->
     Seed.ensure_definition site_id category_id definition self
     = (Ok tt,
        Seed.Seeder.set_filter_cache
          (<[Seed._filter_cache_key category_id key := Seed.CreatedFilter.mk id key' type]>
             (Seed.Seeder.filter_cache self))
          (Seed.Seeder.set_sent (Seed.Seeder.sent self ++ [filter_post]) self))).
Proof.
  intros slug site_key category_key.
  split; [ intros cached; apply ensure_site_cached | ].
  split; [ intros cached; apply ensure_category_cached | ].
  split.
  { intros key Hkey Hhash Hcached.
    destruct (ensure_definition_cached site_id category_id definition key self Hkey Hcached)
      as (r & Hrun & Hok).
    rewrite Hrun, (Hok Hhash). reflexivity. }
  split; [ intros Hdry Hmiss r self'; apply ensure_site_fetches_first; assumption | ].
  split; [ intros Hdry Hmiss r self'; apply ensure_category_fetches_first; assumption | ].
  split; [ intros Hdry Hsite r self'; apply ensure_filters_refresh_first; assumption | ].
  split.
  { intros Hdry Hmiss site s1 id. apply ensure_site_found; assumption. }
  split.
  { intros Hdry Hmiss found s1 body site s2 site_post Hfetch Hfalsy Hreply Hslug Hagain Htruthy.
    eapply ensure_site_conflict; eassumption. }
  split.
  { intros Hdry Hmiss s1 code body category_post.
    apply ensure_category_create_fails; assumption. }
  split.
  { intros Hdry key payload code body filter_post.
    apply ensure_definition_create_fails; assumption. }
  split.
  { intros Hdry Hmiss found s1 status body site id site_slug site_post
      Hfetch Hfalsy Hreply Hjson Hid Hslug Htruthy.
    eapply ensure_site_created; eassumption. }
  split.
  { intros Hdry Hmiss s1 status body category id s3 category_post
      Hexisting Hmiss1 Hreply Hjson Hid Hrefresh.
    eapply ensure_category_created; eassumption. }
  intros Hdry key payload status body created id key' type filter_post
    Hkey Hhash Hmiss Hpay Hreply Hjson Hid Hkey' Htype.
  eapply ensure_definition_created; eassumption.
Qed.

End SeederFacts.

(** ** The seeder on the samples *)

Example sample_row_normalized :
  Seed._normalize_row (py := Sample.py) Sample.raw_row = Ok Sample.row.
Proof. reflexivity. Qed.

Example sample_run_requests :
  let run := Seed.process_rows (py := Sample.py) (gw := Sample.gateway)
               [Sample.row; Sample.row] Sample.seeder in
  fst run = Ok tt /\
  map Sample.brief (Seed.Seeder.sent (snd run))
  = [("GET", "http://localhost:9000/api/sites/slug/acme");
     ("POST", "http://localhost:9000/api/sites");
     ("GET", "http://localhost:9000/api/catalog/products/categories");
     ("POST", "http://localhost:9000/api/catalog/products/categories");
     ("GET", "http://localhost:9000/api/catalog/filters");
     ("GET", "http://localhost:9000/api/catalog/filters");
     ("POST", "http://localhost:9000/api/catalog/filters");
     ("POST", "http://localhost:9000/api/catalog/products");
     ("POST", "http://localhost:9000/api/prices");
     ("POST", "http://localhost:9000/api/inventory");
     ("GET", "http://localhost:9000/api/catalog/filters");
     ("POST", "http://localhost:9000/api/catalog/products");
     ("POST", "http://localhost:9000/api/prices");
     ("POST", "http://localhost:9000/api/inventory")].
Proof. vm_compute. split; reflexivity. Qed.

Example sample_dry_run_sends_nothing :
  Seed.main (py := Sample.py) (gw := Sample.gateway) (csv := Sample.csv)
    (Seed.mk_args "data/seed-data.csv" Sample.base Sample.owner true)
  = (Ok tt, []).
Proof. vm_compute. reflexivity. Qed.

Lemma rows_are_validated_before_any_request_witness :
  let args := Seed.mk_args "data/broken.csv" Sample.base Sample.owner false in
  read_csv (CsvFiles := Sample.csv) (Seed.csv_path args)
  = Some [Sample.raw_row; Sample.raw_row_without_currency] /\
  nth_error [Sample.raw_row; Sample.raw_row_without_currency] 1
  = Some Sample.raw_row_without_currency /\
  Seed.lacks_required_field Sample.raw_row_without_currency /\
  exists j exc,
    (j <= 1)%nat /\
    Seed.load_rows (py := Sample.py) (csv := Sample.csv) (Seed.csv_path args)
    = Raise (ValueError ("Failed to parse CSV row " +:+ PyStr.of_Z (Z.of_nat j + 2)
                         +:+ ": " +:+ exn_str exc)) /\
    snd (Seed.main (py := Sample.py) (gw := Sample.gateway) (csv := Sample.csv) args) = [].
Proof.
  intros args.
  assert (Hfile : read_csv (CsvFiles := Sample.csv) (Seed.csv_path args)
                  = Some [Sample.raw_row; Sample.raw_row_without_currency])
    by reflexivity.
  assert (Hnth : nth_error [Sample.raw_row; Sample.raw_row_without_currency] 1
                 = Some Sample.raw_row_without_currency)
    by reflexivity.
  assert (Hlacks : Seed.lacks_required_field Sample.raw_row_without_currency).
  { left. exists "price_currency". split; [ | reflexivity ].
    do 12 right. left. reflexivity. }
  split; [ exact Hfile | ]. split; [ exact Hnth | ]. split; [ exact Hlacks | ].
  destruct (rows_are_validated_before_any_request
              (py := Sample.py) (gw := Sample.gateway) (csv := Sample.csv)
              args [Sample.raw_row; Sample.raw_row_without_currency] 1
              Sample.raw_row_without_currency Hfile Hnth Hlacks)
    as (j & bad & exc & Hle & _ & _ & _ & _ & Hload & _ & Hsent & _).
  exists j, exc. split; [ exact Hle | ]. split; [ exact Hload | exact Hsent ].
Defined.

Example sample_broken_file :
  Seed.main (py := Sample.py) (gw := Sample.gateway) (csv := Sample.csv)
    (Seed.mk_args "data/broken.csv" Sample.base Sample.owner false)
  = (Raise (ValueError
              "Failed to parse CSV row 3: price_amount and price_currency are required"),
     []).
Proof. vm_compute. reflexivity. Qed.

Lemma caches_prevent_duplicate_creation_witness :
  let self1 :=
    snd (Seed.process_rows (py := Sample.py) (gw := Sample.gateway)
           [Sample.row] Sample.seeder) in
  let self2 :=
    snd (Seed.process_rows (py := Sample.py) (gw := Sample.gateway) [Sample.row] self1) in
  Seed.process_rows (py := Sample.py) (gw := Sample.gateway) [Sample.row] self1
  = (Ok tt, self2) /\
  (exists cached,
      Seed.Seeder.site_cache self2 !! Seed.site_cache_key Sample.row = Some cached /\
      Seed._ensure_site (py := Sample.py) (gw := Sample.gateway) Sample.row self2
      = (Ok cached, self2)) /\
  (exists cached,
      Seed.Seeder.category_cache self2
      !! (py_str (py := Sample.py) (JStr "site-1"),
          PyStr.lower (Seed.Row.category_name Sample.row)) = Some cached /\
      Seed._ensure_category (py := Sample.py) (gw := Sample.gateway) (JStr "site-1")
        (Seed.Row.category_name Sample.row) (Seed.Row.filter_definitions Sample.row) self2
      = (Ok cached, self2)) /\
  (exists r,
      Seed.ensure_definition (py := Sample.py) (gw := Sample.gateway)
        (JStr "site-1") (JStr "cat-1") (JObj [("key", JStr "size"); ("type", JStr "TEXT")])
        self2 = (r, self2) /\
      (Py.hashable (JStr "size") = true -> r = Ok tt)).
Proof.
  intros self1 self2.
  assert (Hrun : Seed.process_rows (py := Sample.py) (gw := Sample.gateway) [Sample.row] self1
                 = (Ok tt, self2))
    by (vm_compute; reflexivity).
  destruct (caches_prevent_duplicate_creation
              (py := Sample.py) (gw := Sample.gateway) self1 self2 [Sample.row] Sample.row Hrun)
    as (_ & Hsite & Hcategory & Hfilter & _).
  split; [ exact Hrun | ].
  split; [ apply Hsite; vm_compute; eexists; reflexivity | ].
  split; [ apply (Hcategory (JStr "site-1")); vm_compute; eexists; reflexivity | ].
  apply (Hfilter (JStr "site-1") (JStr "cat-1")
           (JObj [("key", JStr "size"); ("type", JStr "TEXT")]) (JStr "size")).
  - reflexivity.
  - vm_compute. eexists. reflexivity.
Defined.

Lemma row_steps_in_order_witness :
  let done :=
    snd (Seed.process_row (py := Sample.py) (gw := Sample.gateway) Sample.row Sample.seeder) in
  Seed.process_row (py := Sample.py) (gw := Sample.gateway) Sample.row Sample.seeder
  = (Ok tt, done) /\
  exists site_id category_id assignments s3 product_id,
    Dict.get "productId" (Seed.price_payload product_id Sample.row)
    = Some (JStr product_id) /\
    Dict.get "productId" (Seed.inventory_payload product_id Sample.row)
    = Some (JStr product_id) /\
    Seed.Seeder.sent done
    = Seed.Seeder.sent s3
      ++ [Seed.build_request (py := Sample.py) "POST"
            (Seed.Seeder.base_url Sample.seeder +:+ "/api/catalog/products") None
            (Some (JObj (Seed.product_payload (py := Sample.py) site_id category_id
                           Sample.row assignments))) None 30;
          Seed.build_request (py := Sample.py) "POST"
            (Seed.Seeder.base_url Sample.seeder +:+ "/api/prices") None
            (Some (JObj (Seed.price_payload product_id Sample.row))) None 30;
          Seed.build_request (py := Sample.py) "POST"
            (Seed.Seeder.base_url Sample.seeder +:+ "/api/inventory") None
            (Some (JObj (Seed.inventory_payload product_id Sample.row))) None 30].
Proof.
  intros done.
  assert (Hrun : Seed.process_row (py := Sample.py) (gw := Sample.gateway)
                   Sample.row Sample.seeder = (Ok tt, done))
    by (vm_compute; reflexivity).
  split; [ exact Hrun | ].
  destruct (row_steps_in_order (py := Sample.py) (gw := Sample.gateway)
              Sample.row Sample.seeder done Hrun)
    as (site & s1 & site_id & category & s2 & category_id & assignments & s3 & product_id
        & s4 & s5 & _ & _ & _ & _ & _ & _ & _ & _ & _ & Hprice & Hinventory & Hlive & _).
  destruct (Hlive eq_refl) as (status & body & created & id & _ & _ & _ & _ & Hsent).
  exists site_id, category_id, assignments, s3, product_id.
  split; [ exact Hprice | ]. split; [ exact Hinventory | exact Hsent ].
Defined.

(** The site is the one entity whose refused creation is recovered from;
    the refused category and the refused filter are errors. *)
Lemma ensure_operations_flow_witness :
  let definition := JObj [("key", JStr "size"); ("type", JStr "TEXT")] in
  let filter_payload :=
    JObj [("siteId", JStr "site-1"); ("categoryId", JStr "cat-1");
          ("key", JStr "size"); ("type", JStr "TEXT");
          ("displayName", JNull); ("unit", JNull); ("values", JNull);
          ("minValue", JNull); ("maxValue", JNull)] in
  let s1 :=
    snd (Seed._fetch_site_by_slug (py := Sample.py) (gw := Sample.contended)
           "acme" Sample.seeder) in
  let site_post :=
    Seed.build_request (py := Sample.py) "POST" (Seed.Seeder.base_url s1 +:+ "/api/sites") None
      (Some (Seed.site_payload Sample.row))
      (Some [("X-Owner-Id", Seed.Seeder.owner_id s1)]) 30 in
  let s2 :=
    snd (Seed._fetch_site_by_slug (py := Sample.py) (gw := Sample.contended) "acme"
           (Seed.Seeder.set_sent (Seed.Seeder.sent s1 ++ [site_post]) s1)) in
  let c1 :=
    snd (Seed.cache_existing_categories (py := Sample.py) (gw := Sample.contended)
           (JStr "site-1") Sample.seeder) in
  let g1 :=
    snd (Seed._fetch_site_by_slug (py := Sample.py) (gw := Sample.gateway)
           "acme" Sample.seeder) in
  let g_site_post :=
    Seed.build_request (py := Sample.py) "POST" (Seed.Seeder.base_url g1 +:+ "/api/sites") None
      (Some (Seed.site_payload Sample.row))
      (Some [("X-Owner-Id", Seed.Seeder.owner_id g1)]) 30 in
  let k1 :=
    snd (Seed.cache_existing_categories (py := Sample.py) (gw := Sample.gateway)
           (JStr "site-1") Sample.seeder) in
  let k_post :=
    Seed.build_request (py := Sample.py) "POST"
      (Seed.Seeder.base_url k1 +:+ "/api/catalog/products/categories") None
      (Some (JObj [("siteId", JStr "site-1"); ("name", JStr "Shoes")])) None 30 in
  let k3 :=
    snd (Seed._refresh_filters (py := Sample.py) (gw := Sample.gateway) (JStr "site-1")
           (Seed.Seeder.set_category_cache
              (<[("site-1", "shoes") := Sample.category_doc]> (Seed.Seeder.category_cache k1))
              (Seed.Seeder.set_sent (Seed.Seeder.sent k1 ++ [k_post]) k1))) in
  let f_post :=
    Seed.build_request (py := Sample.py) "POST"
      (Seed.Seeder.base_url Sample.seeder +:+ "/api/catalog/filters") None
      (Some filter_payload) None 30 in
  (Seed._ensure_site (py := Sample.py) (gw := Sample.contended) Sample.row Sample.seeder
   = (Ok Sample.site_doc,
      Seed.Seeder.set_site_cache
        (<[Seed.site_cache_key Sample.row := Sample.site_doc]> (Seed.Seeder.site_cache s2)) s2)
   /\
   Seed._ensure_category (py := Sample.py) (gw := Sample.contended) (JStr "site-1")
     (Seed.Row.category_name Sample.row) (Seed.Row.filter_definitions Sample.row)
     Sample.seeder
   = (Raise (HttpError 409 "Category already exists"),
      Seed.Seeder.set_sent
        (Seed.Seeder.sent c1
         ++ [Seed.build_request (py := Sample.py) "POST"
               (Seed.Seeder.base_url c1 +:+ "/api/catalog/products/categories") None
               (Some (JObj [("siteId", JStr (py_str (py := Sample.py) (JStr "site-1")));
                            ("name", JStr (Seed.Row.category_name Sample.row))])) None 30])
        c1)
   /\
   fst (Seed.ensure_definition (py := Sample.py) (gw := Sample.contended)
          (JStr "site-1") (JStr "cat-1") definition Sample.seeder)
   = Raise (HttpError 409 "Filter already exists"))
  /\
  (Seed._ensure_site (py := Sample.py) (gw := Sample.gateway) Sample.row Sample.seeder
   = (Ok Sample.site_doc,
      Seed.Seeder.set_site_cache
        (<[Seed.site_cache_key Sample.row := Sample.site_doc]> (Seed.Seeder.site_cache g1))
        (Seed.Seeder.set_sent (Seed.Seeder.sent g1 ++ [g_site_post]) g1))
   /\
   Seed._ensure_category (py := Sample.py) (gw := Sample.gateway) (JStr "site-1")
     (Seed.Row.category_name Sample.row) (Seed.Row.filter_definitions Sample.row)
     Sample.seeder
   = (Ok Sample.category_doc, k3)
   /\
   Seed.ensure_definition (py := Sample.py) (gw := Sample.gateway)
     (JStr "site-1") (JStr "cat-1") definition Sample.seeder
   = (Ok tt,
      Seed.Seeder.set_filter_cache
        (<[Seed._filter_cache_key (py := Sample.py) (JStr "cat-1") (JStr "size")
           := Seed.CreatedFilter.mk (JStr "filter-1") (JStr "size") (JStr "TEXT")]>
           (Seed.Seeder.filter_cache Sample.seeder))
        (Seed.Seeder.set_sent (Seed.Seeder.sent Sample.seeder ++ [f_post]) Sample.seeder))).
Proof.
  intros definition filter_payload s1 site_post s2 c1 g1 g_site_post k1 k_post k3 f_post.
  split.
  - pose proof (ensure_operations_flow (py := Sample.py) (gw := Sample.contended)
                  Sample.row (JStr "site-1") (JStr "cat-1") definition Sample.seeder)
      as (_ & _ & _ & _ & _ & _ & _ & Hsite & Hcategory & Hfilter & _).
    split; [ | split ].
    + apply (Hsite eq_refl eq_refl JNull s1 "Slug already exists" Sample.site_doc s2);
        reflexivity.
    + apply (Hcategory eq_refl eq_refl c1 409 "Category already exists"); reflexivity.
    + rewrite (Hfilter eq_refl (JStr "size") filter_payload 409 "Filter already exists");
        reflexivity.
  - pose proof (ensure_operations_flow (py := Sample.py) (gw := Sample.gateway)
                  Sample.row (JStr "site-1") (JStr "cat-1") definition Sample.seeder)
      as (_ & _ & _ & _ & _ & _ & _ & _ & _ & _ & Hsite & Hcategory & Hfilter).
    split; [ | split ].
    + apply (Hsite eq_refl eq_refl JNull g1 201 (JsonDump.dumps Sample.site_doc)
               Sample.site_doc (JStr "site-1") (JStr "acme"));
        reflexivity.
    + apply (Hcategory eq_refl eq_refl k1 201 (JsonDump.dumps Sample.category_doc)
               Sample.category_doc (JStr "cat-1") k3);
        reflexivity.
    + apply (Hfilter eq_refl (JStr "size") filter_payload 201
               (JsonDump.dumps Sample.filter_doc) Sample.filter_doc
               (JStr "filter-1") (JStr "size") (JStr "TEXT"));
        reflexivity.
Defined.

(** C1. Where the code leaves the flow of the claim: a creation the
    gateway refuses. On the contended gateway the site, the category and
    the filter come to exist between the fetch and the creation. The site,
    whose creation is refused with status 400 for its slug, is fetched
    again by [_ensure_site], returned and cached. The category and the
    filter, whose creations are refused with status 409, are not fetched
    again: [_ensure_category] and [_ensure_filter_definitions] raise the
    HTTP error to the caller, the refused creation is the last request they
    send, nothing is cached, and the row that needs them fails. *)
Theorem only_sites_recover_from_conflicts :
  let site_run :=
    Seed._ensure_site (py := Sample.py) (gw := Sample.contended) Sample.row Sample.seeder in
  let category_run :=
    Seed._ensure_category (py := Sample.py) (gw := Sample.contended) (JStr "site-1")
      "Shoes" Sample.filter_definitions Sample.seeder in
  let filter_run :=
    Seed._ensure_filter_definitions (py := Sample.py) (gw := Sample.contended)
      (JStr "site-1") (JStr "cat-1") Sample.filter_definitions Sample.seeder in
  let row_run :=
    Seed.process_rows (py := Sample.py) (gw := Sample.contended) [Sample.row] Sample.seeder in
  (fst site_run = Ok Sample.site_doc /\
   map Sample.brief (Seed.Seeder.sent (snd site_run))
   = [("GET", "http://localhost:9000/api/sites/slug/acme");
      ("POST", "http://localhost:9000/api/sites");
      ("GET", "http://localhost:9000/api/sites/slug/acme")] /\
   Seed.Seeder.site_cache (snd site_run) !! "acme" = Some Sample.site_doc) /\
  (fst category_run = Raise (HttpError 409 "Category already exists") /\
   map Sample.brief (Seed.Seeder.sent (snd category_run))
   = [("GET", "http://localhost:9000/api/catalog/products/categories");
      ("POST", "http://localhost:9000/api/catalog/products/categories")] /\
   Seed.Seeder.category_cache (snd category_run) = ∅) /\
  (fst filter_run = Raise (HttpError 409 "Filter already exists") /\
   map Sample.brief (Seed.Seeder.sent (snd filter_run))
   = [("POST", "http://localhost:9000/api/catalog/filters")] /\
   Seed.Seeder.filter_cache (snd filter_run) = ∅) /\
  fst row_run = Raise (HttpError 409 "Category already exists").
Proof. vm_compute. repeat split; reflexivity. Qed.

(** * Further properties *)

(** ** Dictionaries in insertion order *)

Section DictFacts.
Context {V : Type}.

Lemma dict_set_In (k : string) (v : V) (d : list (string * V)) (k' : string) (v' : V) :
  In (k', v') (Dict.set k v d) -> (k' = k /\ v' = v) \/ In (k', v') d.
Proof.
  induction d as [ | [k0 v0] d IH ]; simpl.
  - intros [H | []]. injection H as <- <-. left. split; reflexivity.
  - destruct (String.eqb k k0) eqn:Hk.
    + intros [H | H]; [ injection H as <- <-; left; split; reflexivity | right; right; exact H ].
    + intros [H | H]; [ right; left; exact H | ].
      destruct (IH H) as [Hnew | Hold]; [ left; exact Hnew | right; right; exact Hold ].
Qed.

Lemma dict_set_keys (k : string) (v : V) (d : list (string * V)) (k' : string) :
  In k' (map fst (Dict.set k v d)) <-> k' = k \/ In k' (map fst d).
Proof.
  induction d as [ | [k0 v0] d IH ]; simpl.
  - split; intros [H | H]; auto.
  - destruct (String.eqb k k0) eqn:Hk; simpl.
    + apply String.eqb_eq in Hk. subst k0. split; [ intros [H | H]; auto | ].
      intros [H | [H | H]]; auto.
    + rewrite IH. split; [ intros [H | [H | H]]; auto | intros [H | [H | H]]; auto ].
Qed.

(** Setting a key keeps the keys of a dictionary all different. *)
Lemma dict_set_NoDup (k : string) (v : V) (d : list (string * V)) :
  List.NoDup (map fst d) -> List.NoDup (map fst (Dict.set k v d)).
Proof.
  induction d as [ | [k0 v0] d IH ]; simpl; intros Hnd.
  - constructor; [ intros [] | constructor ].
  - apply List.NoDup_cons_iff in Hnd as [Hnotin Hnd].
    destruct (String.eqb k k0) eqn:Hk; simpl.
    + apply String.eqb_eq in Hk. subst k0. constructor; assumption.
    + constructor; [ | apply IH; exact Hnd ].
      rewrite dict_set_keys. intros [Heq | Hin]; [ | contradiction ].
      subst k0. rewrite String.eqb_refl in Hk. discriminate.
Qed.

(** In a dictionary whose keys are all different, a key has the value it
    is listed with. *)
Lemma dict_get_In (k : string) (v : V) (d : list (string * V)) :
  List.NoDup (map fst d) -> (Dict.get k d = Some v <-> In (k, v) d).
Proof.
  induction d as [ | [k0 v0] d IH ]; simpl; intros Hnd.
  - split; [ discriminate | contradiction ].
  - apply List.NoDup_cons_iff in Hnd as [Hnotin Hnd].
    destruct (String.eqb k k0) eqn:Hk.
    + apply String.eqb_eq in Hk. subst k0. split.
      * intros H. injection H as <-. left. reflexivity.
      * intros [H | H]; [ injection H as <-; reflexivity | ].
        exfalso. apply Hnotin. apply (in_map fst) in H. exact H.
    + rewrite (IH Hnd). split; [ intros H; right; exact H | ].
      intros [H | H]; [ | exact H ].
      injection H as <- <-. rewrite String.eqb_refl in Hk. discriminate.
Qed.

Lemma dict_get_None (k : string) (d : list (string * V)) :
  Dict.get k d = None <-> ~ In k (map fst d).
Proof.
  induction d as [ | [k0 v0] d IH ]; simpl.
  - split; [ intros _ [] | reflexivity ].
  - destruct (String.eqb k k0) eqn:Hk.
    + apply String.eqb_eq in Hk. subst k0. split; [ discriminate | ].
      intros H. exfalso. apply H. left. reflexivity.
    + rewrite IH. split; [ intros H [Heq | Hin]; [ | contradiction ] | tauto ].
      subst k0. rewrite String.eqb_refl in Hk. discriminate.
Qed.

End DictFacts.

(** ** The submodules *)

Section SubmoduleFacts.
Context {sp : Subprocess}.

Lemma lstrip_by_head (p : ascii -> bool) (s : string) (c : ascii) (s' : string) :
  PyStr.lstrip_by p s = String c s' -> p c = false.
Proof.
  induction s as [ | c0 s IH ]; simpl; [ discriminate | ].
  destruct (p c0) eqn:Hc0; [ exact IH | ].
  intros H. injection H as <- _. exact Hc0.
Qed.

Lemma lstrip_signs_clean (s : string) :
  PyStr.is_prefix "+" (PyStr.lstrip_chars "+-" s) = false /\
  PyStr.is_prefix "-" (PyStr.lstrip_chars "+-" s) = false.
Proof.
  unfold PyStr.lstrip_chars.
  destruct (PyStr.lstrip_by _ s) as [ | c s' ] eqn:Hstrip; [ split; reflexivity | ].
  apply lstrip_by_head in Hstrip. cbn [PyStr.mem_char] in Hstrip.
  apply orb_false_elim in Hstrip as [Hplus Hrest].
  apply orb_false_elim in Hrest as [Hminus _].
  change (PyStr.is_prefix "+" (String c s')) with (Ascii.eqb "+" c && true).
  change (PyStr.is_prefix "-" (String c s')) with (Ascii.eqb "-" c && true).
  rewrite (Ascii.eqb_sym "+" c), (Ascii.eqb_sym "-" c), Hplus, Hminus.
  split; reflexivity.
Qed.

Lemma words_aux_not_empty (s cur w : string) :
  In w (PyStr.words_aux s cur) -> w <> "".
Proof.
  revert cur. induction s as [ | c s IH ]; simpl; intros cur Hin.
  - destruct cur; [ contradiction | ]. destruct Hin as [<- | []]. discriminate.
  - destruct (PyStr.is_space c).
    + destruct cur; [ apply (IH _ Hin) | ].
      destruct Hin as [<- | Hin]; [ discriminate | apply (IH _ Hin) ].
    + apply (IH _ Hin).
Qed.

Lemma fold_status_raise (lines : list string) (e : exn) :
  fold_left Lock.status_line lines (Raise e) = Raise e.
Proof. induction lines as [ | line lines IH ]; simpl; [ reflexivity | exact IH ]. Qed.

Lemma fold_status_clean (lines : list string) :
  forall acc commits,
    clean_commits acc ->
    fold_left Lock.status_line lines (Ok acc) = Ok commits ->
    clean_commits commits.
Proof.
  induction lines as [ | line lines IH ]; simpl; intros acc commits Hacc Hrun.
  - injection Hrun as <-. exact Hacc.
  - destruct (negb (Py.truthy_str line)); [ apply (IH _ _ Hacc Hrun) | ].
    destruct (PyStr.words (PyStr.strip line)) as [ | sha [ | path rest ] ] eqn:Hwords;
      try (rewrite fold_status_raise in Hrun; discriminate).
    apply (IH (Dict.set path (PyStr.lstrip_chars "+-" sha) acc) commits); [ | exact Hrun ].
    destruct Hacc as [Hnd Hall]. split; [ apply dict_set_NoDup; exact Hnd | ].
    intros p s Hin. apply dict_set_In in Hin as [[-> ->] | Hin]; [ | apply (Hall _ _ Hin) ].
    split; [ | apply lstrip_signs_clean ].
    apply (words_aux_not_empty (PyStr.strip line) "").
    unfold PyStr.words in Hwords. rewrite Hwords. right. left. reflexivity.
Qed.

(** X1. The mapping of the submodules has every path once, no path is empty,
    and no commit keeps a sign of [git submodule status] in front. *)
Theorem list_submodules_clean (root : string) (scope : list string)
    (commits : list (string * string)) :
  Lock.list_submodules root scope = Ok commits ->
  List.NoDup (map fst commits) /\
  forall path sha, In (path, sha) commits ->
    path <> "" /\ PyStr.is_prefix "+" sha = false /\ PyStr.is_prefix "-" sha = false.
Proof.
  unfold Lock.list_submodules.
  destruct (Lock.run_git_command _ root) as [ status | e ]; [ simpl | discriminate ].
  apply fold_status_clean. split; [ constructor | intros path sha [] ].
Qed.

Lemma fold_status_short_line (lines : list string) (line : string) :
  forall acc,
    (forall e, acc = Raise e -> e = IndexError "list index out of range") ->
    In line lines -> line <> "" ->
    (length (PyStr.words (PyStr.strip line)) < 2)%nat ->
    fold_left Lock.status_line lines acc = Raise (IndexError "list index out of range").
Proof.
  induction lines as [ | l lines IH ]; simpl; intros acc Hacc Hin Hne Hshort; [ contradiction | ].
  assert (Hnext : forall e, Lock.status_line acc l = Raise e ->
                            e = IndexError "list index out of range").
  { intros e. destruct acc as [ known | e0 ]; simpl.
    - destruct (negb (Py.truthy_str l)); [ discriminate | ].
      destruct (PyStr.words (PyStr.strip l)) as [ | sha [ | path rest ] ];
        try discriminate; intros H; injection H as <-; reflexivity.
    - intros H. injection H as <-. apply Hacc. reflexivity. }
  destruct Hin as [-> | Hin]; [ | apply IH; assumption ].
  assert (Hfail : Lock.status_line acc line = Raise (IndexError "list index out of range")).
  { destruct acc as [ known | e0 ]; simpl.
    - assert (Htruthy : Py.truthy_str line = true).
      { unfold Py.truthy_str. destruct (String.eqb line "") eqn:Heq; [ | reflexivity ].
        apply String.eqb_eq in Heq. contradiction. }
      rewrite Htruthy. simpl.
      destruct (PyStr.words (PyStr.strip line)) as [ | sha [ | path rest ] ];
        [ reflexivity | reflexivity | simpl in Hshort; lia ].
    - f_equal. apply Hacc. reflexivity. }
  rewrite Hfail. apply fold_status_raise.
Qed.

(** X2. A line of the status that is not empty and has fewer than two words
    makes [list_submodules] raise an [IndexError]: a line of white space,
    or a commit without a path. *)
Theorem list_submodules_short_line (root : string) (scope : list string)
    (status line : string) :
  Lock.run_git_command (["submodule"; "status"; "--recursive"] ++ scope) root = Ok status ->
  In line (PyStr.splitlines status) ->
  line <> "" ->
  (length (PyStr.words (PyStr.strip line)) < 2)%nat ->
  Lock.list_submodules root scope = Raise (IndexError "list index out of range").
Proof.
  intros Hgit Hin Hne Hshort. unfold Lock.list_submodules. rewrite Hgit. simpl.
  apply (fold_status_short_line _ line); [ discriminate | assumption .. ].
Qed.

End SubmoduleFacts.

(** ** The payload of the lock *)

Section PayloadFacts.
Context {sp : Subprocess}.

Lemma image_mapping_unique_keys (image : Lock.ImageMetadata.t) :
  Doc.unique_keys (JObj (Lock.ImageMetadata.to_mapping image)).
Proof.
  unfold Lock.ImageMetadata.to_mapping.
  destruct (Lock.ImageMetadata.tag image) as [ t | ];
    destruct (Lock.ImageMetadata.digest image) as [ d | ];
    try destruct (Py.truthy_str t); try destruct (Py.truthy_str d); simpl;
    (constructor; [ repeat constructor; simpl; intuition discriminate | repeat constructor ]).
Qed.

Lemma lock_mapping_unique_keys (lock : Lock.ServiceLock.t) :
  Doc.unique_keys (JObj (Lock.ServiceLock.to_mapping lock)).
Proof.
  pose proof (image_mapping_unique_keys (Lock.ServiceLock.image lock)) as Himage.
  unfold Lock.ServiceLock.to_mapping.
  destruct (Lock.ServiceLock.notes lock) as [ n | ]; try destruct (Py.truthy_str n); simpl;
    (constructor;
     [ repeat constructor; simpl; intuition discriminate
     | repeat (constructor; [ first [ exact Himage | constructor ] | ]); constructor ]).
Qed.

Lemma services_payload_NoDup (locks : gmap string Lock.ServiceLock.t) :
  List.NoDup (map fst (Lock.services_payload locks)).
Proof.
  unfold Lock.services_payload. rewrite map_map. simpl.
  eapply Permutation_NoDup.
  - apply Permutation_map, Permutation_sym, sorted_items_perm.
  - apply NoDup_ListNoDup, NoDup_fst_map_to_list.
Qed.

Lemma services_payload_In (locks : gmap string Lock.ServiceLock.t) (name : string) (v : json) :
  In (name, v) (Lock.services_payload locks) <->
  exists lock, locks !! name = Some lock /\ v = JObj (Lock.ServiceLock.to_mapping lock).
Proof.
  unfold Lock.services_payload. rewrite in_map_iff. split.
  - intros ([k lock] & Heq & Hin). simpl in Heq. injection Heq as <- <-.
    eapply Permutation_in in Hin; [ | apply sorted_items_perm ].
    apply list_elem_of_In, elem_of_map_to_list in Hin. eauto.
  - intros (lock & Hlock & ->). exists (name, lock). split; [ reflexivity | ].
    eapply Permutation_in; [ apply Permutation_sym, sorted_items_perm | ].
    apply list_elem_of_In, elem_of_map_to_list. exact Hlock.
Qed.

(** X3. Looking a service up in the services of the payload gives the mapping
    of its lock, and nothing for a name that has no lock. *)
Theorem services_payload_lookup (locks : gmap string Lock.ServiceLock.t) (name : string) :
  Dict.get name (Lock.services_payload locks)
  = option_map (fun lock => JObj (Lock.ServiceLock.to_mapping lock)) (locks !! name).
Proof.
  destruct (locks !! name) as [ lock | ] eqn:Hlock; simpl.
  - apply dict_get_In; [ apply services_payload_NoDup | ].
    apply services_payload_In. eauto.
  - apply dict_get_None. intros Hin. apply in_map_iff in Hin as ([k v] & Hk & Hin).
    simpl in Hk. subst k. apply services_payload_In in Hin as (lock & Hsome & _). congruence.
Qed.

(** X4. Every payload the generator assembles is a well-formed document: no
    dictionary in it has a key twice. So the text of the lock does not
    depend on the order its dictionaries were filled in. The payload has
    the metadata, with the time and the generator it was given, and the
    services. *)
Theorem build_lock_payload_well_formed
    (root : string) (services_filter : option (list string))
    (image_metadata : gmap string Lock.ImageMetadata.t)
    (generator_id generated_at default_registry : string)
    (default_tag_prefix : option string) (payload : json) :
  Lock.build_lock_payload root services_filter image_metadata generator_id generated_at
    default_registry default_tag_prefix = Ok payload ->
  Doc.unique_keys payload /\
  (forall other, Doc.same_payload payload other ->
                 JsonDump.dumps payload = JsonDump.dumps other) /\
  exists metadata locks,
    Lock.build_service_locks root ["services"; "infra"] image_metadata services_filter
      default_registry default_tag_prefix = Ok locks /\
    payload = JObj [("metadata", JObj metadata);
                    ("services", JObj (Lock.services_payload locks))] /\
    Dict.keys metadata = ["generated_at"; "generator"; "source_branch"; "commit"] /\
    Dict.get "generated_at" metadata = Some (JStr generated_at) /\
    Dict.get "generator" metadata = Some (JStr generator_id).
Proof.
  unfold Lock.build_lock_payload.
  destruct (Lock.build_service_locks _ _ _ _ _ _) as [ locks | ]; [ simpl | discriminate ].
  destruct (Lock.run_git_command _ root) as [ branch | ]; [ simpl | discriminate ].
  destruct (Lock.run_git_command _ root) as [ commit | ]; [ simpl | discriminate ].
  intros H. injection H as <-.
  assert (Huk : Doc.unique_keys
                  (JObj [("metadata",
                          JObj [("generated_at", JStr generated_at);
                                ("generator", JStr generator_id);
                                ("source_branch", JStr branch); ("commit", JStr commit)]);
                         ("services", JObj (Lock.services_payload locks))])).
  { constructor; [ repeat constructor; simpl; intuition discriminate | ].
    constructor; [ | constructor; [ | constructor ] ]; simpl.
    - constructor; [ repeat constructor; simpl; intuition discriminate | repeat constructor ].
    - constructor; [ apply services_payload_NoDup | ].
      apply List.Forall_forall. intros [name v] Hin. simpl.
      apply services_payload_In in Hin as (lock & _ & ->). apply lock_mapping_unique_keys. }
  split; [ exact Huk | ]. split.
  { intros other Hsame. apply encode_same_payload; assumption. }
  eexists. exists locks. repeat split; reflexivity.
Qed.

End PayloadFacts.

(** ** What writing the lock leaves alone *)

Section DumpFrame.

Lemma mkdir_each_frame (p : FS.path) (qs : list FS.path) :
  forall (fs : gmap (list string) FS.node) r (fs' : gmap (list string) FS.node),
    FS.mkdir_each p qs fs = (r, fs') ->
    forall q, is_Some (fs !! q) \/ ~ In q qs -> fs' !! q = fs !! q.
Proof.
  induction qs as [ | q0 qs IH ]; simpl; intros fs r fs' Hrun q Hq.
  - injection Hrun as _ <-. reflexivity.
  - destruct (fs !! q0) as [ [ c | ] | ] eqn:Hq0.
    + destruct (bool_decide (q0 = p)); injection Hrun as _ <-; reflexivity.
    + apply (IH _ _ _ Hrun). destruct Hq as [Hq | Hq]; [ left; exact Hq | right; tauto ].
    + assert (Hne : q0 <> q).
      { intros ->. destruct Hq as [[x Hx] | Hq]; [ congruence | apply Hq; left; reflexivity ]. }
      rewrite (IH _ _ _ Hrun q).
      * apply lookup_insert_ne. exact Hne.
      * destruct Hq as [Hq | Hq]; [ left | right; tauto ].
        rewrite lookup_insert_ne by exact Hne. exact Hq.
Qed.

(** X5. Whatever comes of it, [dump_lock] changes no file and no directory
    that exists, the output apart, and nothing outside the output and the
    directories above it; and when it raises, the output is as it was. *)
Theorem dump_lock_keeps_what_exists
    (payload : json) (output : FS.path) (force : bool)
    (fs : gmap (list string) FS.node) (r : result FS.path)
    (fs' : gmap (list string) FS.node) :
  Lock.dump_lock payload output force fs = (r, fs') ->
  (forall q, q <> output -> is_Some (fs !! q) -> fs' !! q = fs !! q) /\
  (forall q, q <> output -> ~ In q (FS.prefixes (FS.parent output)) -> fs' !! q = fs !! q) /\
  (forall e, r = Raise e -> fs' !! output = fs !! output).
Proof.
  unfold Lock.dump_lock.
  destruct (FS.exists_ fs output && negb force).
  { intros H. injection H as _ <-. repeat split; reflexivity. }
  unfold FS.mkdir_parents.
  destruct (FS.mkdir_each (FS.parent output) (FS.prefixes (FS.parent output)) fs)
    as [made fs1] eqn:Hmk.
  pose proof (mkdir_each_frame _ _ _ _ _ Hmk) as Hframe.
  assert (Hout : fs1 !! output = fs !! output).
  { apply Hframe. right. intros Hin. apply (output_not_above_itself output output Hin).
    reflexivity. }
  destruct made as [ [] | e ].
  - unfold FS.write_text.
    destruct (FS.is_dir fs1 output);
      [ intros H; injection H as <- <-;
        split; [ intros q _ Hq; apply Hframe; left; exact Hq | ];
        split; [ intros q _ Hq; apply Hframe; right; exact Hq | intros e _; exact Hout ] | ].
    destruct (FS.is_dir fs1 (FS.parent output)).
    + intros H. injection H as <- <-.
      split; [ intros q Hne Hq; rewrite lookup_insert_ne by auto; apply Hframe; left; exact Hq | ].
      split; [ intros q Hne Hq; rewrite lookup_insert_ne by auto; apply Hframe; right; exact Hq | ].
      intros e He. discriminate.
    + destruct (FS.exists_ fs1 (FS.parent output)); intros H; injection H as <- <-;
        (split; [ intros q _ Hq; apply Hframe; left; exact Hq | ]);
        (split; [ intros q _ Hq; apply Hframe; right; exact Hq | intros e _; exact Hout ]).
  - intros H. injection H as <- <-.
    split; [ intros q _ Hq; apply Hframe; left; exact Hq | ].
    split; [ intros q _ Hq; apply Hframe; right; exact Hq | intros e' _; exact Hout ].
Qed.

End DumpFrame.

(** ** The image metadata *)

Section MetadataFacts.
Context {py : PyLib} {sp : Subprocess}.

Lemma fold_metadata_raise (fields : list (string * json)) (e : exn) :
  fold_left Lock.metadata_step fields (Raise e) = Raise e.
Proof. induction fields as [ | entry fields IH ]; simpl; [ reflexivity | exact IH ]. Qed.

Lemma fold_metadata_none (fields : list (string * json)) :
  forall md, fold_left Lock.metadata_step fields (Ok None) <> Ok (Some md).
Proof.
  induction fields as [ | [service details] fields IH ]; simpl; intros md; [ discriminate | ].
  destruct (Py.get details "repository") as [ repository | e ]; simpl;
    [ | rewrite fold_metadata_raise; discriminate ].
  destruct (negb (Py.truthy repository)); [ rewrite fold_metadata_raise; discriminate | ].
  destruct (Py.get details "tag") as [ tag | e ]; simpl;
    [ | rewrite fold_metadata_raise; discriminate ].
  destruct (Py.get details "digest") as [ digest | e ]; simpl;
    [ | rewrite fold_metadata_raise; discriminate ].
  destruct (Py.get details "tag_prefix") as [ tag_prefix | e ]; simpl;
    [ | rewrite fold_metadata_raise; discriminate ].
  apply IH.
Qed.

Lemma fold_metadata_repository (fields : list (string * json)) :
  forall (known md : gmap string Lock.ImageMetadata.t),
    (forall name entry, known !! name = Some entry ->
                        Lock.ImageMetadata.repository entry <> "") ->
    fold_left Lock.metadata_step fields (Ok (Some known)) = Ok (Some md) ->
    forall name entry, md !! name = Some entry -> Lock.ImageMetadata.repository entry <> "".
Proof.
  induction fields as [ | [service details] fields IH ]; simpl; intros known md Hknown Hfold.
  - injection Hfold as <-. exact Hknown.
  - destruct (Py.get details "repository") as [ repository | e ]; simpl in Hfold;
      [ | rewrite fold_metadata_raise in Hfold; discriminate ].
    destruct (negb (Py.truthy repository)) eqn:Htruthy;
      [ rewrite fold_metadata_raise in Hfold; discriminate | ].
    destruct (Py.get details "tag") as [ tag | e ]; simpl in Hfold;
      [ | rewrite fold_metadata_raise in Hfold; discriminate ].
    destruct (Py.get details "digest") as [ digest | e ]; simpl in Hfold;
      [ | rewrite fold_metadata_raise in Hfold; discriminate ].
    destruct (Py.get details "tag_prefix") as [ tag_prefix | e ]; simpl in Hfold;
      [ | rewrite fold_metadata_raise in Hfold; discriminate ].
    destruct repository as [ | | | | r | | ];
      try (exfalso; exact (fold_metadata_none _ _ Hfold)).
    destruct (Lock.optional_text tag) as [ t | ];
      [ | exfalso; exact (fold_metadata_none _ _ Hfold) ].
    destruct (Lock.optional_text digest) as [ d | ];
      [ | exfalso; exact (fold_metadata_none _ _ Hfold) ].
    destruct (Lock.optional_text tag_prefix) as [ p | ];
      [ | exfalso; exact (fold_metadata_none _ _ Hfold) ].
    refine (IH _ _ _ Hfold). intros name entry Hlook.
    destruct (decide (service = name)) as [ <- | Hne ].
    + rewrite lookup_insert_eq in Hlook. injection Hlook as <-. simpl.
      simpl in Htruthy. intros ->. discriminate.
    + rewrite lookup_insert_ne in Hlook by exact Hne. eapply Hknown. exact Hlook.
Qed.

Lemma loaded_metadata_repository
    (path : option FS.path) (fs : gmap (list string) FS.node)
    (md : gmap string Lock.ImageMetadata.t) :
  Lock.load_image_metadata path fs = Ok (Some md) ->
  forall name entry, md !! name = Some entry -> Lock.ImageMetadata.repository entry <> "".
Proof.
  unfold Lock.load_image_metadata. destruct path as [ p | ].
  - destruct (negb (FS.exists_ fs p)); [ discriminate | ].
    destruct (FS.read_text p fs) as [ text | ]; [ simpl | discriminate ].
    destruct (json_loads text) as [ data | ]; [ simpl | discriminate ].
    destruct (Py.items data) as [ fields | ]; [ simpl | discriminate ].
    apply fold_metadata_repository. intros name entry Hlook.
    rewrite lookup_empty in Hlook. discriminate.
  - intros H. injection H as <-. intros name entry Hlook.
    rewrite lookup_empty in Hlook. discriminate.
Qed.

Lemma append_slash_not_empty (registry name : string) : registry +:+ "/" +:+ name <> "".
Proof. destruct registry; discriminate. Qed.

(** X6. Every lock built from loaded image metadata is well formed: it lies
    under the name of its submodule, the path of which is not empty; its
    commit has no marker of the status left in front; its image has a
    repository that is not empty, a tag, and no tag prefix; and it has no
    notes. *)
Theorem built_locks_are_well_formed
    (path : option FS.path) (fs : gmap (list string) FS.node)
    (md : gmap string Lock.ImageMetadata.t)
    (root : string) (scope : list string) (services_filter : option (list string))
    (registry : string) (prefix : option string)
    (locks : gmap string Lock.ServiceLock.t) (name : string) (lock : Lock.ServiceLock.t) :
  Lock.load_image_metadata path fs = Ok (Some md) ->
  Lock.build_service_locks root scope md services_filter registry prefix = Ok locks ->
  locks !! name = Some lock ->
  Lock.path_name (Lock.ServiceLock.submodule_path lock) = name /\
  Lock.ServiceLock.submodule_path lock <> "" /\
  PyStr.is_prefix "+" (Lock.ServiceLock.git_sha lock) = false /\
  PyStr.is_prefix "-" (Lock.ServiceLock.git_sha lock) = false /\
  Lock.ImageMetadata.repository (Lock.ServiceLock.image lock) <> "" /\
  is_Some (Lock.ImageMetadata.tag (Lock.ServiceLock.image lock)) /\
  Lock.ImageMetadata.tag_prefix (Lock.ServiceLock.image lock) = None /\
  Lock.ServiceLock.notes lock = None.
Proof.
  intros Hload Hbuild Hlook.
  destruct (built_lock_origin _ _ _ _ _ _ _ _ _ Hbuild Hlook)
    as (commits & p & sha & Hlist & Hin & Hname & _ & ->).
  destruct (list_submodules_clean _ _ _ Hlist) as [_ Hclean].
  destruct (Hclean _ _ Hin) as (Hpath & Hplus & Hminus).
  unfold Lock.lock_for. simpl.
  repeat (split; [ assumption | ]).
  split; [ | split; [ | split; reflexivity ] ].
  - unfold Lock.image_for.
    destruct (md !! Lock.path_name p) as [ found | ] eqn:Hfound; simpl.
    + eapply loaded_metadata_repository; eassumption.
    + apply append_slash_not_empty.
  - unfold Lock.final_tag.
    destruct (Py.truthy_opt_str _); [ eauto | ].
    destruct (Lock.ImageMetadata.tag _); eauto.
Qed.

Lemma fold_metadata_goes_on (fields : list (string * json)) :
  Forall (fun entry => exists v, Py.get (snd entry) "repository" = Ok v /\ Py.truthy v = true)
         fields ->
  forall acc, exists acc', fold_left Lock.metadata_step fields (Ok acc) = Ok acc'.
Proof.
  induction 1 as [ | [service details] fields (v & Hget & Htruthy) _ IH ]; simpl; intros acc.
  - eauto.
  - simpl in Hget. rewrite Hget. simpl. rewrite Htruthy. simpl.
    destruct details as [ | | | | | | members ]; try discriminate. simpl.
    destruct (Dict.get "tag" members); destruct (Dict.get "digest" members);
      destruct (Dict.get "tag_prefix" members); simpl; apply IH.
Qed.

(** X7. The first service of the file without a repository, or with an empty
    one, makes [load_image_metadata] raise the [ValueError] that names
    it. *)
Theorem load_image_metadata_missing_repository
    (p : FS.path) (fs : gmap (list string) FS.node) (text : string)
    (before after : list (string * json)) (service : string) (details v : json) :
  FS.exists_ fs p = true ->
  FS.read_text p fs = Ok text ->
  json_loads text = Ok (JObj (before ++ (service, details) :: after)) ->
  Forall (fun entry => exists v, Py.get (snd entry) "repository" = Ok v /\ Py.truthy v = true)
         before ->
  Py.get details "repository" = Ok v ->
  Py.truthy v = false ->
  Lock.load_image_metadata (Some p) fs
  = Raise (ValueError ("Missing repository for service '" +:+ service +:+ "'")).
Proof.
  intros Hexists Hread Hloads Hbefore Hget Hfalsy.
  unfold Lock.load_image_metadata. rewrite Hexists, Hread. simpl. rewrite Hloads. simpl.
  rewrite fold_left_app.
  destruct (fold_metadata_goes_on before Hbefore (Some ∅)) as (acc & ->).
  simpl. rewrite Hget. simpl. rewrite Hfalsy. simpl. apply fold_metadata_raise.
Qed.

(** X8. What a run of the script does to the files. It changes no file and
    no directory that exists, the output apart; a run that fails leaves
    the output as it was; and a run returns no other code than 0, and
    then the output holds the text of a well-formed payload, built from
    the loaded image metadata. *)
Theorem generate_lock_main_effects
    (args : GenerateLock.Args) (repo_root generated_at stamp : string)
    (fs : gmap (list string) FS.node) (r : result Z) (fs' : gmap (list string) FS.node) :
  GenerateLock.main args repo_root generated_at stamp fs = Some (r, fs') ->
  let out := match GenerateLock.output args with
             | Some given => given
             | None => ["locks"; "lock-" +:+ stamp +:+ ".yml"]
             end in
  (forall q, q <> out -> is_Some (fs !! q) -> fs' !! q = fs !! q) /\
  (forall e, r = Raise e -> fs' !! out = fs !! out) /\
  (forall code, r = Ok code ->
     code = 0 /\
     (FS.exists_ fs out = false \/ GenerateLock.force args = true) /\
     exists loaded payload,
       Lock.load_image_metadata (GenerateLock.image_metadata args) fs = Ok (Some loaded) /\
       Lock.build_lock_payload repo_root (GenerateLock.services args) loaded
         "generate_lock.py@v1" generated_at
         (PyStr.rstrip_chars "/" (GenerateLock.default_registry args))
         (match GenerateLock.default_tag_prefix args with
          | Some "" | None => None
          | Some prefix => Some prefix
          end) = Ok payload /\
       Doc.unique_keys payload /\
       fs' !! out
       = Some (FS.File (JsonDump.dumps payload +:+ String (ascii_of_N 10) EmptyString))).
Proof.
  intros Hmain out. unfold GenerateLock.main, Lock.default_output_path in Hmain.
  destruct (Lock.load_image_metadata _ fs) as [ [ loaded | ] | e ] eqn:Hload;
    [ | discriminate | injection Hmain as <- <-; repeat split; try reflexivity; discriminate ].
  assert (Hprefix :
            match GenerateLock.default_tag_prefix args with
            | Some prefix => if Py.truthy_str prefix then Some prefix else None
            | None => None
            end
            = match GenerateLock.default_tag_prefix args with
              | Some "" | None => None
              | Some prefix => Some prefix
              end).
  { destruct (GenerateLock.default_tag_prefix args) as [ [ | c s ] | ]; reflexivity. }
  rewrite Hprefix in Hmain. clear Hprefix.
  destruct (Lock.build_lock_payload _ _ _ _ _ _ _) as [ payload | e ] eqn:Hpayload;
    [ | injection Hmain as <- <-; repeat split; try reflexivity; discriminate ].
  fold out in Hmain.
  destruct (Lock.dump_lock payload out (GenerateLock.force args) fs) as [written fs1] eqn:Hdump.
  destruct (dump_lock_keeps_what_exists _ _ _ _ _ _ Hdump) as (Hkeep & _ & Hfail).
  destruct written as [ path | e ]; injection Hmain as <- <-.
  - split; [ exact Hkeep | ]. split; [ discriminate | ].
    intros code Hcode. injection Hcode as <-. split; [ reflexivity | ].
    destruct (build_lock_payload_well_formed _ _ _ _ _ _ _ _ Hpayload) as (Huk & _).
    unfold Lock.dump_lock in Hdump.
    destruct (FS.exists_ fs out && negb (GenerateLock.force args)) eqn:Hguard;
      [ discriminate | ].
    split.
    { apply andb_false_iff in Hguard as [ Hnone | Hforce ]; [ left; exact Hnone | right ].
      apply negb_false_iff. exact Hforce. }
    exists loaded, payload. repeat split; try assumption.
    destruct (FS.mkdir_parents (FS.parent out) fs) as [ [ [] | e ] fs2 ]; [ | discriminate ].
    unfold FS.write_text in Hdump.
    destruct (FS.is_dir fs2 out); [ discriminate | ].
    destruct (FS.is_dir fs2 (FS.parent out)).
    + injection Hdump as _ <-. apply lookup_insert_eq.
    + destruct (FS.exists_ fs2 (FS.parent out)); discriminate.
  - split; [ exact Hkeep | ]. split; [ | discriminate ].
    intros e' _. apply (Hfail e). reflexivity.
Qed.

End MetadataFacts.

(** *** The lock script on the samples *)

Lemma list_submodules_clean_witness :
  Lock.list_submodules (sp := Sample.git) "." ["services"; "infra"] = Ok Sample.commits /\
  List.NoDup (map fst Sample.commits) /\
  forall path sha, In (path, sha) Sample.commits ->
    path <> "" /\ PyStr.is_prefix "+" sha = false /\ PyStr.is_prefix "-" sha = false.
Proof.
  split; [ reflexivity | ].
  apply (list_submodules_clean (sp := Sample.git) "." ["services"; "infra"] Sample.commits).
  reflexivity.
Defined.

Lemma list_submodules_short_line_witness :
  Lock.run_git_command (sp := Sample.short_git)
    (["submodule"; "status"; "--recursive"] ++ ["services"; "infra"]) "."
  = Ok ("1234567890abcdef services/catalog (v1.2)" +:+ Sample.nl +:+ "+abcdef0123456789") /\
  Lock.list_submodules (sp := Sample.short_git) "." ["services"; "infra"]
  = Raise (IndexError "list index out of range").
Proof.
  split; [ reflexivity | ].
  apply (list_submodules_short_line (sp := Sample.short_git) "." ["services"; "infra"]
           ("1234567890abcdef services/catalog (v1.2)" +:+ Sample.nl +:+ "+abcdef0123456789")
           "+abcdef0123456789").
  - reflexivity.
  - right. left. reflexivity.
  - discriminate.
  - simpl. lia.
Defined.

Lemma build_lock_payload_well_formed_witness :
  exists payload,
    Lock.build_lock_payload (sp := Sample.git) "." None Sample.image_metadata
      "generate_lock.py@v1" "2024-01-01T00:00:00+00:00" "ghcr.io/shopifake" (Some "main-")
    = Ok payload /\
    Doc.unique_keys payload /\
    Dict.get "gateway"
      (Lock.services_payload Sample.locks)
    = Some (JObj (Lock.ServiceLock.to_mapping Sample.gateway_lock)).
Proof.
  eexists. split; [ reflexivity | ]. split; [ | reflexivity ].
  apply (build_lock_payload_well_formed (sp := Sample.git) "." None Sample.image_metadata
           "generate_lock.py@v1" "2024-01-01T00:00:00+00:00" "ghcr.io/shopifake" (Some "main-")).
  reflexivity.
Defined.

Lemma dump_lock_keeps_what_exists_witness :
  let after :=
    snd (Lock.dump_lock (JObj []) ["config"; "locks"; "lock.yml"] false Sample.files) in
  (forall q, q <> ["config"; "locks"; "lock.yml"] -> is_Some (Sample.files !! q) ->
             after !! q = Sample.files !! q) /\
  (forall q, q <> ["config"; "locks"; "lock.yml"] ->
             ~ In q (FS.prefixes (FS.parent ["config"; "locks"; "lock.yml"])) ->
             after !! q = Sample.files !! q) /\
  (forall e, Ok ["config"; "locks"; "lock.yml"] = Raise e ->
             after !! ["config"; "locks"; "lock.yml"]
             = Sample.files !! ["config"; "locks"; "lock.yml"]).
Proof.
  apply (dump_lock_keeps_what_exists (JObj []) ["config"; "locks"; "lock.yml"] false
           Sample.files (Ok ["config"; "locks"; "lock.yml"])).
  reflexivity.
Defined.

Lemma built_locks_are_well_formed_witness :
  Lock.load_image_metadata (py := Sample.lock_py) (Some ["config"; "images.json"]) Sample.files
  = Ok (Some Sample.image_metadata) /\
  Lock.path_name (Lock.ServiceLock.submodule_path Sample.gateway_lock) = "gateway" /\
  Lock.ServiceLock.submodule_path Sample.gateway_lock <> "" /\
  PyStr.is_prefix "+" (Lock.ServiceLock.git_sha Sample.gateway_lock) = false /\
  PyStr.is_prefix "-" (Lock.ServiceLock.git_sha Sample.gateway_lock) = false /\
  Lock.ImageMetadata.repository (Lock.ServiceLock.image Sample.gateway_lock) <> "" /\
  is_Some (Lock.ImageMetadata.tag (Lock.ServiceLock.image Sample.gateway_lock)) /\
  Lock.ImageMetadata.tag_prefix (Lock.ServiceLock.image Sample.gateway_lock) = None /\
  Lock.ServiceLock.notes Sample.gateway_lock = None.
Proof.
  split; [ reflexivity | ].
  apply (built_locks_are_well_formed (py := Sample.lock_py) (sp := Sample.git)
           (Some ["config"; "images.json"]) Sample.files Sample.image_metadata
           "." ["services"; "infra"] None "ghcr.io/shopifake" (Some "main-")
           Sample.locks "gateway" Sample.gateway_lock); reflexivity.
Defined.

Lemma load_image_metadata_missing_repository_witness :
  Lock.load_image_metadata (py := Sample.lock_py) (Some ["config"; "broken.json"]) Sample.files
  = Raise (ValueError ("Missing repository for service '" +:+ "pricing" +:+ "'")).
Proof.
  apply (load_image_metadata_missing_repository (py := Sample.lock_py)
           ["config"; "broken.json"] Sample.files (JsonDump.dumps Sample.broken_metadata_doc)
           [("gateway", JObj [("repository", JStr "registry.example/gw")])] []
           "pricing" (JObj [("tag", JStr "v1")]) JNull).
  - reflexivity.
  - reflexivity.
  - reflexivity.
  - constructor; [ | constructor ]. exists (JStr "registry.example/gw"). split; reflexivity.
  - reflexivity.
  - reflexivity.
Defined.

Lemma generate_lock_main_effects_witness :
  exists after,
    GenerateLock.main (py := Sample.lock_py) (sp := Sample.git) Sample.lock_args
      "." "2024-01-01T00:00:00+00:00" "20240101T000000Z" Sample.files
    = Some (Ok 0, after) /\
    (forall q, q <> ["locks"; "lock-20240101T000000Z.yml"] -> is_Some (Sample.files !! q) ->
               after !! q = Sample.files !! q) /\
    exists payload,
      Doc.unique_keys payload /\
      after !! ["locks"; "lock-20240101T000000Z.yml"]
      = Some (FS.File (JsonDump.dumps payload +:+ Sample.nl)).
Proof.
  eexists. split; [ reflexivity | ].
  destruct (generate_lock_main_effects (py := Sample.lock_py) (sp := Sample.git)
              Sample.lock_args "." "2024-01-01T00:00:00+00:00" "20240101T000000Z"
              Sample.files (Ok 0) _ eq_refl) as (Hkeep & _ & Hdone).
  split; [ exact Hkeep | ].
  destruct (Hdone 0 eq_refl) as (_ & _ & loaded & payload & _ & _ & Huk & Hout).
  exists payload. split; [ exact Huk | exact Hout ].
Defined.

(** ** Git and the services filter *)

Section GitFailure.
Context {sp : Subprocess}.

(** X9. A git command that fails is a [RuntimeError] that names the command
    and gives what git wrote to its standard error; the locks and the
    payload are not built. *)
Theorem git_failure_is_raised
    (root : string) (code : Z) (out err : string)
    (image_metadata : gmap string Lock.ImageMetadata.t)
    (services_filter : option (list string))
    (generator_id generated_at default_registry : string)
    (default_tag_prefix : option string) :
  subprocess_run ("git" :: ["submodule"; "status"; "--recursive"; "services"; "infra"]) root
  = (code, out, err) ->
  code <> 0 ->
  let failure :=
    RuntimeError ("git submodule status --recursive services infra failed: "
                  +:+ PyStr.strip err) in
  Lock.list_submodules root ["services"; "infra"] = Raise failure /\
  Lock.build_service_locks root ["services"; "infra"] image_metadata services_filter
    default_registry default_tag_prefix = Raise failure /\
  Lock.build_lock_payload root services_filter image_metadata generator_id generated_at
    default_registry default_tag_prefix = Raise failure.
Proof.
  intros Hrun Hcode failure.
  assert (Hlist : Lock.list_submodules root ["services"; "infra"] = Raise failure).
  { unfold Lock.list_submodules, Lock.run_git_command. simpl app. rewrite Hrun.
    apply Z.eqb_neq in Hcode. rewrite Hcode. reflexivity. }
  assert (Hlocks : Lock.build_service_locks root ["services"; "infra"] image_metadata
                     services_filter default_registry default_tag_prefix = Raise failure).
  { unfold Lock.build_service_locks. rewrite Hlist. reflexivity. }
  split; [ exact Hlist | ]. split; [ exact Hlocks | ].
  unfold Lock.build_lock_payload. rewrite Hlocks. reflexivity.
Qed.

(** X10. A services filter that is given but empty is no filter: every
    submodule is locked, as when no filter is given. *)
Theorem empty_filter_is_no_filter
    (root : string) (scope : list string)
    (image_metadata : gmap string Lock.ImageMetadata.t)
    (default_registry : string) (default_tag_prefix : option string) :
  Lock.build_service_locks root scope image_metadata (Some []) default_registry
    default_tag_prefix
  = Lock.build_service_locks root scope image_metadata None default_registry
      default_tag_prefix /\
  forall commits locks,
    Lock.list_submodules root scope = Ok commits ->
    Lock.build_service_locks root scope image_metadata (Some []) default_registry
      default_tag_prefix = Ok locks ->
    forall path sha, In (path, sha) commits -> is_Some (locks !! Lock.path_name path).
Proof.
  split; [ reflexivity | ].
  intros commits locks Hlist Hbuild path sha Hin.
  rewrite (build_service_locks_ok _ _ _ _ _ _ _ _ Hlist Hbuild).
  eapply fold_lock_step_present; [ exact Hin | reflexivity ].
Qed.

End GitFailure.

Lemma git_failure_is_raised_witness :
  let failure :=
    RuntimeError ("git submodule status --recursive services infra failed: "
                  +:+ PyStr.strip " fatal: not a git repository ") in
  Lock.list_submodules (sp := Sample.no_git) "." ["services"; "infra"] = Raise failure /\
  Lock.build_service_locks (sp := Sample.no_git) "." ["services"; "infra"]
    Sample.image_metadata None "ghcr.io/shopifake" (Some "main-") = Raise failure /\
  Lock.build_lock_payload (sp := Sample.no_git) "." None Sample.image_metadata
    "generate_lock.py@v1" "2024-01-01T00:00:00+00:00" "ghcr.io/shopifake" (Some "main-")
  = Raise failure.
Proof.
  apply (git_failure_is_raised (sp := Sample.no_git) "." 128 ""
           " fatal: not a git repository " Sample.image_metadata None
           "generate_lock.py@v1" "2024-01-01T00:00:00+00:00" "ghcr.io/shopifake"
           (Some "main-")).
  - reflexivity.
  - discriminate.
Defined.

Lemma empty_filter_is_no_filter_witness :
  Lock.build_service_locks (sp := Sample.git) "." ["services"; "infra"]
    Sample.image_metadata (Some []) "ghcr.io/shopifake" (Some "main-") = Ok Sample.locks /\
  forall path sha, In (path, sha) Sample.commits ->
                   is_Some (Sample.locks !! Lock.path_name path).
Proof.
  assert (Hlist : Lock.list_submodules (sp := Sample.git) "." ["services"; "infra"]
                  = Ok Sample.commits) by reflexivity.
  assert (Hbuild : Lock.build_service_locks (sp := Sample.git) "." ["services"; "infra"]
                     Sample.image_metadata (Some []) "ghcr.io/shopifake" (Some "main-")
                   = Ok Sample.locks) by reflexivity.
  split; [ exact Hbuild | ].
  destruct (empty_filter_is_no_filter (sp := Sample.git) "." ["services"; "infra"]
              Sample.image_metadata "ghcr.io/shopifake" (Some "main-")) as [_ Hall].
  exact (Hall Sample.commits Sample.locks Hlist Hbuild).
Defined.

(** ** The seeder, method by method *)

Section FetchSite.
Context {py : PyLib} {gw : Gateway}.

(** X11. A site that is not found is no site and no error: when the gateway
    answers the fetch by slug with a 404, or with a 400 whose body says
    [site not found] in upper or lower case, [_fetch_site_by_slug] returns
    [None]; any other HTTP error is raised as it is. One request is sent
    in either case. *)
Theorem fetch_site_by_slug_not_found
    (slug : string) (self : Seed.Seeder.t) (code : Z) (body : string) :
  let req := Seed.build_request "GET"
               (Seed.Seeder.base_url self +:+ "/api/sites/slug/" +:+ slug) None None None 15 in
  urlopen (Seed.Seeder.sent self) req = HTTPError code body ->
  Seed._fetch_site_by_slug slug self
  = (if (code =? 404)
        || ((code =? 400) && PyStr.contains "site not found" (PyStr.lower body))
     then Ok JNull
     else Raise (HttpError code body),
     Seed.Seeder.set_sent (Seed.Seeder.sent self ++ [req]) self).
Proof.
  intros req Hreply. unfold Seed._fetch_site_by_slug, Seed.try_http.
  rewrite bind_url.
  change (if PyStr.is_prefix "/" ("/api/sites/slug/" +:+ slug)
          then "/api/sites/slug/" +:+ slug else "/" +:+ ("/api/sites/slug/" +:+ slug))
    with ("/api/sites/slug/" +:+ slug).
  unfold Seed.bind, Seed.http_get, Seed.http_request. fold req. rewrite Hreply.
  destruct ((code =? 404) || _); reflexivity.
Qed.

End FetchSite.

Lemma fetch_site_by_slug_not_found_witness :
  let req := Seed.build_request (py := Sample.py) "GET"
               (Seed.Seeder.base_url Sample.seeder +:+ "/api/sites/slug/" +:+ "acme")
               None None None 15 in
  urlopen (Gateway := Sample.gateway) (Seed.Seeder.sent Sample.seeder) req
  = HTTPError 404 "Site not found" /\
  Seed._fetch_site_by_slug (py := Sample.py) (gw := Sample.gateway) "acme" Sample.seeder
  = (Ok JNull,
     Seed.Seeder.set_sent (Seed.Seeder.sent Sample.seeder ++ [req]) Sample.seeder).
Proof.
  intros req.
  assert (Hreply : urlopen (Gateway := Sample.gateway) (Seed.Seeder.sent Sample.seeder) req
                   = HTTPError 404 "Site not found") by reflexivity.
  split; [ exact Hreply | ].
  exact (fetch_site_by_slug_not_found (py := Sample.py) (gw := Sample.gateway)
           "acme" Sample.seeder 404 "Site not found" Hreply).
Defined.

(** ** What every method keeps *)

Section Keeps.
Variable R : Seed.Seeder.t -> Seed.Seeder.t -> Prop.
Hypothesis R_refl : forall a, R a a.
Hypothesis R_trans : forall a b c, R a b -> R b c -> R a c.

Lemma keeps_ret {A} (a : A) : keeps R (Seed.ret a).
Proof. intros self r self' H. injection H as _ <-. apply R_refl. Qed.

Lemma keeps_raise {A} (e : exn) : keeps R (@Seed.raise A e).
Proof. intros self r self' H. injection H as _ <-. apply R_refl. Qed.

Lemma keeps_lift {A} (x : result A) : keeps R (Seed.lift x).
Proof. intros self r self' H. injection H as _ <-. apply R_refl. Qed.

Lemma keeps_gets {A} (f : Seed.Seeder.t -> A) : keeps R (Seed.gets f).
Proof. intros self r self' H. injection H as _ <-. apply R_refl. Qed.

Lemma keeps_hash_key (cache_key : string * json) : keeps R (Seed.hash_key cache_key).
Proof.
  unfold Seed.hash_key. destruct (Py.hashable _); [ apply keeps_ret | apply keeps_raise ].
Qed.

Lemma keeps_bind {A B} (m : Seed.M A) (k : A -> Seed.M B) :
  keeps R m -> (forall a, keeps R (k a)) -> keeps R (Seed.bind m k).
Proof.
  intros Hm Hk self r self' H.
  apply bind_inv in H as [(a & mid & H1 & H2) | (e & H1 & _)].
  - eapply R_trans; [ eapply Hm; exact H1 | eapply Hk; exact H2 ].
  - eapply Hm. exact H1.
Qed.

Lemma keeps_try_http {A} (m : Seed.M A) (handler : Z -> string -> Seed.M A) :
  keeps R m -> (forall status body, keeps R (handler status body)) ->
  keeps R (Seed.try_http m handler).
Proof.
  intros Hm Hh self r self' H. unfold Seed.try_http in H.
  destruct (m self) as [[a | e] mid] eqn:Hrun.
  - injection H as <- <-. eapply Hm. exact Hrun.
  - destruct e; try (injection H as <- <-; eapply Hm; exact Hrun).
    eapply R_trans; [ eapply Hm; exact Hrun | eapply Hh; exact H ].
Qed.

Lemma keeps_for_each {X} (xs : list X) (body : X -> Seed.M unit) :
  (forall x, keeps R (body x)) -> keeps R (Seed.for_each xs body).
Proof.
  intros Hbody. induction xs as [ | x xs IH ]; simpl.
  - apply keeps_ret.
  - apply keeps_bind; [ apply Hbody | intros _; exact IH ].
Qed.

Lemma keeps_collect {X Y} (xs : list X) (body : X -> Seed.M Y) :
  (forall x, keeps R (body x)) -> keeps R (Seed.collect xs body).
Proof.
  intros Hbody. induction xs as [ | x xs IH ]; simpl.
  - apply keeps_ret.
  - apply keeps_bind; [ apply Hbody | intros y ].
    apply keeps_bind; [ exact IH | intros ys; apply keeps_ret ].
Qed.

Lemma keeps_modify (f : Seed.Seeder.t -> Seed.Seeder.t) :
  (forall self, R self (f self)) -> keeps R (Seed.modify f).
Proof. intros Hf self r self' H. injection H as _ <-. apply Hf. Qed.

End Keeps.

Lemma keeps_weaken {A} (R R' : Seed.Seeder.t -> Seed.Seeder.t -> Prop) (m : Seed.M A) :
  (forall a b, R a b -> R' a b) -> keeps R m -> keeps R' m.
Proof. intros Himpl Hm self r self' H. apply Himpl. eapply Hm. exact H. Qed.

(** One step of the walk through the code of a method: [refl] and
    [trans] are the proofs that the relation is a preorder, [leaf] closes
    the steps that are particular to the relation. *)
Ltac keeps_walk refl trans leaf :=
  repeat (cbv beta iota delta [negb];
          first
            [ leaf
            | apply (keeps_ret _ refl)
            | apply (keeps_raise _ refl)
            | apply (keeps_lift _ refl)
            | apply (keeps_gets _ refl)
            | apply (keeps_hash_key _ refl)
            | apply (keeps_bind _ trans); [ | intros ? ]
            | apply (keeps_try_http _ trans); [ | intros ? ? ]
            | apply (keeps_for_each _ refl trans); intros ?
            | apply (keeps_collect _ refl trans); intros ?
            | match goal with
              | |- keeps _ (if ?b then _ else _) => destruct b
              | |- keeps _ (match ?x with _ => _ end) => destruct x
              end ]).

(** *** A dry run *)

Section Quiet.
Context {py : PyLib} {gw : Gateway}.

Lemma quiet_refl (a : Seed.Seeder.t) : quiet a a.
Proof. intros H. auto. Qed.

Lemma quiet_trans (a b c : Seed.Seeder.t) : quiet a b -> quiet b c -> quiet a c.
Proof.
  intros Hab Hbc Ha. destruct (Hab Ha) as [Hb Hsent]. destruct (Hbc Hb) as [Hc Hsent'].
  split; [ exact Hc | congruence ].
Qed.

Lemma quiet_dry {A} (k : bool -> Seed.M A) :
  keeps quiet (k true) -> keeps quiet (Seed.bind (Seed.gets Seed.Seeder.dry_run) k).
Proof.
  intros Hk self r self' H Hdry. rewrite bind_gets, Hdry in H.
  exact (Hk _ _ _ H Hdry).
Qed.

Ltac quiet_leaf :=
  first
    [ apply quiet_dry
    | progress (rewrite ?orb_true_r, ?andb_false_r)
    | apply keeps_modify; intros ? ?; split; [ assumption | reflexivity ] ].

Ltac quiet_walk := keeps_walk quiet_refl quiet_trans quiet_leaf.

Lemma quiet_refresh_filters (site_id : json) : keeps quiet (Seed._refresh_filters site_id).
Proof. unfold Seed._refresh_filters. quiet_walk. Qed.

Lemma quiet_ensure_site (row : Seed.Row.t) : keeps quiet (Seed._ensure_site row).
Proof. unfold Seed._ensure_site. quiet_walk. Qed.

Lemma quiet_ensure_category (site_id : json) (name : string) (definitions : json) :
  keeps quiet (Seed._ensure_category site_id name definitions).
Proof. unfold Seed._ensure_category. quiet_walk. Qed.

Lemma quiet_ensure_filters (site_id category_id : json) (row : Seed.Row.t) :
  keeps quiet (Seed._ensure_filters_and_map_assignments site_id category_id row).
Proof.
  unfold Seed._ensure_filters_and_map_assignments, Seed._ensure_filter_definitions,
    Seed.ensure_definition, Seed.map_assignment.
  quiet_walk.
Qed.

Lemma quiet_process_row (row : Seed.Row.t) : keeps quiet (Seed.process_row row).
Proof.
  unfold Seed.process_row, Seed._create_product, Seed._create_price, Seed._create_inventory.
  keeps_walk quiet_refl quiet_trans
    ltac:(first [ apply quiet_ensure_site | apply quiet_ensure_category
                | apply quiet_ensure_filters | quiet_leaf ]).
Qed.

Lemma quiet_process_rows (rows : list Seed.Row.t) : keeps quiet (Seed.process_rows rows).
Proof. apply (keeps_for_each _ quiet_refl quiet_trans). apply quiet_process_row. Qed.

End Quiet.

(** *** The requests *)

Section Requests.
Context {py : PyLib} {gw : Gateway}.
Variable base : string.

Lemma sends_refl (a : Seed.Seeder.t) : sends_ok base a a.
Proof.
  intros H. split; [ exact H | ]. exists []. rewrite app_nil_r. split; [ reflexivity | constructor ].
Qed.

Lemma sends_trans (a b c : Seed.Seeder.t) :
  sends_ok base a b -> sends_ok base b c -> sends_ok base a c.
Proof.
  intros Hab Hbc Ha. destruct (Hab Ha) as (Hb & m1 & S1 & F1).
  destruct (Hbc Hb) as (Hc & m2 & S2 & F2).
  split; [ exact Hc | ]. exists (m1 ++ m2). split.
  - rewrite S2, S1, app_assoc. reflexivity.
  - apply Forall_app. split; assumption.
Qed.

Lemma sends_url {A} (path : string) (k : string -> Seed.M A) :
  (forall url,
      url = base +:+ (if PyStr.is_prefix "/" path then path else "/" +:+ path) ->
      keeps (sends_ok base) (k url)) ->
  keeps (sends_ok base) (Seed.bind (Seed._url path) k).
Proof.
  intros Hk self r self' H Hbase. rewrite bind_url in H.
  eapply Hk; [ | exact H | exact Hbase ]. rewrite Hbase. reflexivity.
Qed.

Lemma sends_request (method url : string) (params : option (list (string * json)))
    (json_body : option json) (headers : option (list (string * string))) (timeout : Z) :
  ok_request base (Seed.build_request method url params json_body headers timeout) ->
  keeps (sends_ok base) (Seed.http_request method url params json_body headers timeout).
Proof.
  intros Hok self r self' H Hbase. unfold Seed.http_request in H.
  assert (Hsent : Seed.Seeder.base_url
                    (Seed.Seeder.set_sent
                       (Seed.Seeder.sent self
                        ++ [Seed.build_request method url params json_body headers timeout])
                       self) = base /\
                  exists more,
                    Seed.Seeder.sent
                      (Seed.Seeder.set_sent
                         (Seed.Seeder.sent self
                          ++ [Seed.build_request method url params json_body headers timeout])
                         self) = Seed.Seeder.sent self ++ more /\
                    Forall (ok_request base) more).
  { split; [ exact Hbase | ]. eexists. split; [ reflexivity | ].
    constructor; [ exact Hok | constructor ]. }
  destruct (urlopen _ _); injection H as _ <-; exact Hsent.
Qed.

Ltac sends_leaf :=
  first
    [ apply sends_url; intros ? ?
    | apply keeps_modify; intros ? ?; split;
      [ assumption | exists []; rewrite app_nil_r; split; [ reflexivity | constructor ] ]
    | match goal with
      | |- keeps _ (Seed.http_post _ _ _ _) => unfold Seed.http_post
      | |- keeps _ (Seed.http_get _ _ _ _) => unfold Seed.http_get
      end;
      apply sends_request; subst; simpl;
      (split;
       [ eexists; split;
         [ reflexivity
         | first [ left; simpl; tauto | right; eexists; reflexivity ] ]
       | split; [ reflexivity | first [ reflexivity | split; reflexivity ] ] ]) ].

Ltac sends_walk := keeps_walk (sends_refl) (sends_trans) sends_leaf.

Lemma sends_fetch_site (slug : string) : keeps (sends_ok base) (Seed._fetch_site_by_slug slug).
Proof. unfold Seed._fetch_site_by_slug. sends_walk. Qed.

Lemma sends_ensure_site (row : Seed.Row.t) : keeps (sends_ok base) (Seed._ensure_site row).
Proof.
  unfold Seed._ensure_site, Seed.create_site.
  keeps_walk sends_refl sends_trans ltac:(first [ apply sends_fetch_site | sends_leaf ]).
Qed.

Lemma sends_refresh_filters (site_id : json) :
  keeps (sends_ok base) (Seed._refresh_filters site_id).
Proof. unfold Seed._refresh_filters, Seed.refresh_entry. sends_walk. Qed.

Lemma sends_ensure_category (site_id : json) (name : string) (definitions : json) :
  keeps (sends_ok base) (Seed._ensure_category site_id name definitions).
Proof.
  unfold Seed._ensure_category, Seed.cache_existing_categories, Seed._fetch_categories,
    Seed.cache_category.
  keeps_walk sends_refl sends_trans ltac:(first [ apply sends_refresh_filters | sends_leaf ]).
Qed.

Lemma sends_ensure_filters (site_id category_id : json) (row : Seed.Row.t) :
  keeps (sends_ok base) (Seed._ensure_filters_and_map_assignments site_id category_id row).
Proof.
  unfold Seed._ensure_filters_and_map_assignments, Seed._ensure_filter_definitions,
    Seed.ensure_definition, Seed.map_assignment.
  keeps_walk sends_refl sends_trans ltac:(first [ apply sends_refresh_filters | sends_leaf ]).
Qed.

Lemma sends_process_row (row : Seed.Row.t) : keeps (sends_ok base) (Seed.process_row row).
Proof.
  unfold Seed.process_row, Seed._create_product, Seed._create_price, Seed._create_inventory.
  keeps_walk sends_refl sends_trans
    ltac:(first [ apply sends_ensure_site | apply sends_ensure_category
                | apply sends_ensure_filters | sends_leaf ]).
Qed.

Lemma sends_process_rows (rows : list Seed.Row.t) :
  keeps (sends_ok base) (Seed.process_rows rows).
Proof. apply (keeps_for_each _ sends_refl sends_trans). apply sends_process_row. Qed.

End Requests.

(** *** The caches *)

Section Caches.
Context {py : PyLib} {gw : Gateway}.

Lemma unchanged_refl {X} (f : Seed.Seeder.t -> X) (a : Seed.Seeder.t) : unchanged f a a.
Proof. reflexivity. Qed.

Lemma unchanged_trans {X} (f : Seed.Seeder.t -> X) (a b c : Seed.Seeder.t) :
  unchanged f a b -> unchanged f b c -> unchanged f a c.
Proof. unfold unchanged. congruence. Qed.

Lemma unchanged_request {X} (f : Seed.Seeder.t -> X)
    (method url : string) (params : option (list (string * json)))
    (json_body : option json) (headers : option (list (string * string))) (timeout : Z) :
  (forall l self, f (Seed.Seeder.set_sent l self) = f self) ->
  keeps (unchanged f) (Seed.http_request method url params json_body headers timeout).
Proof.
  intros Hf self r self' H. unfold Seed.http_request in H.
  destruct (urlopen _ _); injection H as _ <-; apply Hf.
Qed.

Ltac unchanged_leaf :=
  first
    [ apply keeps_modify; intros ?; reflexivity
    | match goal with
      | |- keeps _ (Seed.http_post _ _ _ _) => unfold Seed.http_post
      | |- keeps _ (Seed.http_get _ _ _ _) => unfold Seed.http_get
      end;
      apply unchanged_request; intros ? ?; reflexivity ].

Ltac unchanged_walk f :=
  keeps_walk (unchanged_refl f) (unchanged_trans f) unchanged_leaf.

Lemma bind_modify {B} (f : Seed.Seeder.t -> Seed.Seeder.t) (k : unit -> Seed.M B)
    (self : Seed.Seeder.t) :
  Seed.bind (Seed.modify f) k self = k tt (f self).
Proof. reflexivity. Qed.

(** **** Sites *)

Lemma sites_fetch_site (slug : string) :
  keeps (unchanged Seed.Seeder.site_cache) (Seed._fetch_site_by_slug slug).
Proof.
  unfold Seed._fetch_site_by_slug, Seed._url. unchanged_walk Seed.Seeder.site_cache.
Qed.

Lemma sites_create_site (row : Seed.Row.t) :
  keeps (unchanged Seed.Seeder.site_cache) (Seed.create_site row).
Proof.
  unfold Seed.create_site, Seed._url.
  keeps_walk (unchanged_refl Seed.Seeder.site_cache) (unchanged_trans Seed.Seeder.site_cache)
    ltac:(first [ apply sites_fetch_site | unchanged_leaf ]).
Qed.

Lemma sites_refresh_filters (site_id : json) :
  keeps (unchanged Seed.Seeder.site_cache) (Seed._refresh_filters site_id).
Proof.
  unfold Seed._refresh_filters, Seed.refresh_entry, Seed._url.
  unchanged_walk Seed.Seeder.site_cache.
Qed.

Lemma sites_ensure_category (site_id : json) (name : string) (definitions : json) :
  keeps (unchanged Seed.Seeder.site_cache) (Seed._ensure_category site_id name definitions).
Proof.
  unfold Seed._ensure_category, Seed.cache_existing_categories, Seed._fetch_categories,
    Seed.cache_category, Seed._url.
  keeps_walk (unchanged_refl Seed.Seeder.site_cache) (unchanged_trans Seed.Seeder.site_cache)
    ltac:(first [ apply sites_refresh_filters | unchanged_leaf ]).
Qed.

Lemma sites_ensure_filters (site_id category_id : json) (row : Seed.Row.t) :
  keeps (unchanged Seed.Seeder.site_cache)
    (Seed._ensure_filters_and_map_assignments site_id category_id row).
Proof.
  unfold Seed._ensure_filters_and_map_assignments, Seed._ensure_filter_definitions,
    Seed.ensure_definition, Seed.map_assignment, Seed._url.
  keeps_walk (unchanged_refl Seed.Seeder.site_cache) (unchanged_trans Seed.Seeder.site_cache)
    ltac:(first [ apply sites_refresh_filters | unchanged_leaf ]).
Qed.

(** What [_ensure_site] does to the cache of sites: a hit changes
    nothing, a miss that succeeds adds the site under the key, and a miss
    that fails leaves the cache as it was. *)
Lemma ensure_site_outcome (row : Seed.Row.t) (self : Seed.Seeder.t) r (self' : Seed.Seeder.t) :
  Seed._ensure_site row self = (r, self') ->
  (exists cached,
      Seed.Seeder.site_cache self !! Seed.site_cache_key row = Some cached /\
      r = Ok cached /\ self' = self)
  \/ (Seed.Seeder.site_cache self !! Seed.site_cache_key row = None /\
      ((exists site,
           r = Ok site /\
           Seed.Seeder.site_cache self'
           = <[Seed.site_cache_key row := site]> (Seed.Seeder.site_cache self))
       \/ (exists e, r = Raise e /\
                     Seed.Seeder.site_cache self' = Seed.Seeder.site_cache self))).
Proof.
  unfold Seed._ensure_site. rewrite bind_gets.
  destruct (Seed.Seeder.site_cache self !! Seed.site_cache_key row) as [ cached | ] eqn:Hcache.
  { intros H. injection H as <- <-. left. eauto. }
  rewrite bind_gets. intros H. right. split; [ reflexivity | ].
  apply bind_inv in H as [(site & s1 & H1 & H2) | (e & H1 & ->)].
  - assert (Hs1 : Seed.Seeder.site_cache s1 = Seed.Seeder.site_cache self).
    { revert H1. destruct (negb _); intros H1.
      - exact (sites_fetch_site _ _ _ _ H1).
      - injection H1 as _ <-. reflexivity. }
    apply bind_inv in H2 as [(site' & s2 & H2 & H3) | (e & H2 & ->)].
    + assert (Hs2 : Seed.Seeder.site_cache s2 = Seed.Seeder.site_cache s1).
      { revert H2. destruct (Py.truthy site).
        - intros H2. apply bind_inv in H2 as [(x & s & Ha & Hb) | (e & Ha & _)].
          + injection Ha as _ <-. injection Hb as _ <-. reflexivity.
          + injection Ha as _ <-. reflexivity.
        - destruct (Seed.Seeder.dry_run self); intros H2.
          + injection H2 as _ <-. reflexivity.
          + exact (sites_create_site _ _ _ _ H2). }
      destruct (negb (Py.truthy site')).
      * injection H3 as <- <-. right. eexists. split; [ reflexivity | congruence ].
      * rewrite bind_modify in H3. injection H3 as <- <-. left. exists site'.
        split; [ reflexivity | ]. simpl. congruence.
    + right. eexists. split; [ reflexivity | ].
      transitivity (Seed.Seeder.site_cache s1); [ | exact Hs1 ].
      revert H2. destruct (Py.truthy site).
      * intros H2. apply bind_inv in H2 as [(x & s & Ha & Hb) | (e' & Ha & _)].
        -- discriminate.
        -- injection Ha as _ <-. reflexivity.
      * destruct (Seed.Seeder.dry_run self); intros H2.
        -- discriminate.
        -- exact (sites_create_site _ _ _ _ H2).
  - right. eexists. split; [ reflexivity | ].
    revert H1. destruct (negb _); intros H1.
    + exact (sites_fetch_site _ _ _ _ H1).
    + discriminate.
Qed.

Lemma site_stable_refl (a : Seed.Seeder.t) : site_stable a a.
Proof. intros k v H. exact H. Qed.

Lemma site_stable_trans (a b c : Seed.Seeder.t) :
  site_stable a b -> site_stable b c -> site_stable a c.
Proof. intros Hab Hbc k v H. apply Hbc, Hab, H. Qed.

Lemma site_stable_ensure_site (row : Seed.Row.t) : keeps site_stable (Seed._ensure_site row).
Proof.
  intros self r self' H k v Hk.
  apply ensure_site_outcome in H
    as [(cached & _ & _ & ->) | (Hnone & [(site & _ & ->) | (e & _ & ->)])];
    try exact Hk.
  rewrite lookup_insert_ne; [ exact Hk | ]. intros <-. congruence.
Qed.

Lemma site_stable_process_row (row : Seed.Row.t) : keeps site_stable (Seed.process_row row).
Proof.
  unfold Seed.process_row.
  apply (keeps_bind _ site_stable_trans); [ apply site_stable_ensure_site | intros site ].
  apply (keeps_weaken (unchanged Seed.Seeder.site_cache)).
  { intros a b Hab k v Hk. rewrite Hab. exact Hk. }
  unfold Seed._create_product, Seed._create_price, Seed._create_inventory, Seed._url.
  keeps_walk (unchanged_refl Seed.Seeder.site_cache) (unchanged_trans Seed.Seeder.site_cache)
    ltac:(first [ apply sites_ensure_category | apply sites_ensure_filters | unchanged_leaf ]).
Qed.

Lemma site_stable_process_rows (rows : list Seed.Row.t) :
  keeps site_stable (Seed.process_rows rows).
Proof.
  apply (keeps_for_each _ site_stable_refl site_stable_trans). apply site_stable_process_row.
Qed.

(** X12. A site, once ensured, is the site of its key for the rest of the
    run: whatever rows are processed afterwards, ensuring a row of the same
    key returns this site and neither sends a request nor changes the
    seeder. *)
Theorem ensured_site_is_kept
    (row : Seed.Row.t) (self : Seed.Seeder.t) (site : json) (after : Seed.Seeder.t)
    (rows : list Seed.Row.t) (r : result unit) (later : Seed.Seeder.t) (row' : Seed.Row.t) :
  Seed._ensure_site row self = (Ok site, after) ->
  Seed.process_rows rows after = (r, later) ->
  Seed.site_cache_key row' = Seed.site_cache_key row ->
  Seed.Seeder.site_cache later !! Seed.site_cache_key row = Some site /\
  Seed._ensure_site row' later = (Ok site, later).
Proof.
  intros Hsite Hrows Hkey.
  assert (Hcached : Seed.Seeder.site_cache after !! Seed.site_cache_key row = Some site).
  { apply ensure_site_outcome in Hsite
      as [(cached & Hc & Heq & ->) | (_ & [(x & Heq & ->) | (e & Heq & _)])].
    - injection Heq as ->. exact Hc.
    - injection Heq as ->. apply lookup_insert_eq.
    - discriminate. }
  pose proof (site_stable_process_rows rows _ _ _ Hrows _ _ Hcached) as Hlater.
  split; [ exact Hlater | ].
  unfold Seed._ensure_site. rewrite bind_gets, Hkey, Hlater. reflexivity.
Qed.

(** **** Categories *)

Lemma categories_refresh_filters (site_id : json) :
  keeps (unchanged Seed.Seeder.category_cache) (Seed._refresh_filters site_id).
Proof.
  unfold Seed._refresh_filters, Seed.refresh_entry, Seed._url.
  unchanged_walk Seed.Seeder.category_cache.
Qed.

(** X13. A category, once ensured, is cached under the site and its name in
    lower case: ensuring it again, under a name that differs in case at
    most and with any filter definitions, returns the same category and
    neither sends a request nor changes the seeder. *)
Theorem ensure_category_twice
    (site_id : json) (name : string) (definitions : json) (self : Seed.Seeder.t)
    (category : json) (after : Seed.Seeder.t) (name' : string) (definitions' : json) :
  Seed._ensure_category site_id name definitions self = (Ok category, after) ->
  PyStr.lower name' = PyStr.lower name ->
  Seed.Seeder.category_cache after !! (py_str site_id, PyStr.lower name) = Some category /\
  Seed._ensure_category site_id name' definitions' after = (Ok category, after).
Proof.
  intros Hrun Hname.
  assert (Hcached : Seed.Seeder.category_cache after !! (py_str site_id, PyStr.lower name)
                    = Some category).
  { unfold Seed._ensure_category in Hrun. rewrite bind_gets in Hrun.
    destruct (Seed.Seeder.category_cache self !! (py_str site_id, PyStr.lower name))
      as [ cached | ] eqn:Hcache.
    { injection Hrun as <- <-. exact Hcache. }
    rewrite bind_gets in Hrun.
    apply bind_ok in Hrun as (u & s1 & _ & Hrun). rewrite bind_gets in Hrun.
    destruct (Seed.Seeder.category_cache s1 !! (py_str site_id, PyStr.lower name))
      as [ cached | ] eqn:Hcache1.
    { injection Hrun as <- <-. exact Hcache1. }
    apply bind_ok in Hrun as (made & s2 & _ & Hrun). rewrite bind_modify in Hrun.
    apply bind_ok in Hrun as (u' & s3 & Hrefresh & Hrun). injection Hrun as <- <-.
    assert (Hsame : Seed.Seeder.category_cache s3
                    = <[(py_str site_id, PyStr.lower name) := made]>
                        (Seed.Seeder.category_cache s2)).
    { revert Hrefresh. destruct (_ && _); intros Hrefresh.
      - exact (categories_refresh_filters _ _ _ _ Hrefresh).
      - injection Hrefresh as _ <-. reflexivity. }
    rewrite Hsame. apply lookup_insert_eq. }
  split; [ exact Hcached | ].
  unfold Seed._ensure_category. rewrite bind_gets, Hname, Hcached. reflexivity.
Qed.

(** **** The rows one after the other *)

Lemma for_each_app {X} (xs ys : list X) (body : X -> Seed.M unit) (self : Seed.Seeder.t) :
  Seed.for_each (xs ++ ys) body self
  = Seed.bind (Seed.for_each xs body) (fun _ => Seed.for_each ys body) self.
Proof.
  revert self. induction xs as [ | x xs IH ]; intros self; simpl.
  - reflexivity.
  - unfold Seed.bind. destruct (body x self) as [[ [] | e ] mid]; [ | reflexivity ].
    rewrite IH. reflexivity.
Qed.

(** X14. A row that fails ends the run: the exception is the one of the row,
    the seeder is as the row left it, and the rows after it are not
    processed. *)
Theorem process_rows_stops_at_first_failure
    (before after : list Seed.Row.t) (row : Seed.Row.t)
    (self mid self' : Seed.Seeder.t) (e : exn) :
  Seed.process_rows before self = (Ok tt, mid) ->
  Seed.process_row row mid = (Raise e, self') ->
  Seed.process_rows (before ++ row :: after) self = (Raise e, self').
Proof.
  intros Hbefore Hrow. unfold Seed.process_rows in *.
  rewrite for_each_app. rewrite (bind_run _ _ _ _ _ Hbefore). simpl.
  apply bind_raise. exact Hrow.
Qed.

(** **** The filters of a product *)

Lemma collect_assignments (category_id : json) (entries : list (string * json)) :
  forall (self : Seed.Seeder.t) r (self' : Seed.Seeder.t),
    Seed.collect entries (Seed.map_assignment category_id) self = (r, self') ->
    self' = self /\
    forall out, r = Ok out ->
      Forall2 (assignment_for (Seed.Seeder.filter_cache self) category_id) entries out.
Proof.
  induction entries as [ | [key value] entries IH ]; simpl; intros self r self' H.
  - injection H as <- <-. split; [ reflexivity | ]. intros out Hout. injection Hout as <-.
    constructor.
  - apply bind_inv in H as [(a & s1 & H1 & H2) | (e & H1 & ->)].
    + unfold Seed.map_assignment in H1. rewrite bind_gets in H1.
      destruct (Seed.Seeder.filter_cache self
                  !! Seed._filter_cache_key category_id (JStr key)) as [ cached | ] eqn:Hcache;
        [ | discriminate ].
      assert (Hone : s1 = self /\
                     assignment_for (Seed.Seeder.filter_cache self) category_id (key, value) a).
      { unfold assignment_for. simpl. rewrite Hcache.
        destruct (bool_decide (Seed.CreatedFilter.type cached = JStr "QUANTITATIVE")) eqn:Hq.
        - destruct (py_float value) as [ number | e ] eqn:Hfloat.
          + injection H1 as <- <-. split; [ reflexivity | ].
            exists cached. split; [ reflexivity | ]. rewrite Hq. eauto.
          + discriminate.
        - injection H1 as <- <-. split; [ reflexivity | ].
          exists cached. split; [ reflexivity | ]. rewrite Hq. reflexivity. }
      destruct Hone as [-> Hone].
      apply bind_inv in H2 as [(ys & s2 & H2 & H3) | (e & H2 & ->)].
      * injection H3 as <- <-. destruct (IH _ _ _ H2) as [-> Hrest].
        split; [ reflexivity | ]. intros out Hout. injection Hout as <-.
        constructor; [ exact Hone | apply Hrest; reflexivity ].
      * destruct (IH _ _ _ H2) as [-> _]. split; [ reflexivity | discriminate ].
    + split; [ | discriminate ].
      unfold Seed.map_assignment in H1. rewrite bind_gets in H1.
      destruct (Seed.Seeder.filter_cache self !! _) as [ cached | ].
      * destruct (bool_decide _).
        -- destruct (py_float value); [ discriminate | ]. injection H1 as _ <-. reflexivity.
        -- discriminate.
      * injection H1 as _ <-. reflexivity.
Qed.

(** X15. The assignments the product is created with: one for each filter of
    the row, in the order of the row; each names a filter that is cached
    for the category under the key of the row, and carries the value as a
    number when the filter is quantitative and as a text otherwise. *)
Theorem filter_assignments_follow_the_row
    (site_id category_id : json) (row : Seed.Row.t) (self : Seed.Seeder.t)
    (assignments : list json) (self' : Seed.Seeder.t) :
  Seed._ensure_filters_and_map_assignments site_id category_id row self
  = (Ok assignments, self') ->
  exists entries,
    Seed.Row.product_filters row = JObj entries /\
    Forall2 (assignment_for (Seed.Seeder.filter_cache self') category_id) entries assignments.
Proof.
  unfold Seed._ensure_filters_and_map_assignments. rewrite bind_gets. intros H.
  apply bind_ok in H as (u & s1 & _ & H).
  apply bind_ok in H as (u' & s2 & _ & H).
  apply bind_ok in H as (entries & s3 & Hitems & H).
  unfold Seed.lift in Hitems. injection Hitems as Hitems <-.
  destruct (collect_assignments _ _ _ _ _ H) as [-> Hall].
  exists entries. split; [ | apply Hall; reflexivity ].
  destruct (Seed.Row.product_filters row); try discriminate.
  simpl in Hitems. injection Hitems as ->. reflexivity.
Qed.

End Caches.

(** *** The rows of the file *)

Section Rows.
Context {py : PyLib} {csv : CsvFiles}.

Lemma truthy_str_not_empty (s : string) : Py.truthy_str s = true -> s <> "".
Proof. intros H ->. discriminate. Qed.

Lemma or_none_not_empty (text : string) : Seed.or_none text <> Some "".
Proof.
  unfold Seed.or_none. destruct (Py.truthy_str text) eqn:H; [ | discriminate ].
  intros Heq. injection Heq as ->. discriminate.
Qed.

Lemma validate_scheduled (normalized accepted : Seed.Row.t) :
  Seed.validate normalized = Ok accepted ->
  PyStr.upper (Seed.Row.product_status normalized) = "SCHEDULED" ->
  Seed.Row.product_scheduled_publish_at normalized <> None.
Proof.
  unfold Seed.validate. intros H Hstatus Hnone. rewrite Hstatus, Hnone in H.
  simpl in H. discriminate.
Qed.

Lemma images_not_blank (raw : gmap string string) :
  Forall (fun image => image <> "") (Seed.images_of raw).
Proof.
  apply List.Forall_forall. intros image Hin. unfold Seed.images_of in Hin.
  apply List.filter_In in Hin as [_ Htruthy]. apply truthy_str_not_empty. exact Htruthy.
Qed.

Lemma status_not_empty (given : string) :
  (let stripped := PyStr.strip (if Py.truthy_str given then given else "DRAFT") in
   if Py.truthy_str stripped then stripped else "DRAFT") <> "".
Proof.
  cbv zeta. destruct (Py.truthy_str (PyStr.strip _)) eqn:H.
  - apply truthy_str_not_empty. exact H.
  - discriminate.
Qed.

Lemma normalized_row_well_formed (raw : gmap string string) (row : Seed.Row.t) :
  Seed._normalize_row raw = Ok row -> well_formed_row row.
Proof.
  unfold Seed._normalize_row.
  destruct (Seed.parse_json_field raw "filter_definitions") as [ fd | ]; [ simpl | discriminate ].
  destruct (Seed.parse_json_field raw "product_filters") as [ pf | ]; [ simpl | discriminate ].
  pose proof (images_not_blank raw) as Himages.
  destruct (Seed.images_of raw) as [ | image images ]; [ discriminate | ].
  destruct (if Py.truthy_str (Seed.field raw "price_amount") then _ else _) as [ price | ];
    [ simpl | discriminate ].
  destruct (if Py.truthy_str (Seed.field raw "inventory_initial_quantity") then _ else _)
    as [ quantity | ]; [ simpl | discriminate ].
  intros Hvalid.
  pose proof (validate_scheduled _ _ Hvalid) as Hscheduled.
  apply validate_requires in Hvalid as (-> & Hrequired). simpl in Hrequired, Hscheduled.
  unfold well_formed_row. simpl.
  split.
  { repeat (constructor; [ first [ tauto | apply status_not_empty ] | ]). constructor. }
  split; [ discriminate | ]. split; [ exact Himages | ].
  split; [ tauto | ]. split; [ tauto | ]. split; [ exact Hscheduled | ].
  repeat split; apply or_none_not_empty.
Qed.

(** X16. The rows [load_rows] returns are the lines of the file, one row for
    each line and in their order, and each is well formed: the required
    texts, the status among them, are not empty, there is an image and no
    image is blank, there are a price and a quantity, a scheduled product
    has its date, and an optional text is absent rather than empty. *)
Theorem loaded_rows_are_well_formed (csv_path : string) (rows : list Seed.Row.t) :
  Seed.load_rows csv_path = Ok rows ->
  exists raws,
    read_csv csv_path = Some raws /\
    Forall2 (fun raw row => Seed._normalize_row raw = Ok row) raws rows /\
    Forall well_formed_row rows.
Proof.
  unfold Seed.load_rows. destruct (read_csv csv_path) as [ raws | ]; [ | discriminate ].
  intros Hload. exists raws. split; [ reflexivity | ].
  destruct (normalize_from_outcome raws 2 [])
    as [(found & Hall & Hrun) | (j & raw & exc & _ & _ & _ & Hrun)];
    rewrite Hrun in Hload; [ | discriminate ].
  injection Hload as <-. simpl. split; [ exact Hall | ].
  clear Hrun. induction Hall as [ | raw row raws found Hrow _ IH ]; constructor.
  - eapply normalized_row_well_formed. exact Hrow.
  - exact IH.
Qed.

End Rows.

(** *** The run *)

Section Run.
Context {py : PyLib} {gw : Gateway} {csv : CsvFiles}.

(** X17. In a dry run the seeder sends nothing, whatever the rows are and
    whether they succeed or not. *)
Theorem dry_run_sends_nothing
    (rows : list Seed.Row.t) (self : Seed.Seeder.t) (r : result unit) (self' : Seed.Seeder.t) :
  Seed.Seeder.dry_run self = true ->
  Seed.process_rows rows self = (r, self') ->
  Seed.Seeder.sent self' = Seed.Seeder.sent self /\ Seed.Seeder.dry_run self' = true.
Proof.
  intros Hdry Hrun. destruct (quiet_process_rows rows _ _ _ Hrun Hdry) as [Hd Hs].
  split; assumption.
Qed.

(** X18. Every request the seeder sends goes to one of its seven endpoints
    below the base URL and asks for JSON; it is a GET without a body or a
    POST of a JSON body with its content type. *)
Theorem requests_are_well_formed
    (rows : list Seed.Row.t) (self : Seed.Seeder.t) (r : result unit) (self' : Seed.Seeder.t) :
  Seed.process_rows rows self = (r, self') ->
  exists more,
    Seed.Seeder.sent self' = Seed.Seeder.sent self ++ more /\
    Forall (ok_request (Seed.Seeder.base_url self)) more.
Proof.
  intros Hrun. destruct (sends_process_rows _ rows _ _ _ Hrun eq_refl) as [_ Hmore].
  exact Hmore.
Qed.

(** X19. The requests of a run of the script: all of them are well formed,
    on the base URL without the slashes at its end; there is none in a dry
    run, none when the owner is not a UUID, and none when the file cannot
    be loaded. *)
Theorem main_requests (args : Seed.Args) :
  Forall (ok_request (PyStr.rstrip_chars "/" (Seed.gateway_base_url args)))
         (snd (Seed.main args)) /\
  (Seed.dry_run args = true -> snd (Seed.main args) = []) /\
  (uuid_of_str (Seed.owner_id args) = None -> snd (Seed.main args) = []) /\
  (forall e, Seed.load_rows (Seed.csv_path args) = Raise e -> snd (Seed.main args) = []).
Proof.
  unfold Seed.main.
  destruct (uuid_of_str (Seed.owner_id args)) as [ owner | ];
    [ | repeat split; first [ constructor | reflexivity | congruence ] ].
  destruct (Seed.load_rows (Seed.csv_path args)) as [ rows | e ];
    [ | repeat split; first [ constructor | reflexivity | congruence ] ].
  destruct (Seed.process_rows rows _) as [outcome seeder'] eqn:Hrun. simpl.
  split; [ | split; [ | split; discriminate ] ].
  - destruct (sends_process_rows _ rows _ _ _ Hrun eq_refl) as (_ & more & Hsent & Hok).
    rewrite Hsent. exact Hok.
  - intros Hdry. destruct (quiet_process_rows rows _ _ _ Hrun Hdry) as [_ Hsent].
    exact Hsent.
Qed.

End Run.

(** *** The seeder on the samples *)

Lemma dry_run_sends_nothing_witness :
  let done :=
    snd (Seed.process_rows (py := Sample.py) (gw := Sample.gateway) [Sample.row] Sample.dry_seeder) in
  Seed.process_rows (py := Sample.py) (gw := Sample.gateway) [Sample.row] Sample.dry_seeder
  = (Ok tt, done) /\
  Seed.Seeder.sent done = Seed.Seeder.sent Sample.dry_seeder /\
  Seed.Seeder.dry_run done = true.
Proof.
  intros done.
  assert (Hrun : Seed.process_rows (py := Sample.py) (gw := Sample.gateway)
                   [Sample.row] Sample.dry_seeder = (Ok tt, done))
    by (vm_compute; reflexivity).
  split; [ exact Hrun | ].
  exact (dry_run_sends_nothing (py := Sample.py) (gw := Sample.gateway) [Sample.row]
           Sample.dry_seeder (Ok tt) done eq_refl Hrun).
Defined.

Lemma requests_are_well_formed_witness :
  let done :=
    snd (Seed.process_rows (py := Sample.py) (gw := Sample.gateway)
           [Sample.row] Sample.seeder) in
  Seed.process_rows (py := Sample.py) (gw := Sample.gateway) [Sample.row] Sample.seeder
  = (Ok tt, done) /\
  exists more,
    Seed.Seeder.sent done = Seed.Seeder.sent Sample.seeder ++ more /\
    Forall (ok_request (Seed.Seeder.base_url Sample.seeder)) more.
Proof.
  intros done.
  assert (Hrun : Seed.process_rows (py := Sample.py) (gw := Sample.gateway)
                   [Sample.row] Sample.seeder = (Ok tt, done))
    by (vm_compute; reflexivity).
  split; [ exact Hrun | ].
  exact (requests_are_well_formed (py := Sample.py) (gw := Sample.gateway) [Sample.row]
           Sample.seeder (Ok tt) done Hrun).
Defined.

Lemma main_requests_witness :
  let args := Seed.mk_args "data/seed-data.csv" (Sample.base +:+ "//") Sample.owner true in
  Seed.dry_run args = true /\
  snd (Seed.main (py := Sample.py) (gw := Sample.gateway) (csv := Sample.csv) args) = [].
Proof.
  intros args.
  destruct (main_requests (py := Sample.py) (gw := Sample.gateway) (csv := Sample.csv) args)
    as (_ & Hdry & _).
  split; [ reflexivity | ]. apply Hdry. reflexivity.
Defined.

Lemma ensured_site_is_kept_witness :
  let after := snd (Seed._ensure_site (py := Sample.py) (gw := Sample.gateway)
                      Sample.row Sample.seeder) in
  let run := Seed.process_rows (py := Sample.py) (gw := Sample.gateway)
               [Sample.row; Sample.stray_row] after in
  Seed._ensure_site (py := Sample.py) (gw := Sample.gateway) Sample.row Sample.seeder
  = (Ok Sample.site_doc, after) /\
  Seed.Seeder.site_cache (snd run) !! Seed.site_cache_key Sample.row = Some Sample.site_doc /\
  Seed._ensure_site (py := Sample.py) (gw := Sample.gateway) Sample.row (snd run)
  = (Ok Sample.site_doc, snd run).
Proof.
  intros after run.
  assert (Hsite : Seed._ensure_site (py := Sample.py) (gw := Sample.gateway)
                    Sample.row Sample.seeder = (Ok Sample.site_doc, after))
    by (vm_compute; reflexivity).
  assert (Hrun : run = (fst run, snd run)) by (vm_compute; reflexivity).
  split; [ exact Hsite | ].
  exact (ensured_site_is_kept (py := Sample.py) (gw := Sample.gateway)
           Sample.row Sample.seeder Sample.site_doc after [Sample.row; Sample.stray_row]
           (fst run) (snd run) Sample.row Hsite Hrun eq_refl).
Defined.

Lemma ensure_category_twice_witness :
  let after := snd (Seed._ensure_category (py := Sample.py) (gw := Sample.gateway)
                      (JStr "site-1") "Shoes" Sample.filter_definitions Sample.seeder) in
  Seed._ensure_category (py := Sample.py) (gw := Sample.gateway)
    (JStr "site-1") "Shoes" Sample.filter_definitions Sample.seeder
  = (Ok Sample.category_doc, after) /\
  PyStr.lower "SHOES" = PyStr.lower "Shoes" /\
  Seed.Seeder.category_cache after
    !! (py_str (py := Sample.py) (JStr "site-1"), PyStr.lower "Shoes")
  = Some Sample.category_doc /\
  Seed._ensure_category (py := Sample.py) (gw := Sample.gateway)
    (JStr "site-1") "SHOES" (JArr []) after
  = (Ok Sample.category_doc, after).
Proof.
  intros after.
  assert (Hrun : Seed._ensure_category (py := Sample.py) (gw := Sample.gateway)
                   (JStr "site-1") "Shoes" Sample.filter_definitions Sample.seeder
                 = (Ok Sample.category_doc, after))
    by (vm_compute; reflexivity).
  assert (Hname : PyStr.lower "SHOES" = PyStr.lower "Shoes") by reflexivity.
  split; [ exact Hrun | ]. split; [ exact Hname | ].
  exact (ensure_category_twice (py := Sample.py) (gw := Sample.gateway)
           (JStr "site-1") "Shoes" Sample.filter_definitions Sample.seeder
           Sample.category_doc after "SHOES" (JArr []) Hrun Hname).
Defined.

Lemma process_rows_stops_at_first_failure_witness :
  let mid := snd (Seed.process_rows (py := Sample.py) (gw := Sample.gateway)
                    [Sample.row] Sample.seeder) in
  let failed := snd (Seed.process_row (py := Sample.py) (gw := Sample.gateway)
                       Sample.stray_row mid) in
  let refused :=
    RuntimeError ("Failed to reach " +:+ Sample.base +:+ "/api/sites/slug/other"
                  +:+ ": " +:+ "connection refused") in
  Seed.process_row (py := Sample.py) (gw := Sample.gateway) Sample.stray_row mid
  = (Raise refused, failed) /\
  Seed.process_rows (py := Sample.py) (gw := Sample.gateway)
    ([Sample.row] ++ Sample.stray_row :: [Sample.row]) Sample.seeder
  = (Raise refused, failed).
Proof.
  intros mid failed refused.
  assert (Hbefore : Seed.process_rows (py := Sample.py) (gw := Sample.gateway)
                      [Sample.row] Sample.seeder = (Ok tt, mid))
    by (vm_compute; reflexivity).
  assert (Hrow : Seed.process_row (py := Sample.py) (gw := Sample.gateway) Sample.stray_row mid
                 = (Raise refused, failed))
    by (vm_compute; reflexivity).
  split; [ exact Hrow | ].
  exact (process_rows_stops_at_first_failure (py := Sample.py) (gw := Sample.gateway)
           [Sample.row] [Sample.row] Sample.stray_row Sample.seeder mid failed refused Hbefore Hrow).
Defined.

Lemma filter_assignments_follow_the_row_witness :
  let assignments := [JObj [("filterId", JStr "filter-1"); ("textValue", JStr "42")]] in
  let done :=
    snd (Seed._ensure_filters_and_map_assignments (py := Sample.py) (gw := Sample.gateway)
           (JStr "site-1") (JStr "cat-1") Sample.row Sample.seeder) in
  Seed._ensure_filters_and_map_assignments (py := Sample.py) (gw := Sample.gateway)
    (JStr "site-1") (JStr "cat-1") Sample.row Sample.seeder
  = (Ok assignments, done) /\
  exists entries,
    Seed.Row.product_filters Sample.row = JObj entries /\
    Forall2 (assignment_for (py := Sample.py) (Seed.Seeder.filter_cache done) (JStr "cat-1"))
            entries assignments.
Proof.
  intros assignments done.
  assert (Hrun : Seed._ensure_filters_and_map_assignments
                   (py := Sample.py) (gw := Sample.gateway)
                   (JStr "site-1") (JStr "cat-1") Sample.row Sample.seeder
                 = (Ok assignments, done))
    by (vm_compute; reflexivity).
  split; [ exact Hrun | ].
  exact (filter_assignments_follow_the_row (py := Sample.py) (gw := Sample.gateway)
           (JStr "site-1") (JStr "cat-1") Sample.row Sample.seeder assignments done Hrun).
Defined.

Lemma loaded_rows_are_well_formed_witness :
  Seed.load_rows (py := Sample.py) (csv := Sample.csv) "data/seed-data.csv" = Ok [Sample.row] /\
  exists raws,
    read_csv (CsvFiles := Sample.csv) "data/seed-data.csv" = Some raws /\
    Forall2 (fun raw row => Seed._normalize_row (py := Sample.py) raw = Ok row)
            raws [Sample.row] /\
    Forall well_formed_row [Sample.row].
Proof.
  assert (Hload : Seed.load_rows (py := Sample.py) (csv := Sample.csv) "data/seed-data.csv"
                  = Ok [Sample.row])
    by (vm_compute; reflexivity).
  split; [ exact Hload | ].
  exact (loaded_rows_are_well_formed (py := Sample.py) (csv := Sample.csv)
           "data/seed-data.csv" [Sample.row] Hload).
Defined.
